(** * MAUI DevCleaner (extension.js): size probe, version ordering,
      retention policy, removal loops and the cleaning commands

    A shallow embedding of the helpers of [extension.js]
    ([getFolderSize], [formatBytes], [deleteFolderRecursive],
    [keepLatestVersion], [getAndroidSdkPath]) and of the commands it
    registers: [cleanBinObj], [cleanNugetCache], [cleanIosDeviceSupport],
    [cleanAndroidSdk], [cleanIosSimulatorRuntime], [cleanDotnetPacks] and
    [cleanAllExceptLatest].

    Conventions.
    - JS numbers that hold byte counts and counters are [Z]; [NaN] is [None].
      Only the unit index of [formatBytes] depends on how a double rounds:
      there the numbers are IEEE 754 doubles (modules [Number] and [Math]).
    - JS strings are [string]; the string methods the code calls
      ([split], [replace], [endsWith], [parseInt], number-to-string) are
      written out below on the inputs the code gives them.
    - A path is the list of its segments, [path.join] appends segments.
    - The file system is a tree of nodes; commands thread a [world]
      (file system + what the host has been shown) through a small
      state-and-exception monad. *)

From Stdlib Require Import ZArith List String Ascii Bool Lia Permutation Sorted.
From Stdlib Require Import Numbers.DecimalString.
From Stdlib Require Numbers.DecimalPos.
From Stdlib Require Import Floats.
Import ListNotations.

Open Scope string_scope.
Open Scope list_scope.
Open Scope Z_scope.

Infix "+++" := String.append (right associativity, at level 60).

(* ================================================================= *)
(** ** JS string methods *)

Module JsString.

(** [s] without its first [n] characters. *)
Fixpoint drop (n : nat) (s : string) : string :=
  match n, s with
  | O, _ => s
  | S _, EmptyString => EmptyString
  | S n', String _ s' => drop n' s'
  end.

(** [s.endsWith(suffix)] *)
Definition endsWith (suffix s : string) : bool :=
  let n := String.length s in
  let m := String.length suffix in
  if (m <=? n)%nat then String.eqb (drop (n - m) s) suffix else false.

(** [s.replace(pat, rep)] with a string pattern: only the FIRST
    occurrence of [pat] is replaced ([rep] holds no [$] pattern here). *)
Fixpoint replace (pat rep s : string) : string :=
  if String.prefix pat s then rep +++ drop (String.length pat) s
  else match s with
       | EmptyString => EmptyString
       | String c s' => String c (replace pat rep s')
       end.

Definition rev_string (cs : list ascii) : string :=
  string_of_list_ascii (List.rev cs).

(** [s.split(sep)] for a non-empty separator.  [skip] counts the
    characters of a matched separator still to be passed over, [cur]
    holds the current piece, last character first. *)
Fixpoint split_go (sep : string) (skip : nat) (cur : list ascii) (s : string)
  : list string :=
  match s with
  | EmptyString => [rev_string cur]
  | String c s' =>
      match skip with
      | S k => split_go sep k cur s'
      | O =>
          if String.prefix sep s
          then rev_string cur :: split_go sep (String.length sep - 1) [] s'
          else split_go sep 0 (c :: cur) s'
      end
  end.

Definition split (sep s : string) : list string := split_go sep 0 [] s.

Definition is_digit (c : ascii) : bool :=
  let n := nat_of_ascii c in ((48 <=? n) && (n <=? 57))%nat.

Definition digit_value (c : ascii) : Z := Z.of_nat (nat_of_ascii c) - 48.

(** White space as [parseInt] trims it (the ASCII part of it). *)
Definition is_space (c : ascii) : bool :=
  let n := nat_of_ascii c in
  ((n =? 32) || (n =? 9) || (n =? 10) || (n =? 11) || (n =? 12) || (n =? 13))%nat.

Fixpoint trimStart (s : string) : string :=
  match s with
  | String c s' => if is_space c then trimStart s' else s
  | EmptyString => EmptyString
  end.

(** The value of the longest run of decimal digits at the head of [s],
    continuing from [acc]; [seen] tells whether a digit was read. *)
Fixpoint digits_go (seen : bool) (acc : Z) (s : string) : option Z :=
  match s with
  | String c s' =>
      if is_digit c then digits_go true (10 * acc + digit_value c) s'
      else if seen then Some acc else None
  | EmptyString => if seen then Some acc else None
  end.

(** [parseInt(s)] in radix 10: leading white space, an optional sign,
    then the longest run of digits; [None] is [NaN].  The code only
    applies it to the output of [formatBytes], which never starts
    with [0x]. *)
Definition parseInt (s : string) : option Z :=
  match trimStart s with
  | String "-" s' => option_map Z.opp (digits_go false 0 s')
  | String "+" s' => digits_go false 0 s'
  | s' => digits_go false 0 s'
  end.

(** [parseInt(undefined)] is [NaN]. *)
Definition parseInt_opt (s : option string) : option Z :=
  match s with Some s' => parseInt s' | None => None end.

(** Decimal rendering of an integer, [String(n)]. *)
Definition ofZ (n : Z) : string := NilEmpty.string_of_int (Z.to_int n).

End JsString.

(* ================================================================= *)
(** ** Numbers of the runtime *)

(** [formatBytes] takes the logarithm of a byte count, so on this one
    path a JS number is read as what it is, an IEEE 754 double, Rocq's
    primitive [float]. *)
Module Number.

(** The Number an integer denotes: the nearest double, ties to even;
    the integer itself below [2^53]. *)
Definition ofZ (n : Z) : float :=
  SF2Prim (SpecFloat.binary_normalize FloatOps.prec FloatOps.emax n 0 false).

(** [Math.floor(x)] as an integer; [None] when [x] is NaN or an
    infinity. *)
Definition floor (x : float) : option Z :=
  match Prim2SF x with
  | S754_zero _ => Some 0
  | S754_finite s m e =>
      let m := if s then Z.neg m else Z.pos m in
      Some (if 0 <=? e then m * 2 ^ e else m / 2 ^ (- e))
  | _ => None
  end.

End Number.

Module Math.

Local Open Scope float_scope.

(** Modelled from the runtime: [Math.log] is no code of the repository.
    The extension runs on Node, whose [Math.log] is the [log] of V8's
    [base/ieee754.cc], the algorithm of fdlibm's [e_log.c]; it is written
    out here statement by statement, with the names of the C code.  The
    C code reads the bits of [x]: [hx] below is the 20 fraction bits of
    the high word, [e - 1] the unbiased exponent, and
    [__HI(x) = hx|(i^0x3ff00000)] sets the exponent to 0 or -1, which for
    the mantissa [m] in [1/2, 1) is [2 * m] or [m]. *)
Definition ln2_hi : float := 0x1.62e42fee00000p-1.
Definition ln2_lo : float := 0x1.a39ef35793c76p-33.
Definition two54 : float := 0x1p+54.
Definition Lg1 : float := 0x1.5555555555593p-1.
Definition Lg2 : float := 0x1.999999997fa04p-2.
Definition Lg3 : float := 0x1.2492494229359p-2.
Definition Lg4 : float := 0x1.c71c51d8e78afp-3.
Definition Lg5 : float := 0x1.7466496cb03dep-3.
Definition Lg6 : float := 0x1.39a09d078c69fp-3.
Definition Lg7 : float := 0x1.2f112df3e5244p-3.

Definition log (x : float) : float :=
  if PrimFloat.is_nan x then x + x
  else if x =? 0 then - two54 / 0
  else if x <? 0 then (x - x) / 0
  else if PrimFloat.is_infinity x then x + x
  else
    let '(x, k) := if x <? 0x1p-1022 then (x * two54, (-54)%Z) else (x, 0%Z) in
    let '(m, e) := FloatOps.Z.frexp x in
    let hx := ((Uint63.to_Z (PrimFloat.normfr_mantissa m) - 2 ^ 52) / 2 ^ 32)%Z in
    let i := Z.land (hx + 0x95f64) 0x100000 in
    let x := if (i =? 0)%Z then m * 2 else m in
    let k := (k + (e - 1) + Z.shiftr i 20)%Z in
    let f := x - 1 in
    let dk := Number.ofZ k in
    if (Z.land 0xfffff (2 + hx) <? 3)%Z then
      if f =? 0 then
        if (k =? 0)%Z then 0 else dk * ln2_hi + dk * ln2_lo
      else
        let R := f * f * (0.5 - 0x1.5555555555555p-2 * f) in
        if (k =? 0)%Z then f - R
        else dk * ln2_hi - ((R - dk * ln2_lo) - f)
    else
      let s := f / (2 + f) in
      let z := s * s in
      let i := (hx - 0x6147a)%Z in
      let w := z * z in
      let j := (0x6b851 - hx)%Z in
      let t1 := w * (Lg2 + w * (Lg4 + w * Lg6)) in
      let t2 := z * (Lg1 + w * (Lg3 + w * (Lg5 + w * Lg7))) in
      let R := t2 + t1 in
      (* [i |= j; if (i > 0)] *)
      if ((0 <=? i) && (0 <=? j) && negb ((i =? 0) && (j =? 0)))%Z then
        let hfsq := 0.5 * f * f in
        if (k =? 0)%Z then f - (hfsq - s * (hfsq + R))
        else dk * ln2_hi - ((hfsq - (s * (hfsq + R) + dk * ln2_lo)) - f)
      else
        if (k =? 0)%Z then f - s * (f - R)
        else dk * ln2_hi - ((s * (f - R) - dk * ln2_lo) - f).

End Math.

(* ================================================================= *)
(** ** formatBytes *)

Definition sizes : list string := ["Bytes"; "KB"; "MB"; "GB"; "TB"].

(** [sizes[i]], and the text string concatenation makes of [undefined]. *)
Definition sizes_at (i : Z) : option string :=
  if i <? 0 then None else nth_error sizes (Z.to_nat i).

Definition show_undefined (o : option string) : string :=
  match o with Some s => s | None => "undefined" end.

(** [Math.floor(Math.log(bytes) / Math.log(k))]: the two logarithms and
    their quotient are doubles, rounded as the runtime rounds them, so
    just below a power of [k] the quotient can already be the next
    integer.  [None] when the quotient is no finite number. *)
Definition unitIndex (k bytes : Z) : option Z :=
  Number.floor (PrimFloat.div (Math.log (Number.ofZ bytes)) (Math.log (Number.ofZ k))).

(** [(num / den).toFixed(2)], as a count of hundredths: the nearest
    multiple of [0.01], the larger one on a tie.  [den] is a power of two
    here, so the quotient is exact before the rounding. *)
Definition toFixed2 (num den : Z) : Z := (200 * num + den) / (2 * den).

(** [(bytes / Math.pow(k, i)).toFixed(2)] in hundredths, for a byte count
    below [2^53]: [Math.pow(k, i)] is a power of two, so both it and the
    quotient are exact. *)
Definition scaledHundredths (bytes k i : Z) : Z :=
  if 0 <=? i then toFixed2 bytes (k ^ i) else toFixed2 (bytes * k ^ (- i)) 1.

(** [parseFloat(x.toFixed(2)) + ''] for [x] given in hundredths: trailing
    zeros of the fraction are not printed. *)
Definition showHundredths (h : Z) : string :=
  let ip := h / 100 in
  let d1 := (h / 10) mod 10 in
  let d2 := h mod 10 in
  JsString.ofZ ip +++
  (if (d1 =? 0) && (d2 =? 0) then ""
   else "." +++ JsString.ofZ d1 +++ (if d2 =? 0 then "" else JsString.ofZ d2)).

(** With an index that is no finite number, [toFixed] gives ["NaN"]. *)
Definition formatBytes (bytes : Z) : string :=
  if bytes =? 0 then "0 Bytes"
  else
    let k := 1024 in
    match unitIndex k bytes with
    | Some i =>
        showHundredths (scaledHundredths bytes k i) +++ " " +++
        show_undefined (sizes_at i)
    | None => "NaN undefined"
    end.

(* ================================================================= *)
(** ** Items *)

Definition path := list string.

(** The objects the commands build for the picker and for
    [keepLatestVersion].  The code builds them with some of these fields
    only ([{label, path}], [{label, description, path}], ...); a field an
    object does not carry is never read on it, and holds [""] or [false]
    here. *)
Record Item : Type := mkItem {
  label : string;
  description : string;
  detail : string;
  ipath : path;
  isUsed : bool
}.

(* ================================================================= *)
(** ** Array.prototype.sort *)

Module JsArray.
Section Sort.
Context {A : Type}.
Variable compareFn : A -> A -> comparison.

(** [Lt] stands for a negative result of the callback ([a] goes
    first), [Gt] for a positive one. *)
Fixpoint insert (x : A) (l : list A) : list A :=
  match l with
  | [] => [x]
  | y :: l' =>
      match compareFn x y with
      | Gt => y :: insert x l'
      | _ => x :: l
      end
  end.

(** The sort is stable (ECMAScript 2019): an element is never moved
    past one the callback calls equal to it. *)
Definition sort (l : list A) : list A := fold_right insert [] l.
End Sort.

(** The sign of a numeric callback result; [NaN] counts as [+0]. *)
Definition sign (v : option Z) : comparison :=
  match v with
  | Some n => n ?= 0
  | None => Eq
  end.

(** [x - y] on numbers that may be [NaN]. *)
Definition sub (x y : option Z) : option Z :=
  match x, y with
  | Some a, Some b => Some (a - b)
  | _, _ => None
  end.

(** *** Arrays as objects: a store of arrays addressed by reference *)
Definition ref := nat.
Definition store (A : Type) := list (list A).

Definition get {A} (h : store A) (r : ref) : option (list A) := nth_error h r.

(** A new array object. *)
Definition alloc {A} (h : store A) (v : list A) : store A * ref :=
  (h ++ [v], List.length h).

Fixpoint set {A} (h : store A) (r : ref) (v : list A) : store A :=
  match h, r with
  | [], _ => []
  | _ :: h', O => v :: h'
  | x :: h', S r' => x :: set h' r' v
  end.

(** [[...a]]: a new array with the elements of [a]. *)
Definition spread {A} (h : store A) (a : ref) : option (store A * ref) :=
  match get h a with
  | Some v => Some (alloc h v)
  | None => None
  end.

(** [a.sort(f)]: sorts [a] itself and returns the same reference. *)
Definition sort_in_place {A} (f : A -> A -> comparison) (h : store A) (a : ref)
  : option (store A * ref) :=
  match get h a with
  | Some v => Some (set h a (sort f v), a)
  | None => None
  end.

(** [a.slice(1)]: a new array. *)
Definition slice1 {A} (h : store A) (a : ref) : option (store A * ref) :=
  match get h a with
  | Some v => Some (alloc h (skipn 1 v))
  | None => None
  end.
End JsArray.

(* ================================================================= *)
(** ** VersionComparator *)

Module Collator.

(** A maximal run of decimal digits, or a maximal run of other
    characters. *)
Inductive run : Type :=
| Num (digits : string)
| Txt (chars : string).

Fixpoint runs (s : string) : list run :=
  match s with
  | EmptyString => []
  | String c s' =>
      let one := String c EmptyString in
      match runs s' with
      | Num ds :: r =>
          if JsString.is_digit c then Num (String c ds) :: r
          else Txt one :: Num ds :: r
      | Txt t :: r =>
          if JsString.is_digit c then Num one :: Txt t :: r
          else Txt (String c t) :: r
      | [] => [if JsString.is_digit c then Num one else Txt one]
      end
  end.

Fixpoint numval_go (acc : Z) (ds : string) : Z :=
  match ds with
  | EmptyString => acc
  | String c ds' => numval_go (10 * acc + JsString.digit_value c) ds'
  end.

Definition numval (ds : string) : Z := numval_go 0 ds.

Definition compare_run (a b : run) : comparison :=
  match a, b with
  | Num x, Num y => numval x ?= numval y
  | Txt x, Txt y => String.compare x y
  | Num _, Txt _ => Lt
  | Txt _, Num _ => Gt
  end.

Fixpoint compare_runs (xs ys : list run) : comparison :=
  match xs, ys with
  | [], [] => Eq
  | [], _ :: _ => Lt
  | _ :: _, [] => Gt
  | x :: xs', y :: ys' =>
      match compare_run x y with
      | Eq => compare_runs xs' ys'
      | c => c
      end
  end.

(** Modelled from the spec: [a.localeCompare(b, undefined, {numeric: true})]
    is the collation of the JavaScript runtime, which is not part of the
    sources.  Following section 4.2 of the specification, each string is
    split into runs of digits and of non-digits; corresponding runs are
    compared, numeric runs by integer value and the others lexically, and
    a string whose runs are a strict prefix of the other's is less.  Where
    a numeric run meets a non-numeric one, the numeric one is taken to
    come first.  [Lt], [Eq], [Gt] stand for a negative, zero and positive
    result. *)
Definition localeCompare (a b : string) : comparison :=
  compare_runs (runs a) (runs b).

End Collator.

(** [label.split(' ')[0]] *)
Definition versionToken (lbl : string) : string :=
  hd "" (JsString.split " " lbl).

(** The ordering of two labels that [keepLatestVersion] sorts by. *)
Definition compareVersions (labelA labelB : string) : comparison :=
  Collator.localeCompare (versionToken labelA) (versionToken labelB).

(** The callback of the sort in [keepLatestVersion]:
    [versionB.localeCompare(versionA, undefined, { numeric: true })]. *)
Definition byVersionDescending (a b : Item) : comparison :=
  let versionA := versionToken (label a) in
  let versionB := versionToken (label b) in
  Collator.localeCompare versionB versionA.

(* ================================================================= *)
(** ** keepLatestVersion *)

(** On the elements of the array. *)
Definition keepLatestVersion (versions : list Item) : list Item :=
  if (List.length versions <=? 1)%nat then []
  else
    let sortedVersions := JsArray.sort byVersionDescending versions in
    skipn 1 sortedVersions.

(** On array objects: [versions] is a reference into the store, the
    result is the new store and the reference returned. *)
Definition keepLatestVersion_store (h : JsArray.store Item) (versions : JsArray.ref)
  : option (JsArray.store Item * JsArray.ref) :=
  match JsArray.get h versions with
  | None => None
  | Some vs =>
      if (List.length vs <=? 1)%nat then Some (JsArray.alloc h [])
      else
        match JsArray.spread h versions with
        | None => None
        | Some (h1, copy) =>
            match JsArray.sort_in_place byVersionDescending h1 copy with
            | None => None
            | Some (h2, sortedVersions) => JsArray.slice1 h2 sortedVersions
            end
        end
  end.

(* ================================================================= *)
(** ** The file system *)

Set Warnings "-register-all".

(** What [fs.statSync] can tell about a path: a regular file (with the
    size [stat.size] and the text [readFileSync] gives), a directory
    with its entries in [readdirSync] order, or something that is neither
    (a socket, a device, ...). *)
Inductive node : Type :=
| File (size : Z) (content : string)
| Dir (entries : list (string * node))
| Other.

(** A thrown [Error] carries its [message]. *)
Inductive result (A : Type) : Type :=
| Ok (a : A)
| Throw (message : string).

Arguments Ok {A} a.
Arguments Throw {A} message.

Module Fs.

Fixpoint lookup (name : string) (entries : list (string * node)) : option node :=
  match entries with
  | [] => None
  | (n, c) :: rest => if String.eqb n name then Some c else lookup name rest
  end.

(** The node a path leads to from the root [r]. *)
Fixpoint resolve (r : node) (p : path) : option node :=
  match p with
  | [] => Some r
  | seg :: p' =>
      match r with
      | Dir entries =>
          match lookup seg entries with
          | Some c => resolve c p'
          | None => None
          end
      | _ => None
      end
  end.

Definition existsSync (r : node) (p : path) : bool :=
  match resolve r p with Some _ => true | None => false end.

Definition readdirSync (r : node) (p : path) : result (list string) :=
  match resolve r p with
  | Some (Dir entries) => Ok (map fst entries)
  | Some _ => Throw "ENOTDIR: not a directory, scandir"
  | None => Throw "ENOENT: no such file or directory, scandir"
  end.

Definition statSync (r : node) (p : path) : result node :=
  match resolve r p with
  | Some n => Ok n
  | None => Throw "ENOENT: no such file or directory, stat"
  end.

Definition isFile (n : node) : bool :=
  match n with File _ _ => true | _ => false end.

Definition isDirectory (n : node) : bool :=
  match n with Dir _ => true | _ => false end.

Definition readFileSync (r : node) (p : path) : result string :=
  match resolve r p with
  | Some (File _ content) => Ok content
  | Some (Dir _) => Throw "EISDIR: illegal operation on a directory, read"
  | Some Other => Throw "EIO: i/o error, read"
  | None => Throw "ENOENT: no such file or directory, open"
  end.

(** The tree without the entry at [p] (what a successful recursive
    delete leaves). *)
Fixpoint remove_entry (name : string) (entries : list (string * node))
  : list (string * node) :=
  match entries with
  | [] => []
  | (n, c) :: rest =>
      if String.eqb n name then remove_entry name rest
      else (n, c) :: remove_entry name rest
  end.

Fixpoint update_entry (name : string) (f : node -> node)
  (entries : list (string * node)) : list (string * node) :=
  match entries with
  | [] => []
  | (n, c) :: rest =>
      if String.eqb n name then (n, f c) :: rest
      else (n, c) :: update_entry name f rest
  end.

Fixpoint remove (p : path) (r : node) : node :=
  match p with
  | [] => r
  | [seg] =>
      match r with
      | Dir entries => Dir (remove_entry seg entries)
      | _ => r
      end
  | seg :: p' =>
      match r with
      | Dir entries => Dir (update_entry seg (remove p') entries)
      | _ => r
      end
  end.

End Fs.

(* ================================================================= *)
(** ** getFolderSize *)

(** The [for (const file of files)] loop of [getFolderSize]: [size] is
    the running total, [stat] the node the joined path leads to, and
    [recurse] the recursive call on a sub-directory. *)
Fixpoint folderLoop (recurse : node -> result Z) (files : list (string * node))
  (size : Z) : result Z :=
  match files with
  | [] => Ok size
  | (_, stat) :: rest =>
      if Fs.isFile stat then
        match stat with
        | File sz _ => folderLoop recurse rest (size + sz)
        | _ => folderLoop recurse rest size
        end
      else if Fs.isDirectory stat then
        match recurse stat with
        | Ok sub => folderLoop recurse rest (size + sub)
        | Throw e => Throw e
        end
      else folderLoop recurse rest size
  end.

(** The body of [getFolderSize] once [folderPath] is known to exist and
    to lead to [n]: [readdirSync] lists the entries (and throws on a path
    that is not a directory), each entry is [stat]ed, and a
    sub-directory is measured by the recursive call on the joined path,
    which leads to the entry's own node. *)
Fixpoint folderSize (n : node) : result Z :=
  match n with
  | Dir files => folderLoop folderSize files 0
  | _ => Throw "ENOTDIR: not a directory, scandir"
  end.

Definition getFolderSize (r : node) (folderPath : path) : result Z :=
  match Fs.resolve r folderPath with
  | None => Ok 0
  | Some n => folderSize n
  end.

(** *** getFolderSize on paths

    The same function written on paths, statement by statement:
    [existsSync], [readdirSync], [path.join], [statSync] and the recursive
    call on the joined path.  The recursion is not structural, so it takes
    fuel; [None] is "out of fuel". *)

(** [stat.size] *)
Definition stat_size (stat : node) : Z :=
  match stat with File sz _ => sz | _ => 0 end.

Fixpoint pathLoop (recurse : path -> option (result Z)) (r : node)
  (folderPath : path) (files : list string) (size : Z) : option (result Z) :=
  match files with
  | [] => Some (Ok size)
  | file :: rest =>
      let filePath := folderPath ++ [file] in
      match Fs.statSync r filePath with
      | Throw e => Some (Throw e)
      | Ok stat =>
          if Fs.isFile stat
          then pathLoop recurse r folderPath rest (size + stat_size stat)
          else if Fs.isDirectory stat then
            match recurse filePath with
            | None => None
            | Some (Throw e) => Some (Throw e)
            | Some (Ok sub) => pathLoop recurse r folderPath rest (size + sub)
            end
          else pathLoop recurse r folderPath rest size
      end
  end.

Fixpoint getFolderSize_fuel (fuel : nat) (r : node) (folderPath : path)
  : option (result Z) :=
  match fuel with
  | O => None
  | S fuel' =>
      if Fs.existsSync r folderPath then
        match Fs.readdirSync r folderPath with
        | Throw e => Some (Throw e)
        | Ok files => pathLoop (getFolderSize_fuel fuel' r) r folderPath files 0
        end
      else Some (Ok 0)
  end.

(** The depth of a tree, and trees in which no directory lists a name
    twice. *)
Fixpoint height (n : node) : nat :=
  match n with
  | Dir entries => S (fold_right (fun e h => Nat.max (height (snd e)) h) 0%nat entries)
  | _ => 0%nat
  end.

Inductive unique_names : node -> Prop :=
| unique_file : forall sz content, unique_names (File sz content)
| unique_other : unique_names Other
| unique_dir : forall entries,
    NoDup (map fst entries) ->
    Forall (fun e => unique_names (snd e)) entries ->
    unique_names (Dir entries).

(** *** The size the specification gives a tree *)

(** The byte sizes of all regular files transitively contained in a
    node, in directory order. *)
Fixpoint regular_files (n : node) : list Z :=
  match n with
  | File sz _ => [sz]
  | Dir entries => flat_map (fun e => regular_files (snd e)) entries
  | Other => []
  end.

Definition sum (l : list Z) : Z := fold_right Z.add 0 l.

Definition total_file_bytes (n : node) : Z := sum (regular_files n).

(* ================================================================= *)
(** ** The host and the command monad *)

(** What a command shows or asks the outside, in the order it happens. *)
Inductive event : Type :=
| ConsoleLog (msg : string)
| Information (msg : string)
| Error (msg : string)
| Warning (msg : string)
| QuickPick (placeHolder : string) (items : list Item)
| Exec (command : string) (target : path).

Record world : Type := mkWorld {
  fs : node;
  shown : list event
}.

(** The parsed manifest, as far as the code reads it:
    [result.assets && result.assets.asset] is [None] when either is
    missing; an element's [$] (its attributes) may be missing too. *)
Record AssetElement : Type := mkAsset {
  dollar : option (list (string * string))
}.

Record XmlDoc : Type := mkXml {
  assets_asset : option (list AssetElement)
}.

(** Everything a command gets from outside the file system:
    [process.platform] and [process.env], the shell run by [execAsync]
    (given the command, its target and the tree, it leaves a tree and
    may fail with a message), the user's answers to [showQuickPick]
    ([None] is [undefined]) and to the modal warning, and xml2js's
    [parseString]. *)
Record Host : Type := mkHost {
  platform : string;
  env_HOME : path;
  env_LOCALAPPDATA : path;
  env_ProgramFiles : path;
  shell : string -> path -> node -> node * option string;
  quickPick : string -> list Item -> option (list Item);
  warningAnswer : string -> option string;
  parseString : string -> result XmlDoc
}.

Definition M (A : Type) : Type := world -> result A * world.

Definition ret {A} (a : A) : M A := fun w => (Ok a, w).

Definition bind {A B} (c : M A) (k : A -> M B) : M B :=
  fun w =>
    match c w with
    | (Ok a, w') => k a w'
    | (Throw e, w') => (Throw e, w')
    end.

Notation "x <- c ;; k" := (bind c (fun x => k))
  (at level 61, c at next level, right associativity).
Notation "' pat <- c ;; k" := (bind c (fun x => match x with pat => k end))
  (at level 61, pat pattern, c at next level, right associativity).
Notation "c ;;; k" := (bind c (fun _ => k))
  (at level 61, right associativity).

(** [try { body } catch (error) { handler(error.message) }] *)
Definition try_catch {A} (body : M A) (handler : string -> M A) : M A :=
  fun w =>
    match body w with
    | (Ok a, w') => (Ok a, w')
    | (Throw e, w') => handler e w'
    end.

Definition lift {A} (f : node -> result A) : M A := fun w => (f (fs w), w).

Definition emit (e : event) : M unit :=
  fun w => (Ok tt, mkWorld (fs w) (shown w ++ [e])).

Fixpoint mapM {A B} (f : A -> M B) (l : list A) : M (list B) :=
  match l with
  | [] => ret []
  | x :: l' => y <- f x ;; ys <- mapM f l' ;; ret (y :: ys)
  end.

Fixpoint filterM {A} (f : A -> M bool) (l : list A) : M (list A) :=
  match l with
  | [] => ret []
  | x :: l' => b <- f x ;; ys <- filterM f l' ;; ret (if b then x :: ys else ys)
  end.

(** A [for ... of] loop whose body updates the local variables [acc]. *)
Fixpoint forOf {A S} (body : S -> A -> M S) (l : list A) (acc : S) : M S :=
  match l with
  | [] => ret acc
  | x :: l' => acc' <- body acc x ;; forOf body l' acc'
  end.

Definition consoleLog (msg : string) : M unit := emit (ConsoleLog msg).
Definition showInformationMessage (msg : string) : M unit := emit (Information msg).
Definition showErrorMessage (msg : string) : M unit := emit (Error msg).

Definition existsSync (p : path) : M bool :=
  lift (fun r => Ok (Fs.existsSync r p)).

Definition readdirSync (p : path) : M (list string) := lift (fun r => Fs.readdirSync r p).

(** [fs.statSync(p).isDirectory()] *)
Definition statIsDirectory (p : path) : M bool :=
  lift (fun r => match Fs.statSync r p with
                 | Ok n => Ok (Fs.isDirectory n)
                 | Throw e => Throw e
                 end).

Definition readFileSync (p : path) : M string := lift (fun r => Fs.readFileSync r p).

Definition getFolderSizeM (p : path) : M Z := lift (fun r => getFolderSize r p).

Section Commands.

Variable host : Host.

Definition execAsync (command : string) (target : path) : M unit :=
  fun w =>
    let (fs', failure) := shell host command target (fs w) in
    let w' := mkWorld fs' (shown w ++ [Exec command target]) in
    match failure with
    | None => (Ok tt, w')
    | Some message => (Throw message, w')
    end.

Definition showQuickPick (items : list Item) (placeHolder : string)
  : M (option (list Item)) :=
  emit (QuickPick placeHolder items) ;;;
  ret (quickPick host placeHolder items).

Definition showWarningMessage (msg : string) : M (option string) :=
  emit (Warning msg) ;;;
  ret (warningAnswer host msg).

Definition parseStringM (xmlContent : string) : M XmlDoc :=
  fun w => (parseString host xmlContent, w).

(** *** deleteFolderRecursive *)
Definition deleteFolderRecursive (folderPath : path) : M unit :=
  e <- existsSync folderPath ;;
  if e then
    let isWindows := String.eqb (platform host) "win32" in
    let command := if isWindows then "rmdir /s /q" else "rm -rf" in
    execAsync command folderPath
  else ret tt.

(** *** The removal loops *)

(** The body of the loop of the interactive commands: each item in a
    [try] of its own.  [describe] builds the text of the error message;
    the local variables are [(removedCount, totalSize)]. *)
Definition removeSelectedStep (describe : Item -> string -> string)
  (acc : Z * Z) (item : Item) : M (Z * Z) :=
  let '(removedCount, totalSize) := acc in
  try_catch
    (size <- getFolderSizeM (ipath item) ;;
     deleteFolderRecursive (ipath item) ;;;
     ret (removedCount + 1, totalSize + size))
    (fun error =>
       showErrorMessage (describe item error) ;;;
       ret (removedCount, totalSize)).

Definition removeSelected (describe : Item -> string -> string)
  (selected : list Item) : M (Z * Z) :=
  forOf (removeSelectedStep describe) selected (0, 0).

(** The body of the loops of [cleanAllExceptLatest]: no [try] inside the
    loop; the local variables are [(totalSize, removedCount)]. *)
Definition removeVersionsStep (acc : Z * Z) (version : Item) : M (Z * Z) :=
  let '(totalSize, removedCount) := acc in
  size <- getFolderSizeM (ipath version) ;;
  deleteFolderRecursive (ipath version) ;;;
  ret (totalSize + size, removedCount + 1).

Definition removeVersions (versionsToRemove : list Item) (acc : Z * Z)
  : M (Z * Z) :=
  forOf removeVersionsStep versionsToRemove acc.

End Commands.

(* ================================================================= *)
(** ** Presentation order and usage tagging *)

(** [parseInt(text.split(': ')[1])] *)
Definition shownSize (text : string) : option Z :=
  JsString.parseInt_opt (nth_error (JsString.split ": " text) 1).

(** The "Sort by size" callback of the device-support, SDK and packs
    pickers. *)
Definition bySize (a b : Item) : comparison :=
  let sizeA := shownSize (description a) in
  let sizeB := shownSize (description b) in
  JsArray.sign (JsArray.sub sizeB sizeA).

(** The "Sort by usage status and size" callback of the simulator-runtime
    picker. *)
Definition byUsageAndSize (a b : Item) : comparison :=
  if negb (Bool.eqb (isUsed a) (isUsed b)) then (if isUsed a then Gt else Lt)
  else
    let sizeA := shownSize (detail a) in
    let sizeB := shownSize (detail b) in
    JsArray.sign (JsArray.sub sizeB sizeA).

(** A JS [Set] of attribute values ([None] is [undefined]), in insertion
    order. *)
Module JsSet.
Definition t := list (option string).

Definition value_eqb (x y : option string) : bool :=
  match x, y with
  | Some a, Some b => String.eqb a b
  | None, None => true
  | _, _ => false
  end.

Definition has (s : t) (x : option string) : bool := existsb (value_eqb x) s.

Definition add (s : t) (x : option string) : t := if has s x then s else s ++ [x].
End JsSet.

Fixpoint attribute (key : string) (attrs : list (string * string)) : option string :=
  match attrs with
  | [] => None
  | (k, v) :: rest => if String.eqb k key then Some v else attribute key rest
  end.

(** The [forEach] that fills [usedRuntimes]; reading [asset.$.state] on an
    element without attributes throws. *)
Fixpoint collectInstalled (assets : list AssetElement) (usedRuntimes : JsSet.t)
  : result JsSet.t :=
  match assets with
  | [] => Ok usedRuntimes
  | asset :: rest =>
      match dollar asset with
      | None => Throw "Cannot read properties of undefined (reading 'state')"
      | Some attrs =>
          if JsSet.value_eqb (attribute "state" attrs) (Some "installed")
          then collectInstalled rest (JsSet.add usedRuntimes (attribute "assetId" attrs))
          else collectInstalled rest usedRuntimes
      end
  end.

Definition usedRuntimesOf (doc : XmlDoc) : result JsSet.t :=
  match assets_asset doc with
  | Some assets => collectInstalled assets []
  | None => Ok []
  end.

(** [usedRuntimes.has(name.replace('.asset', ''))] *)
Definition assetIsUsed (usedRuntimes : JsSet.t) (name : string) : bool :=
  JsSet.has usedRuntimes (Some (JsString.replace ".asset" "" name)).

Module AssetFolder.
Record t : Type := make { name : string; path : list string; size : Z }.
End AssetFolder.

(** The items of the simulator-runtime picker, before sorting. *)
Definition runtimeItems (usedRuntimes : JsSet.t) (assetFolders : list AssetFolder.t)
  : list Item :=
  map (fun folder =>
         let isUsed := assetIsUsed usedRuntimes (AssetFolder.name folder) in
         mkItem (AssetFolder.name folder)
                (if isUsed then "Currently in use" else "Not in use")
                ("Size: " +++ formatBytes (AssetFolder.size folder))
                (AssetFolder.path folder)
                isUsed)
      assetFolders.

(** The asset folders of the sweep, tagged, and the ones it removes. *)
Definition sweepAssetFolders (runtimePath : path) (usedRuntimes : JsSet.t)
  (names : list string) : list Item :=
  map (fun folder =>
         mkItem folder "" "" (runtimePath ++ [folder]) (assetIsUsed usedRuntimes folder))
      (filter (JsString.endsWith ".asset") names).

Definition unusedAssets (assetFolders : list Item) : list Item :=
  filter (fun asset => negb (isUsed asset)) assetFolders.

(* ================================================================= *)
(** ** The commands *)

Definition runtimePath : path :=
  ["System"; "Library"; "AssetsV2"; "com_apple_MobileAsset_iOSSimulatorRuntime"].

Definition xmlPath : path :=
  runtimePath ++ ["com_apple_MobileAsset_iOSSimulatorRuntime.xml"].

Definition only_macOS : string := "This command is only available on macOS".

Section Cleaners.

Variable host : Host.

Definition isDarwin : bool := String.eqb (platform host) "darwin".
Definition isWin32 : bool := String.eqb (platform host) "win32".

Definition deviceSupportPath : path :=
  env_HOME host ++ ["Library"; "Developer"; "Xcode"; "iOS DeviceSupport"].

(** [readdirSync(root).filter(f => statSync(join(root, f)).isDirectory())] *)
Definition subdirectories (root : path) : M (list string) :=
  names <- readdirSync root ;;
  filterM (fun folder => statIsDirectory (root ++ [folder])) names.

(** *** cleanIosDeviceSupport *)
Definition cleanIosDeviceSupport : M unit :=
  consoleLog "cleanIosDeviceSupport command executed" ;;;
  if negb isDarwin then showInformationMessage only_macOS
  else
    try_catch
      (e <- existsSync deviceSupportPath ;;
       if negb e then showInformationMessage "No iOS Device Support folders found"
       else
         deviceSupportFolders <- subdirectories deviceSupportPath ;;
         if (List.length deviceSupportFolders =? 0)%nat
         then showInformationMessage "No iOS Device Support folders found"
         else
           items <- mapM (fun folder =>
                            let folderPath := deviceSupportPath ++ [folder] in
                            size <- getFolderSizeM folderPath ;;
                            ret (mkItem folder ("Size: " +++ formatBytes size) ""
                                        folderPath false))
                         deviceSupportFolders ;;
           let items := JsArray.sort bySize items in
           selectedFolders <- showQuickPick host items
                                "Select iOS Device Support folders to remove" ;;
           match selectedFolders with
           | None | Some [] => ret tt
           | Some selectedFolders =>
               '(removedCount, totalSize) <-
                 removeSelected host
                   (fun folder error =>
                      "Error removing " +++ label folder +++ ": " +++ error)
                   selectedFolders ;;
               showInformationMessage
                 ("Removed " +++ JsString.ofZ removedCount +++
                  " iOS Device Support folders, freeing " +++ formatBytes totalSize)
           end)
      (fun error =>
         showErrorMessage ("Error cleaning iOS Device Support: " +++ error)).

(** *** cleanIosSimulatorRuntime *)
Definition cleanIosSimulatorRuntime : M unit :=
  consoleLog "cleanIosSimulatorRuntime command executed" ;;;
  if negb isDarwin then showInformationMessage only_macOS
  else
    try_catch
      (e <- existsSync xmlPath ;;
       if negb e then showErrorMessage "iOS Simulator Runtime XML file not found"
       else
         xmlContent <- readFileSync xmlPath ;;
         result <- parseStringM host xmlContent ;;
         names <- readdirSync runtimePath ;;
         assetFolders <- mapM (fun folder =>
                                 let folderPath := runtimePath ++ [folder] in
                                 size <- getFolderSizeM folderPath ;;
                                 ret (AssetFolder.make folder folderPath size))
                              (filter (JsString.endsWith ".asset") names) ;;
         if (List.length assetFolders =? 0)%nat
         then showInformationMessage "No iOS Simulator Runtime assets found"
         else
           usedRuntimes <- lift (fun _ => usedRuntimesOf result) ;;
           let items := runtimeItems usedRuntimes assetFolders in
           let items := JsArray.sort byUsageAndSize items in
           selectedItems <- showQuickPick host items
                              "Select iOS Simulator Runtime assets to remove" ;;
           match selectedItems with
           | None | Some [] => ret tt
           | Some selectedItems =>
               let inUseItems := filter isUsed selectedItems in
               proceed <-
                 (if (0 <? List.length inUseItems)%nat then
                    confirm <- showWarningMessage host
                      ("You are about to remove " +++
                       JsString.ofZ (Z.of_nat (List.length inUseItems)) +++
                       " in-use runtime(s). This might affect your ability" +++
                       " to run iOS simulators. Continue?") ;;
                    ret (JsSet.value_eqb confirm (Some "Yes"))
                  else ret true) ;;
               if negb proceed then ret tt
               else
                 '(removedCount, totalSize) <-
                   removeSelected host
                     (fun item error =>
                        "Error removing " +++ label item +++ ": " +++ error)
                     selectedItems ;;
                 showInformationMessage
                   ("Removed " +++ JsString.ofZ removedCount +++
                    " iOS Simulator Runtime assets, freeing " +++ formatBytes totalSize)
           end)
      (fun error =>
         showErrorMessage ("Error cleaning iOS Simulator Runtime: " +++ error)).

(** *** cleanAllExceptLatest *)

(** The block the sweep repeats for a directory of versions: list the
    sub-directories, keep the latest, remove the others.  [acc] is
    [(totalSize, removedCount)]. *)
Definition sweepVersions (root : path) (acc : Z * Z) : M (Z * Z) :=
  folders <- subdirectories root ;;
  let versions := map (fun folder => mkItem folder "" "" (root ++ [folder]) false) folders in
  let versionsToRemove := keepLatestVersion versions in
  removeVersions host versionsToRemove acc.

Definition sweepDeviceSupport (acc : Z * Z) : M (Z * Z) :=
  if isDarwin then
    e <- existsSync deviceSupportPath ;;
    if e then sweepVersions deviceSupportPath acc else ret acc
  else ret acc.

Definition sdkRoot : path :=
  if isWin32 then env_LOCALAPPDATA host ++ ["Android"; "android-sdk"]
  else env_HOME host ++ ["Library"; "Developer"; "Xamarin"; "android-sdk-macosx"].

Definition sweepAndroidSdk (acc : Z * Z) : M (Z * Z) :=
  e <- existsSync sdkRoot ;;
  if e then
    let components := ["platforms"; "system-images"; "build-tools"] in
    forOf (fun acc component =>
             let componentPath := sdkRoot ++ [component] in
             e <- existsSync componentPath ;;
             if e then sweepVersions componentPath acc else ret acc)
          components acc
  else ret acc.

Definition packsPath : path :=
  if isWin32 then env_ProgramFiles host ++ ["dotnet"; "packs"]
  else ["usr"; "local"; "share"; "dotnet"; "packs"].

Definition sweepDotnetPacks (acc : Z * Z) : M (Z * Z) :=
  e <- existsSync packsPath ;;
  if e then
    packs <- subdirectories packsPath ;;
    forOf (fun acc pack => sweepVersions (packsPath ++ [pack]) acc) packs acc
  else ret acc.

Definition sweepSimulatorRuntime (acc : Z * Z) : M (Z * Z) :=
  if isDarwin then
    e <- existsSync runtimePath ;;
    if e then
      e <- existsSync xmlPath ;;
      if e then
        xmlContent <- readFileSync xmlPath ;;
        result <- parseStringM host xmlContent ;;
        usedRuntimes <- lift (fun _ => usedRuntimesOf result) ;;
        names <- readdirSync runtimePath ;;
        let assetFolders := sweepAssetFolders runtimePath usedRuntimes names in
        let versionsToRemove := unusedAssets assetFolders in
        removeVersions host versionsToRemove acc
      else ret acc
    else ret acc
  else ret acc.

Definition cleanAllExceptLatest : M unit :=
  consoleLog "cleanAllExceptLatest command executed" ;;;
  try_catch
    (acc <- sweepDeviceSupport (0, 0) ;;
     acc <- sweepAndroidSdk acc ;;
     acc <- sweepDotnetPacks acc ;;
     '(totalSize, removedCount) <- sweepSimulatorRuntime acc ;;
     showInformationMessage
       ("Removed " +++ JsString.ofZ removedCount +++ " items, freeing " +++
        formatBytes totalSize +++ ". Kept only the latest versions."))
    (fun error =>
       showErrorMessage ("Error cleaning all except latest versions: " +++ error)).

(** The blocks of the sweep that run before the simulator runtimes. *)
Definition sweepBeforeRuntime : M (Z * Z) :=
  acc <- sweepDeviceSupport (0, 0) ;;
  acc <- sweepAndroidSdk acc ;;
  sweepDotnetPacks acc.

End Cleaners.

(** [a] is not placed after [b] by the callback [f]. *)
Definition in_order {A : Type} (f : A -> A -> comparison) (a b : A) : Prop :=
  f a b <> Gt.

(* ================================================================= *)
(** ** Reading what a command has shown *)

Definition is_error (e : event) : bool :=
  match e with Error _ => true | _ => false end.

Definition count_errors (evs : list event) : Z :=
  Z.of_nat (List.length (filter is_error evs)).

(** The world with more shown. *)
Definition showing (w : world) (evs : list event) : world :=
  mkWorld (fs w) (shown w ++ evs).

(* ================================================================= *)
(** ** What the specification calls the stripped folder name *)

(** [name] without its suffix [suffix], when it ends with it. *)
Definition stripSuffix (suffix name : string) : string :=
  if JsString.endsWith suffix name
  then String.substring 0 (String.length name - String.length suffix) name
  else name.

(* ================================================================= *)
(** ** Concrete hosts and file systems *)

Module Scenario.

Fixpoint path_eqb (p q : path) : bool :=
  match p, q with
  | [], [] => true
  | a :: p', b :: q' => String.eqb a b && path_eqb p' q'
  | _, _ => false
  end.

(** The directory chain [p] with [n] at its end. *)
Fixpoint nest (p : path) (n : node) : node :=
  match p with
  | [] => n
  | seg :: p' => Dir [(seg, nest p' n)]
  end.

(** A folder holding one file of the given size. *)
Definition folder_of (bytes : Z) : node := Dir [("payload.bin", File bytes "")].

(** A shell whose delete fails with [message] on the paths in [locked]
    and leaves the tree as it is, and removes the target otherwise. *)
Definition shell_with_locked (locked : list path) (message : string)
  (command : string) (target : path) (r : node) : node * option string :=
  if existsb (path_eqb target) locked then (r, Some message)
  else (Fs.remove target r, None).

Definition cancel (placeHolder : string) (items : list Item) : option (list Item) := None.
Definition select_all (placeHolder : string) (items : list Item) : option (list Item) :=
  Some items.

(** A parser that rejects the text ["<assets"] and gives [doc] for any
    other. *)
Definition parser_giving (doc : XmlDoc) (xmlContent : string) : result XmlDoc :=
  if String.eqb xmlContent "<assets" then Throw "Unclosed root tag" else Ok doc.

Definition installed (assetId : string) : AssetElement :=
  mkAsset (Some [("assetId", assetId); ("state", "installed")]).

Definition home : path := ["Users"; "dev"].

Definition mac (sh : string -> path -> node -> node * option string)
  (pick : string -> list Item -> option (list Item)) (doc : XmlDoc) : Host :=
  mkHost "darwin" home [] [] sh pick (fun _ => Some "Yes") (parser_giving doc).

Definition linux (sh : string -> path -> node -> node * option string) : Host :=
  mkHost "linux" ["home"; "dev"] [] [] sh cancel (fun _ => None)
         (parser_giving (mkXml None)).

(** *** A pack with three versions, one of which cannot be deleted *)
Definition packDir : path := ["usr"; "local"; "share"; "dotnet"; "packs"; "Microsoft.Maui.Sdk"].

Definition packsTree : node :=
  nest packDir
       (Dir [("8.0.3", folder_of 100); ("8.0.40", folder_of 200);
             ("8.0.100", folder_of 300)]).

Definition lockedVersion : path := packDir ++ ["8.0.40"].
Definition otherVersion : path := packDir ++ ["8.0.3"].

Definition packsHost : Host :=
  linux (shell_with_locked [lockedVersion] "Permission denied").

Definition packsWorld : world := mkWorld packsTree [].

(** *** Two device-support folders of 900 KB and 2 GB *)
Definition deviceSupportTree : node :=
  nest (home ++ ["Library"; "Developer"; "Xcode"; "iOS DeviceSupport"])
       (Dir [("15.0", folder_of 921600); ("16.0", folder_of 2147483648)]).

Definition deviceSupportHost : Host :=
  mac (shell_with_locked [] "") cancel (mkXml None).

(** *** Simulator runtimes *)
Definition manifestName : string := "com_apple_MobileAsset_iOSSimulatorRuntime.xml".

(** The runtime directory holding the given entries. *)
Definition runtimeTree (entries : list (string * node)) : node :=
  nest runtimePath (Dir entries).

Definition manifestA : XmlDoc := mkXml (Some [installed "A"]).

Definition runtimesAB : node :=
  runtimeTree [(manifestName, File 120 "<assets>"); ("A.asset", folder_of 10);
               ("B.asset", folder_of 20)].

(** The same directory without its manifest, and with a manifest the
    parser rejects. *)
Definition runtimesNoManifest : node :=
  runtimeTree [("A.asset", folder_of 10); ("B.asset", folder_of 20)].

Definition runtimesBadManifest : node :=
  runtimeTree [(manifestName, File 7 "<assets"); ("A.asset", folder_of 10);
               ("B.asset", folder_of 20)].

Definition runtimeHost : Host :=
  mac (shell_with_locked [] "") select_all manifestA.

(** Two runtimes that are not in use, of 900 KB and 2 GB, next to the
    one in use. *)
Definition runtimesBig : node :=
  runtimeTree [(manifestName, File 120 "<assets>"); ("A.asset", folder_of 10);
               ("B.asset", folder_of 921600); ("C.asset", folder_of 2147483648)].

Definition runtimeCancelHost : Host :=
  mac (shell_with_locked [] "") cancel manifestA.

(** An installed runtime whose identifier itself contains [.asset]. *)
Definition manifestAssets : XmlDoc := mkXml (Some [installed "iOS.assets"]).

Definition runtimesAssets : node :=
  runtimeTree [(manifestName, File 120 "<assets>");
               ("iOS.assets.asset", folder_of 10)].

Definition assetsHost : Host :=
  mac (shell_with_locked [] "") select_all manifestAssets.

End Scenario.

(* ================================================================= *)
(** ** The other commands *)

(** What the other commands get from the editor and the machine:
    [vscode.workspace.workspaceFolders] ([None] is [undefined]; a folder
    is its [name] and its [uri.fsPath]), the setting
    [mauiCleaner.androidSdkPath] ([None] when it is unset or empty, both
    falsy), [process.env.USERPROFILE], the shell run by [execAsync] on a
    command without a target (it leaves a tree, and either rejects with a
    message or resolves with [stdout] and [stderr]), the answer to a
    single-choice [showQuickPick], and the answer to the picker of the
    packs. *)
Record WorkspaceFolder : Type := mkFolder {
  folderName : string;
  fsPath : path
}.

(** An item of the packs picker: the fields every item has, and
    [isPack], [isVersion] and [versions], each [false] or empty on the
    items that do not carry it. *)
Record PackEntry : Type := mkEntry {
  entry : Item;
  isPack : bool;
  isVersion : bool;
  versions : list Item
}.

Record Workbench : Type := mkWorkbench {
  workspaceFolders : option (list WorkspaceFolder);
  androidSdkPath : option path;
  env_USERPROFILE : path;
  run : string -> node -> node * result (string * string);
  quickPickOne : string -> list Item -> option Item;
  quickPickPacks : string -> list PackEntry -> option (list PackEntry)
}.

(** The text of an absolute path in a message (POSIX spelling), and
    [path.basename]. *)
Definition pathText (p : path) : string := "/" +++ String.concat "/" p.

Definition basename (p : path) : string := last p "".

Definition newline : string := String (ascii_of_nat 10) EmptyString.

(** *** Local variables of a loop that survive an exception

    [cleanBinObj] counts inside a [try] that holds two deletions: what
    the first one added to [deletedCount] and [totalSize] is still there
    when the second one throws.  [L] threads the two variables next to the
    world, and keeps them when a computation throws. *)
Module Locals.

Definition L (A : Type) : Type := Z * Z -> world -> (result A * (Z * Z)) * world.

Definition ret {A} (a : A) : L A := fun v w => ((Ok a, v), w).

Definition bind {A B} (c : L A) (k : A -> L B) : L B :=
  fun v w =>
    match c v w with
    | ((Ok a, v'), w') => k a v' w'
    | ((Throw e, v'), w') => ((Throw e, v'), w')
    end.

(** A command that does not touch the variables. *)
Definition lift {A} (c : M A) : L A :=
  fun v w => let (r, w') := c w in ((r, v), w').

(** [deletedCount++; totalSize += size] *)
Definition count (size : Z) : L unit :=
  fun v w => ((Ok tt, (fst v + 1, snd v + size)), w).

Definition try_catch {A} (body : L A) (handler : string -> L A) : L A :=
  fun v w =>
    match body v w with
    | ((Ok a, v'), w') => ((Ok a, v'), w')
    | ((Throw e, v'), w') => handler e v' w'
    end.

Fixpoint forOf {A} (body : A -> L unit) (l : list A) : L unit :=
  match l with
  | [] => ret tt
  | x :: l' => bind (body x) (fun _ => forOf body l')
  end.

(** The block in which the variables are declared, started at [init];
    it gives their final values. *)
Definition block (init : Z * Z) (c : L unit) : M (Z * Z) :=
  fun w =>
    match c init w with
    | ((Ok _, v), w') => (Ok v, w')
    | ((Throw e, _), w') => (Throw e, w')
    end.

End Locals.

Declare Scope locals_scope.
Delimit Scope locals_scope with locals.
Notation "x <- c ;; k" := (Locals.bind c (fun x => k))
  (at level 61, c at next level, right associativity) : locals_scope.
Notation "c ;;; k" := (Locals.bind c (fun _ => k))
  (at level 61, right associativity) : locals_scope.

Section OtherCommands.

Variable host : Host.
Variable bench : Workbench.

(** [execAsync(command)] of a command line without a target. *)
Definition execCommand (command : string) : M (string * string) :=
  fun w =>
    let (fs', outcome) := run bench command (fs w) in
    (outcome, mkWorld fs' (shown w ++ [Exec command []])).

Definition showQuickPickOne (items : list Item) (placeHolder : string)
  : M (option Item) :=
  emit (QuickPick placeHolder items) ;;;
  ret (quickPickOne bench placeHolder items).

Definition showQuickPickPacks (flatItems : list PackEntry) (placeHolder : string)
  : M (option (list PackEntry)) :=
  emit (QuickPick placeHolder (map entry flatItems)) ;;;
  ret (quickPickPacks bench placeHolder flatItems).

(** *** getAndroidSdkPath *)
Definition getAndroidSdkPath : path :=
  match androidSdkPath bench with
  | Some customPath => customPath
  | None =>
      if isWin32 host then env_LOCALAPPDATA host ++ ["Android"; "android-sdk"]
      else env_HOME host ++ ["Library"; "Developer"; "Xamarin"; "android-sdk-macosx"]
  end.

(** *** cleanBinObj *)

(** [if (fs.existsSync(p)) { size; delete; deletedCount++; totalSize += size }] *)
Definition cleanIfPresent (p : path) : Locals.L unit :=
  (e <- Locals.lift (existsSync p) ;;
   if e then
     size <- Locals.lift (getFolderSizeM p) ;;
     Locals.lift (deleteFolderRecursive host p) ;;;
     Locals.count size
   else Locals.ret tt)%locals.

Definition cleanWorkspaceFolder (folder : WorkspaceFolder) : Locals.L unit :=
  let binPath := fsPath folder ++ ["bin"] in
  let objPath := fsPath folder ++ ["obj"] in
  Locals.try_catch
    (cleanIfPresent binPath ;;; cleanIfPresent objPath)%locals
    (fun error =>
       Locals.lift
         (showErrorMessage
            ("Error cleaning " +++ folderName folder +++ ": " +++ error))).

Definition cleanBinObj : M unit :=
  consoleLog "cleanBinObj command executed" ;;;
  match workspaceFolders bench with
  | None => showErrorMessage "No workspace folder is open"
  | Some folders =>
      '(deletedCount, totalSize) <-
        Locals.block (0, 0) (Locals.forOf cleanWorkspaceFolder folders) ;;
      showInformationMessage
        ("Cleaned " +++ JsString.ofZ deletedCount +++
         " bin/obj folders, freeing " +++ formatBytes totalSize)
  end.

(** *** cleanNugetCache *)
Definition nugetCachePath : path :=
  if isWin32 host then env_USERPROFILE bench ++ [".nuget"; "packages"]
  else env_HOME host ++ [".nuget"; "packages"].

Definition cleanNugetCache : M unit :=
  consoleLog "cleanNugetCache command executed" ;;;
  try_catch
    ('(stdout, stderr) <- execCommand "dotnet nuget locals all --clear" ;;
     if negb (String.eqb stderr "") then (fun w => (Throw stderr, w))
     else
       e <- existsSync nugetCachePath ;;
       totalSize <- (if e then getFolderSizeM nugetCachePath else ret 0) ;;
       showInformationMessage
         ("NuGet cache cleared successfully, freeing " +++ formatBytes totalSize))
    (fun error => showErrorMessage ("Error clearing NuGet cache: " +++ error)).

(** *** cleanAndroidSdk *)

(** [components]: the name shown and the directory under the SDK root. *)
Definition components : list (string * string) :=
  [("System Images", "system-images"); ("Platforms", "platforms");
   ("Build Tools", "build-tools"); ("Command-line Tools", "cmdline-tools")].

(** [components.find(c => c.name === label)] *)
Definition findComponent (lbl : string) : option (string * string) :=
  find (fun c => String.eqb (fst c) lbl) components.

(** The items of a picker of version folders: one per sub-directory of
    [root], with the size shown ([mk] builds the item from the folder
    name, the text of the size and the joined path). *)
Definition sizedItems (root : path) (folders : list string)
  (mk : string -> string -> path -> Item) : M (list Item) :=
  mapM (fun folder =>
          let folderPath := root ++ [folder] in
          size <- getFolderSizeM folderPath ;;
          ret (mk folder ("Size: " +++ formatBytes size) folderPath))
       folders.

(** The items of the component picker: each component with the size of
    its directory, [0] when it is missing. *)
Definition componentItems (sdkRoot : path) : M (list Item) :=
  mapM (fun c =>
          let componentPath := sdkRoot ++ [snd c] in
          e <- existsSync componentPath ;;
          size <- (if e then getFolderSizeM componentPath else ret 0) ;;
          ret (mkItem (fst c) ("Size: " +++ formatBytes size) "" [snd c] false))
       components.

(** The rest of [cleanAndroidSdk] once the component picker has given
    [selectedComponent]. *)
Definition cleanAndroidComponent (sdkRoot : path) (selectedComponent : option Item)
  : M unit :=
  match selectedComponent with
  | None => ret tt
  | Some selectedComponent =>
      match findComponent (label selectedComponent) with
      | None =>
          (fun w => (Throw "Cannot read properties of undefined (reading 'path')", w))
      | Some component =>
          let componentPath := sdkRoot ++ [snd component] in
          e <- existsSync componentPath ;;
          if negb e then
            showInformationMessage ("No " +++ fst component +++ " found")
          else
            folders <- subdirectories componentPath ;;
            versions <- sizedItems componentPath folders
                          (fun version size versionPath =>
                             mkItem version size "" versionPath false) ;;
            if (List.length versions =? 0)%nat then
              showInformationMessage
                ("No " +++ fst component +++ " versions found")
            else
              let versions := JsArray.sort bySize versions in
              selectedVersions <-
                showQuickPick host versions
                  ("Select " +++ fst component +++ " versions to remove") ;;
              match selectedVersions with
              | None | Some [] => ret tt
              | Some selectedVersions =>
                  '(removedCount, totalSize) <-
                    removeSelected host
                      (fun version error =>
                         "Error removing version " +++ label version +++
                         ": " +++ error)
                      selectedVersions ;;
                  showInformationMessage
                    ("Removed " +++ JsString.ofZ removedCount +++ " " +++
                     fst component +++ " versions, freeing " +++
                     formatBytes totalSize)
              end
      end
  end.

Definition cleanAndroidSdk : M unit :=
  consoleLog "cleanAndroidSdk command executed" ;;;
  try_catch
    (let sdkRoot := getAndroidSdkPath in
     e <- existsSync sdkRoot ;;
     if negb e then
       showErrorMessage
         ("Android SDK path not found at: " +++ pathText sdkRoot +++ newline +++
          "Please set the path in extension settings (mauiCleaner.androidSdkPath)" +++
          " or ensure the default path exists.")
     else
       items <- componentItems sdkRoot ;;
       selectedComponent <- showQuickPickOne items
                              "Select Android SDK component to clean" ;;
       cleanAndroidComponent sdkRoot selectedComponent)
    (fun error =>
       showErrorMessage ("Error cleaning Android SDK components: " +++ error)).

(** *** cleanDotnetPacks *)

(** A JS [Set] of path strings, in insertion order. *)
Definition path_eqb (p q : path) : bool :=
  if list_eq_dec string_dec p q then true else false.

Definition addPath (s : list path) (p : path) : list path :=
  if existsb (path_eqb p) s then s else s ++ [p].

(** The item of a pack with the items of its versions. *)
Definition packItem (packFolder : string) : M PackEntry :=
  let packPath := packsPath host ++ [packFolder] in
  versionFolders <- subdirectories packPath ;;
  packSize <- getFolderSizeM packPath ;;
  versionItems <- sizedItems packPath versionFolders
                    (fun version size versionPath =>
                       mkItem ("  " +++ version) size "" versionPath false) ;;
  ret (mkEntry (mkItem packFolder ("Size: " +++ formatBytes packSize) "" packPath false)
               true false versionItems).

(** [flatItems]: each pack, then its versions. *)
Definition flatten (items : list PackEntry) : list PackEntry :=
  flat_map (fun item => item :: map (fun v => mkEntry v false true []) (versions item))
           items.

(** The two sets the selection is split into. *)
Definition packsToRemove (selectedItems : list PackEntry) : list path :=
  fold_left (fun s item => if isPack item then addPath s (ipath (entry item)) else s)
            selectedItems [].

Definition versionsToRemove (selectedItems : list PackEntry) : list path :=
  fold_left (fun s item =>
               if isPack item then s
               else if isVersion item then addPath s (ipath (entry item)) else s)
            selectedItems [].

(** The loops over the two sets: the body of the loop of the other
    interactive commands, on the path itself. *)
Definition removePaths (what : string) (paths : list path) (acc : Z * Z)
  : M (Z * Z) :=
  forOf (fun acc p =>
           removeSelectedStep host
             (fun item error =>
                "Error removing " +++ what +++ " " +++ basename (ipath item) +++
                ": " +++ error)
             acc (mkItem "" "" "" p false))
        paths acc.

(** The rest of [cleanDotnetPacks] once the picker has given
    [selectedItems]. *)
Definition removePackSelection (selectedItems : option (list PackEntry)) : M unit :=
  match selectedItems with
  | None | Some [] => ret tt
  | Some selectedItems =>
      acc <- removePaths "pack" (packsToRemove selectedItems) (0, 0) ;;
      '(removedCount, totalSize) <-
        removePaths "version" (versionsToRemove selectedItems) acc ;;
      showInformationMessage
        ("Removed " +++ JsString.ofZ removedCount +++ " items, freeing " +++
         formatBytes totalSize)
  end.

Definition cleanDotnetPacks : M unit :=
  consoleLog "cleanDotnetPacks command executed" ;;;
  try_catch
    (e <- existsSync (packsPath host) ;;
     if negb e then
       showErrorMessage
         (".NET packs directory not found at: " +++ pathText (packsPath host))
     else
       packFolders <- subdirectories (packsPath host) ;;
       if (List.length packFolders =? 0)%nat
       then showInformationMessage "No .NET packs found"
       else
         items <- mapM packItem packFolders ;;
         let items := JsArray.sort (fun a b => bySize (entry a) (entry b)) items in
         let flatItems := flatten items in
         selectedItems <- showQuickPickPacks flatItems
                            "Select .NET packs or versions to remove" ;;
         removePackSelection selectedItems)
    (fun error => showErrorMessage ("Error cleaning .NET packs: " +++ error)).

End OtherCommands.

(* ================================================================= *)
(** ** What a command may do *)

(** The targets of the shell commands among some events. *)
Definition exec_targets (evs : list event) : list path :=
  flat_map (fun e => match e with Exec _ target => [target] | _ => [] end) evs.

(** An event that is not a shell command, or is one on a target in [P]. *)
Definition deletes_within (P : path -> Prop) (e : event) : Prop :=
  match e with
  | Exec _ target => P target
  | _ => True
  end.

(** Run from [w], [c] only adds events that satisfy [ok] to what is
    shown, and leaves the file system as it is unless it issues a shell
    command. *)
Definition emits_at {A : Type} (w : world) (ok : event -> Prop) (c : M A) : Prop :=
  exists new,
    shown (snd (c w)) = shown w ++ new /\
    Forall ok new /\
    (exec_targets new = [] -> fs (snd (c w)) = fs w).

Definition emits {A : Type} (ok : event -> Prop) (c : M A) : Prop :=
  forall w, emits_at w ok c.

(** Events that are not shell commands. *)
Definition quiet (e : event) : Prop := exec_targets [e] = [].

(** [c] reads the file system and nothing else: its result is [f] of the
    tree and the world is as before. *)
Definition reads {A : Type} (c : M A) (f : node -> result A) : Prop :=
  forall w, c w = (f (fs w), w).

(** [target] is an entry of the directory [root]. *)
Definition child_of (root target : path) : Prop :=
  exists name, target = root ++ [name].

(** The sub-directories of [root], as [subdirectories] finds them. *)
Fixpoint keep_directories (r : node) (root : path) (names : list string)
  : result (list string) :=
  match names with
  | [] => Ok []
  | name :: rest =>
      match Fs.statSync r (root ++ [name]) with
      | Throw e => Throw e
      | Ok n =>
          match keep_directories r root rest with
          | Throw e => Throw e
          | Ok kept => Ok (if Fs.isDirectory n then name :: kept else kept)
          end
      end
  end.

Definition subdirs_of (r : node) (root : path) : result (list string) :=
  match Fs.readdirSync r root with
  | Throw e => Throw e
  | Ok names => keep_directories r root names
  end.

(** [mapM] on functions that only read. *)
Fixpoint traverse {A B : Type} (f : A -> result B) (l : list A) : result (list B) :=
  match l with
  | [] => Ok []
  | x :: l' =>
      match f x with
      | Throw e => Throw e
      | Ok y =>
          match traverse f l' with
          | Throw e => Throw e
          | Ok ys => Ok (y :: ys)
          end
      end
  end.

(** The objects [cleanAllExceptLatest] builds from the folders of [root]. *)
Definition versionsIn (root : path) (folders : list string) : list Item :=
  map (fun folder => mkItem folder "" "" (root ++ [folder]) false) folders.

(** The targets [cleanAllExceptLatest] may delete: an entry of the
    device-support directory or an [.asset] entry of the runtime directory
    (on macOS only), an entry of one of the three SDK component
    directories, or an entry of a pack. *)
Definition sweep_target (host : Host) (target : path) : Prop :=
  (isDarwin host = true /\ child_of (deviceSupportPath host) target) \/
  (exists component,
      In component ["platforms"; "system-images"; "build-tools"] /\
      child_of (sdkRoot host ++ [component]) target) \/
  (exists pack, child_of (packsPath host ++ [pack]) target) \/
  (isDarwin host = true /\
   exists name, target = runtimePath ++ [name] /\
                JsString.endsWith ".asset" name = true).

(* ================================================================= *)
(** ** More concrete hosts *)

Module Scenario2.

(** A Linux machine on which every delete succeeds. *)
Definition obligingHost : Host :=
  Scenario.linux (Scenario.shell_with_locked [] "").

End Scenario2.

(** A path the multi-choice picker of [host] can give back, as the path
    of one of the items of an answer. *)
Definition picked (host : Host) (target : path) : Prop :=
  exists placeHolder items selected,
    quickPick host placeHolder items = Some selected /\
    In target (map ipath selected).

(** The picker of [host] never gives back a selection that is not empty. *)
Definition always_dismissed (host : Host) : Prop :=
  forall placeHolder items,
    quickPick host placeHolder items = None \/
    quickPick host placeHolder items = Some [].

(** A path of an item the picker gave back in a selection that either
    holds no item in use or was confirmed with "Yes" at the warning. *)
Definition confirmed (host : Host) (target : path) : Prop :=
  exists placeHolder items selected,
    quickPick host placeHolder items = Some selected /\
    In target (map ipath selected) /\
    (existsb isUsed selected = true ->
     exists msg, warningAnswer host msg = Some "Yes").

Module Scenario3.

(** A picker that only gives back a selection holding an item in use. *)
Definition pick_if_in_use (placeHolder : string) (items : list Item)
  : option (list Item) :=
  if existsb isUsed items then Some items else None.

(** A Mac whose user ticks everything when a runtime in use is offered,
    and answers "No" to the warning. *)
Definition cautiousHost : Host :=
  mkHost "darwin" Scenario.home [] [] (Scenario.shell_with_locked [] "")
         pick_if_in_use (fun _ => Some "No") (Scenario.parser_giving Scenario.manifestA).

End Scenario3.

(** [emits] for a computation with local variables. *)
Definition emitsL {A : Type} (ok : event -> Prop) (c : Locals.L A) : Prop :=
  forall v w, exists new,
    shown (snd (c v w)) = shown w ++ new /\
    Forall ok new /\
    (exec_targets new = [] -> fs (snd (c v w)) = fs w).

(** The [bin] or the [obj] of one of the open workspace folders. *)
Definition bin_or_obj (bench : Workbench) (target : path) : Prop :=
  exists folders folder,
    workspaceFolders bench = Some folders /\ In folder folders /\
    (target = fsPath folder ++ ["bin"] \/ target = fsPath folder ++ ["obj"]).

Module Scenario4.

(** A project with build output, in a workspace of one folder. *)
Definition project : path := ["home"; "dev"; "App"].

Definition projectTree : node :=
  Scenario.nest project
    (Dir [("App.csproj", File 900 ""); ("bin", Scenario.folder_of 4096);
          ("obj", Scenario.folder_of 1024)]).

(** The NuGet cache after [dotnet nuget locals all --clear] emptied it. *)
Definition nugetTree (cache : list (string * node)) : node :=
  Scenario.nest ["home"; "dev"; ".nuget"; "packages"] (Dir cache).

(** A [dotnet] that empties the cache and prints [stderr]. *)
Definition dotnet_printing (stderr : string) (command : string) (r : node)
  : node * result (string * string) :=
  (nugetTree [], Ok ("Clearing NuGet cache", stderr)).

Definition bench (run : string -> node -> node * result (string * string)) : Workbench :=
  mkWorkbench (Some [mkFolder "App" project]) None [] run
              (fun _ _ => None) (fun _ _ => None).

(** A Linux machine on which [bin] of the project cannot be deleted, and
    one on which [obj] cannot. *)
Definition binLocked : Host :=
  Scenario.linux (Scenario.shell_with_locked [project ++ ["bin"]] "Device busy").

Definition objLocked : Host :=
  Scenario.linux (Scenario.shell_with_locked [project ++ ["obj"]] "Device busy").

End Scenario4.

(** A path the packs picker can give back, as the path of an item marked
    as a pack or as a version. *)
Definition picked_pack (bench : Workbench) (target : path) : Prop :=
  exists placeHolder items selected item,
    quickPickPacks bench placeHolder items = Some selected /\
    In item selected /\
    ipath (entry item) = target /\
    (isPack item = true \/ isVersion item = true).

(** The items of the component picker, read off the tree. *)
Definition componentItemsOf (r : node) (sdkRoot : path) : result (list Item) :=
  traverse (fun c =>
              match (if Fs.existsSync r (sdkRoot ++ [snd c])
                     then getFolderSize r (sdkRoot ++ [snd c]) else Ok 0) with
              | Ok size => Ok (mkItem (fst c) ("Size: " +++ formatBytes size) "" [snd c] false)
              | Throw e => Throw e
              end)
           components.

Module Scenario5.

(** An Android SDK, set in the extension's setting, with one version of
    the build tools, no platform and no system image; the user picks the
    first component offered. *)
Definition sdk : path := ["opt"; "android-sdk"].

Definition sdkTree : node :=
  Scenario.nest sdk
    (Dir [("build-tools", Dir [("34.0.0", Scenario.folder_of 2048)]);
          ("platforms", Dir [])]).

Definition bench : Workbench :=
  mkWorkbench None (Some sdk) [] (fun _ r => (r, Ok ("", "")))
              (fun _ items => hd_error items) (fun _ _ => None).

End Scenario5.

Module Scenario6.

(** The pack of [Scenario.packsTree] and one of its versions, as the
    packs picker gives them back. *)
Definition pack : PackEntry :=
  mkEntry (mkItem "Microsoft.Maui.Sdk" "Size: 600 Bytes" "" Scenario.packDir false)
          true false
          [mkItem "  8.0.3" "Size: 100 Bytes" "" Scenario.otherVersion false].

Definition version : PackEntry :=
  mkEntry (mkItem "  8.0.3" "Size: 100 Bytes" "" Scenario.otherVersion false)
          false true [].

End Scenario6.

(* ================================================================= *)
(** * Properties *)

(** ** Sorting *)

Section SortFacts.
Context {A : Type}.
Variable f : A -> A -> comparison.

Lemma insert_perm (x : A) (l : list A) :
  Permutation (x :: l) (JsArray.insert f x l).
Proof.
  induction l as [|y l IH]; simpl.
  - reflexivity.
  - destruct (f x y); try reflexivity.
    rewrite perm_swap. now constructor.
Qed.

Lemma sort_perm (l : list A) : Permutation l (JsArray.sort f l).
Proof.
  induction l as [|x l IH]; simpl.
  - constructor.
  - rewrite <- insert_perm. now constructor.
Qed.

Lemma sort_length (l : list A) : List.length (JsArray.sort f l) = List.length l.
Proof. symmetry. apply Permutation_length, sort_perm. Qed.

(** All but the first element of the sorted array: the input with one
    element taken out. *)
Lemma sort_tail_submultiset (l : list A) :
  (1 <= List.length l)%nat ->
  exists first, Permutation (first :: skipn 1 (JsArray.sort f l)) l.
Proof.
  intros Hlen.
  pose proof (sort_perm l) as Hp.
  pose proof (sort_length l) as Hl.
  destruct (JsArray.sort f l) as [|first rest].
  - simpl in Hl. lia.
  - exists first. simpl. now symmetry.
Qed.
End SortFacts.

(** ** The array store *)

Lemma get_alloc_old {A} (h : JsArray.store A) (v : list A) (r : JsArray.ref) (x : list A) :
  JsArray.get h r = Some x -> JsArray.get (fst (JsArray.alloc h v)) r = Some x.
Proof.
  unfold JsArray.get, JsArray.alloc. simpl. intros H.
  rewrite nth_error_app1; [assumption|].
  apply nth_error_Some. congruence.
Qed.

Lemma get_alloc_new {A} (h : JsArray.store A) (v : list A) :
  JsArray.get (fst (JsArray.alloc h v)) (snd (JsArray.alloc h v)) = Some v.
Proof.
  unfold JsArray.get, JsArray.alloc. simpl.
  rewrite nth_error_app2 by lia. now rewrite Nat.sub_diag.
Qed.

Lemma get_set_same {A} (h : JsArray.store A) (r : JsArray.ref) (v x : list A) :
  JsArray.get h r = Some x -> JsArray.get (JsArray.set h r v) r = Some v.
Proof.
  unfold JsArray.get. revert r.
  induction h as [|y h IH]; intros [|r]; simpl; try discriminate; auto.
Qed.

Lemma get_set_other {A} (h : JsArray.store A) (r r0 : JsArray.ref) (v : list A) :
  r0 <> r -> JsArray.get (JsArray.set h r v) r0 = JsArray.get h r0.
Proof.
  unfold JsArray.get. revert r r0.
  induction h as [|y h IH]; intros [|r] [|r0] Hne; simpl; auto; try congruence.
Qed.

Lemma get_lt {A} (h : JsArray.store A) (r : JsArray.ref) (x : list A) :
  JsArray.get h r = Some x -> (r < List.length h)%nat.
Proof. unfold JsArray.get. intros H. apply nth_error_Some. congruence. Qed.

(** ** The version ordering *)

Lemma string_compare_refl (s : string) : String.compare s s = Eq.
Proof.
  pose proof (String.compare_antisym s s) as H.
  destruct (String.compare s s); simpl in H; congruence.
Qed.

Lemma compare_run_refl (x : Collator.run) : Collator.compare_run x x = Eq.
Proof.
  destruct x; simpl.
  - apply Z.compare_refl.
  - apply string_compare_refl.
Qed.

Lemma compare_runs_refl (xs : list Collator.run) : Collator.compare_runs xs xs = Eq.
Proof.
  induction xs as [|x xs IH]; simpl; [reflexivity|].
  now rewrite compare_run_refl.
Qed.

(** C3.  The version comparison is reflexive-equal on every label; on
    the numeric labels it orders ["2.0"] before ["10.0"] (digit runs
    compare by value, not as text) and ["1.0"] before ["1.0.1"] (a strict
    prefix is less).  The callback of the sort in [keepLatestVersion] is
    this comparison with its arguments exchanged. *)
Theorem compareVersions_properties :
  (forall x : string, compareVersions x x = Eq) /\
  compareVersions "2.0" "10.0" = Lt /\
  compareVersions "1.0" "1.0.1" = Lt /\
  (forall a b : Item, byVersionDescending a b = compareVersions (label b) (label a)).
Proof.
  repeat split.
  intros x. unfold compareVersions, Collator.localeCompare.
  apply compare_runs_refl.
Qed.

(** ** keepLatestVersion *)

(** C1.  A group of 0 or 1 entries gives the empty removal set; a group
    whose labels are "1.0", "2.0", "1.5" gives the entries labelled "1.5"
    and "1.0" and nothing else, so the entry labelled "2.0", the maximum
    of the three under the version ordering, is the one kept. *)
Theorem keepLatestVersion_removal_set :
  (forall versions : list Item,
      (List.length versions <= 1)%nat -> keepLatestVersion versions = []) /\
  (forall e1 e2 e3 : Item,
      label e1 = "1.0" -> label e2 = "2.0" -> label e3 = "1.5" ->
      keepLatestVersion [e1; e2; e3] = [e3; e1] /\
      Permutation (keepLatestVersion [e1; e2; e3]) [e1; e3] /\
      ~ In "2.0" (map label (keepLatestVersion [e1; e2; e3])) /\
      compareVersions (label e1) (label e2) = Lt /\
      compareVersions (label e3) (label e2) = Lt).
Proof.
  split.
  - intros versions Hlen. unfold keepLatestVersion.
    destruct (Nat.leb_spec (List.length versions) 1) as [_|Hgt]; [reflexivity|lia].
  - intros [l1 d1 t1 p1 u1] [l2 d2 t2 p2 u2] [l3 d3 t3 p3 u3]; simpl.
    intros -> -> ->.
    assert (Hres : keepLatestVersion
                     [mkItem "1.0" d1 t1 p1 u1; mkItem "2.0" d2 t2 p2 u2;
                      mkItem "1.5" d3 t3 p3 u3]
                   = [mkItem "1.5" d3 t3 p3 u3; mkItem "1.0" d1 t1 p1 u1])
      by reflexivity.
    rewrite Hres. repeat split.
    + apply perm_swap.
    + simpl. intros [H|[H|[]]]; discriminate.
Qed.

Lemma keepLatestVersion_removal_set_witness :
  keepLatestVersion [] = [] /\
  keepLatestVersion
    [mkItem "1.0" "" "" ["1.0"] false; mkItem "2.0" "" "" ["2.0"] false;
     mkItem "1.5" "" "" ["1.5"] false]
  = [mkItem "1.5" "" "" ["1.5"] false; mkItem "1.0" "" "" ["1.0"] false].
Proof.
  split.
  - apply (proj1 keepLatestVersion_removal_set). simpl. lia.
  - apply (proj2 keepLatestVersion_removal_set); reflexivity.
Defined.

Lemma keepLatestVersion_submultiset (versions : list Item) :
  (2 <= List.length versions)%nat ->
  exists kept, Permutation (kept :: keepLatestVersion versions) versions.
Proof.
  intros Hlen. unfold keepLatestVersion.
  destruct (Nat.leb_spec (List.length versions) 1) as [Hle|_]; [lia|].
  apply sort_tail_submultiset. lia.
Qed.

(** C9.  Run on array objects, [keepLatestVersion] returns a reference
    to an array holding what the list-level function computes, every array
    that existed before the call (the argument among them) holds the same
    elements after it, and for an argument of [n >= 2] entries the result
    together with one more entry is a rearrangement of the argument, so it
    has exactly [n - 1] entries. *)
Theorem keepLatestVersion_store_preserves_input
  (h : JsArray.store Item) (versions : JsArray.ref) (vs : list Item) :
  JsArray.get h versions = Some vs ->
  exists h' r,
    keepLatestVersion_store h versions = Some (h', r) /\
    JsArray.get h' r = Some (keepLatestVersion vs) /\
    JsArray.get h' versions = Some vs /\
    (forall r0 v0, JsArray.get h r0 = Some v0 -> JsArray.get h' r0 = Some v0) /\
    ((2 <= List.length vs)%nat ->
     (exists kept, Permutation (kept :: keepLatestVersion vs) vs) /\
     List.length (keepLatestVersion vs) = (List.length vs - 1)%nat).
Proof.
  intros Hget.
  assert (Hsub : (2 <= List.length vs)%nat ->
                 (exists kept, Permutation (kept :: keepLatestVersion vs) vs) /\
                 List.length (keepLatestVersion vs) = (List.length vs - 1)%nat).
  { intros Hlen. destruct (keepLatestVersion_submultiset vs Hlen) as [kept Hp].
    split; [now exists kept|].
    apply Permutation_length in Hp. simpl in Hp. lia. }
  unfold keepLatestVersion_store. rewrite Hget.
  destruct (List.length vs <=? 1)%nat eqn:Hleb.
  - assert (Hk : keepLatestVersion vs = [])
      by (unfold keepLatestVersion; now rewrite Hleb).
    rewrite Hk in *.
    eexists _, _. split; [reflexivity|].
    split; [apply (get_alloc_new h [])|].
    split; [now apply (get_alloc_old h [])|].
    split; [intros r0 v0; apply (get_alloc_old h [])|].
    exact Hsub.
  - assert (Hk : keepLatestVersion vs = skipn 1 (JsArray.sort byVersionDescending vs))
      by (unfold keepLatestVersion; now rewrite Hleb).
    rewrite Hk in *.
    unfold JsArray.spread. rewrite Hget.
    pose proof (get_alloc_new h vs) as Hcopy.
    destruct (JsArray.alloc h vs) as [h1 copy] eqn:Ealloc. simpl in Hcopy.
    unfold JsArray.sort_in_place. rewrite Hcopy.
    unfold JsArray.slice1.
    rewrite (get_set_same _ _ _ _ Hcopy).
    assert (Hold : forall r0 v0, JsArray.get h r0 = Some v0 ->
                     JsArray.get (JsArray.set h1 copy (JsArray.sort byVersionDescending vs)) r0
                     = Some v0).
    { intros r0 v0 H0.
      pose proof (get_alloc_old h vs r0 v0 H0) as H1.
      pose proof (get_lt _ _ _ H0) as Hlt.
      rewrite Ealloc in H1. simpl in H1.
      unfold JsArray.alloc in Ealloc. injection Ealloc as <- <-.
      rewrite get_set_other by lia. exact H1. }
    eexists _, _. split; [reflexivity|].
    split; [apply get_alloc_new|].
    split; [apply get_alloc_old; now apply Hold|].
    split; [intros r0 v0 H0; apply get_alloc_old; now apply Hold|].
    exact Hsub.
Qed.

Lemma keepLatestVersion_store_preserves_input_witness :
  let a := mkItem "1.0" "" "" ["1.0"] false in
  let b := mkItem "2.0" "" "" ["2.0"] false in
  exists h' r,
    keepLatestVersion_store [[a; b]] 0%nat = Some (h', r) /\
    JsArray.get h' r = Some (keepLatestVersion [a; b]) /\
    JsArray.get h' 0%nat = Some [a; b] /\
    (forall r0 v0, JsArray.get [[a; b]] r0 = Some v0 -> JsArray.get h' r0 = Some v0) /\
    ((2 <= List.length [a; b])%nat ->
     (exists kept, Permutation (kept :: keepLatestVersion [a; b]) [a; b]) /\
     List.length (keepLatestVersion [a; b]) = (List.length [a; b] - 1)%nat).
Proof.
  intros a b.
  apply (keepLatestVersion_store_preserves_input [[a; b]] 0%nat [a; b]).
  reflexivity.
Defined.

(** ** formatBytes *)

(** C10.  [formatBytes 0] is ["0 Bytes"], and from [1024^5] on the unit
    index is past the end of [sizes].  Below [1024^5] the unit is the one
    the claim describes at the byte counts listed, up to [1024^5 - 4].  At
    [1024^5 - 3], [1024^5 - 2] and [1024^5 - 1], inside the claim's range,
    the quotient of the two logarithms is already the double [5]: the
    index is 5, [sizes[5]] is [undefined], and the text is
    ["1 undefined"]. *)
Theorem formatBytes_index_rounds_up_below_1024_5 :
  (1 <=? 1024 ^ 5 - 3) && (1024 ^ 5 - 1 <? 1024 ^ 5) = true /\
  map (unitIndex 1024) [1024 ^ 5 - 3; 1024 ^ 5 - 2; 1024 ^ 5 - 1]
  = [Some 5; Some 5; Some 5] /\
  sizes_at 5 = None /\
  map formatBytes [1024 ^ 5 - 3; 1024 ^ 5 - 2; 1024 ^ 5 - 1]
  = ["1 undefined"; "1 undefined"; "1 undefined"] /\
  map (unitIndex 1024) [1024 ^ 5 - 5; 1024 ^ 5 - 4] = [Some 4; Some 4] /\
  map formatBytes [1024 ^ 5 - 5; 1024 ^ 5 - 4] = ["1024 TB"; "1024 TB"] /\
  formatBytes 0 = "0 Bytes" /\
  map formatBytes [1; 1023; 1024; 1025; 1536; 1048575; 1048576; 1610612736;
                   1024 ^ 4 - 1; 1024 ^ 4; 1023 * 1024 ^ 4]
  = ["1 Bytes"; "1023 Bytes"; "1 KB"; "1 KB"; "1.5 KB"; "1024 KB"; "1 MB"; "1.5 GB";
     "1024 GB"; "1 TB"; "1023 TB"] /\
  map formatBytes [1024 ^ 5; 1024 ^ 5 + 1; 3 * 1024 ^ 5; 1024 ^ 6]
  = ["1 undefined"; "1 undefined"; "3 undefined"; "1 undefined"].
Proof. repeat split; vm_compute; reflexivity. Qed.

(** ** getFolderSize *)

Lemma node_ind_nested (P : node -> Prop) :
  (forall sz content, P (File sz content)) ->
  (forall entries, Forall (fun e => P (snd e)) entries -> P (Dir entries)) ->
  P Other ->
  forall n, P n.
Proof.
  intros HF HD HO. fix IH 1. intros [sz content|entries|].
  - apply HF.
  - apply HD. induction entries as [|[nm c] rest IHrest]; constructor.
    + apply IH.
    + apply IHrest.
  - apply HO.
Qed.

Lemma sum_app (a b : list Z) : sum (a ++ b) = sum a + sum b.
Proof. induction a as [|x a IH]; simpl; lia. Qed.

Lemma folderLoop_sum (files : list (string * node)) :
  Forall (fun e => folderSize (snd e) = Ok (total_file_bytes (snd e))
                   \/ Fs.isDirectory (snd e) = false) files ->
  forall size,
    folderLoop folderSize files size
    = Ok (size + sum (flat_map (fun e => regular_files (snd e)) files)).
Proof.
  induction 1 as [|[nm c] rest Hc _ IH]; intros size; simpl.
  - f_equal; lia.
  - rewrite sum_app. destruct c as [sz content|entries|]; simpl in *.
    + rewrite IH. f_equal; lia.
    + destruct Hc as [Hc|Hc]; [|discriminate].
      rewrite Hc, IH. unfold total_file_bytes. simpl. f_equal; lia.
    + rewrite IH. f_equal; lia.
Qed.

Lemma folderSize_directory (n : node) :
  folderSize n = Ok (total_file_bytes n) \/ Fs.isDirectory n = false.
Proof.
  induction n as [sz content|entries IH|] using node_ind_nested; auto.
  left. simpl. rewrite (folderLoop_sum entries IH). reflexivity.
Qed.

(** *** The function on paths agrees with the function on nodes *)

Lemma resolve_app (p q : path) :
  forall r, Fs.resolve r (p ++ q)
            = match Fs.resolve r p with
              | Some n => Fs.resolve n q
              | None => None
              end.
Proof.
  induction p as [|seg p IH]; intros r; simpl.
  - reflexivity.
  - destruct r as [sz content|entries|]; try reflexivity.
    destruct (Fs.lookup seg entries); [apply IH|reflexivity].
Qed.

Lemma lookup_In (name : string) (entries : list (string * node)) (c : node) :
  Fs.lookup name entries = Some c -> In (name, c) entries.
Proof.
  induction entries as [|[n c'] rest IH]; simpl; [discriminate|].
  destruct (String.eqb_spec n name) as [->|_].
  - intros [= ->]. now left.
  - intros H. right. now apply IH.
Qed.

Lemma lookup_unique (name : string) (entries : list (string * node)) (c : node) :
  NoDup (map fst entries) -> In (name, c) entries -> Fs.lookup name entries = Some c.
Proof.
  induction entries as [|[n c'] rest IH]; simpl; [contradiction|].
  intros Hnd [Heq|Hin].
  - injection Heq as -> ->. now rewrite String.eqb_refl.
  - inversion Hnd as [|? ? Hnotin Hnd']; subst.
    destruct (String.eqb_spec n name) as [->|_].
    + exfalso. apply Hnotin. change name with (fst (name, c)). now apply in_map.
    + now apply IH.
Qed.

Lemma height_child (e : string * node) (entries : list (string * node)) :
  In e entries -> (height (snd e) < height (Dir entries))%nat.
Proof.
  simpl. induction entries as [|e' rest IH]; simpl; [contradiction|].
  intros [->|Hin]; [lia|]. specialize (IH Hin). lia.
Qed.

Lemma resolve_child (r : node) (p : path) (entries : list (string * node))
  (name : string) (c : node) :
  Fs.resolve r p = Some (Dir entries) ->
  NoDup (map fst entries) ->
  In (name, c) entries ->
  Fs.resolve r (p ++ [name]) = Some c.
Proof.
  intros Hres Hnd Hin. rewrite resolve_app, Hres. simpl.
  now rewrite (lookup_unique _ _ _ Hnd Hin).
Qed.

Lemma pathLoop_agrees (r : node) (p : path) (fuel : nat)
  (all : list (string * node)) :
  Fs.resolve r p = Some (Dir all) ->
  NoDup (map fst all) ->
  forall files : list (string * node),
    incl files all ->
    (forall e, In e files -> Fs.isDirectory (snd e) = true ->
               getFolderSize_fuel fuel r (p ++ [fst e]) = Some (folderSize (snd e))) ->
    forall size,
      pathLoop (getFolderSize_fuel fuel r) r p (map fst files) size
      = Some (folderLoop folderSize files size).
Proof.
  intros Hres Hnd files. induction files as [|[name c] rest IH]; intros Hincl Hrec size.
  - reflexivity.
  - assert (Hin : In (name, c) all) by (apply Hincl; now left).
    assert (Hrest : forall size', pathLoop (getFolderSize_fuel fuel r) r p (map fst rest) size'
                                  = Some (folderLoop folderSize rest size')).
    { apply IH.
      - intros e He. apply Hincl. now right.
      - intros e He. apply Hrec. now right. }
    cbn [map fst pathLoop folderLoop].
    unfold Fs.statSync. rewrite (resolve_child _ _ _ _ _ Hres Hnd Hin).
    destruct c as [sz content|entries|]; cbn [Fs.isFile Fs.isDirectory stat_size].
    + apply Hrest.
    + pose proof (Hrec (name, Dir entries) (or_introl eq_refl) eq_refl) as Hsub.
      cbn [fst snd] in Hsub. rewrite Hsub. destruct (folderSize (Dir entries)); [apply Hrest|reflexivity].
    + apply Hrest.
Qed.

Lemma folderSize_fuel_agrees (n : node) :
  unique_names n ->
  forall (r : node) (p : path) (fuel : nat),
    Fs.resolve r p = Some n ->
    (height n < fuel)%nat ->
    getFolderSize_fuel fuel r p = Some (folderSize n).
Proof.
  induction n as [sz content|entries IH|] using node_ind_nested;
    intros Hu r p [|fuel] Hres Hfuel; try lia;
    cbn [getFolderSize_fuel]; unfold Fs.existsSync, Fs.readdirSync; rewrite Hres;
    try reflexivity.
  inversion Hu as [| |? Hnd Hall]; subst.
  cbn [folderSize].
  apply (pathLoop_agrees r p fuel entries Hres Hnd entries (incl_refl _)).
  intros e He _.
  rewrite Forall_forall in IH, Hall.
  apply (IH e He (Hall e He)).
  - destruct e as [name c]. now apply resolve_child with entries.
  - pose proof (height_child e entries He). lia.
Qed.

Lemma resolve_subtree (p : path) :
  forall (r n : node),
    Fs.resolve r p = Some n ->
    unique_names r ->
    unique_names n /\ (height n <= height r)%nat.
Proof.
  induction p as [|seg p IH]; intros r n Hres Hu; simpl in Hres.
  - injection Hres as <-. split; [assumption|lia].
  - destruct r as [sz content|entries|]; try discriminate.
    destruct (Fs.lookup seg entries) as [c|] eqn:El; [|discriminate].
    apply lookup_In in El.
    inversion Hu as [| |? Hnd Hall]; subst.
    rewrite Forall_forall in Hall.
    destruct (IH c n Hres (Hall _ El)) as [Hun Hh].
    split; [assumption|].
    pose proof (height_child _ _ El) as Hc. simpl in Hc. simpl. lia.
Qed.

(** With more fuel than the tree is deep, [getFolderSize] written on
    paths returns, and returns what [getFolderSize] gives. *)
Lemma getFolderSize_fuel_agrees (r : node) (p : path) (fuel : nat) :
  unique_names r ->
  (height r < fuel)%nat ->
  getFolderSize_fuel fuel r p = Some (getFolderSize r p).
Proof.
  intros Hu Hfuel. unfold getFolderSize.
  destruct (Fs.resolve r p) as [n|] eqn:Hres.
  - destruct (resolve_subtree p r n Hres Hu) as [Hun Hh].
    apply folderSize_fuel_agrees; [assumption|assumption|lia].
  - destruct fuel as [|fuel]; [lia|].
    cbn [getFolderSize_fuel]. unfold Fs.existsSync. now rewrite Hres.
Qed.

(** C4.  [getFolderSize] gives 0 for a path that does not exist, and for
    a path that leads to a directory it gives the sum of the sizes of all
    the regular files anywhere below it; an entry that is neither a
    regular file nor a directory adds nothing.  The function written on
    paths, given more fuel than the tree is deep, returns the same sum. *)
Theorem getFolderSize_sums_regular_files :
  (forall (r : node) (p : path),
      Fs.existsSync r p = false -> getFolderSize r p = Ok 0) /\
  (forall (r : node) (p : path) (entries : list (string * node)),
      Fs.resolve r p = Some (Dir entries) ->
      getFolderSize r p = Ok (total_file_bytes (Dir entries))) /\
  (forall (before after : list (string * node)) (name : string),
      folderSize (Dir (before ++ (name, Other) :: after))
      = folderSize (Dir (before ++ after))) /\
  (forall (r : node) (p : path) (fuel : nat),
      unique_names r -> (height r < fuel)%nat ->
      (Fs.existsSync r p = false -> getFolderSize_fuel fuel r p = Some (Ok 0)) /\
      (forall entries,
          Fs.resolve r p = Some (Dir entries) ->
          getFolderSize_fuel fuel r p = Some (Ok (total_file_bytes (Dir entries))))).
Proof.
  assert (Hmissing : forall r p, Fs.existsSync r p = false -> getFolderSize r p = Ok 0).
  { intros r p. unfold Fs.existsSync, getFolderSize.
    destruct (Fs.resolve r p); [discriminate|reflexivity]. }
  assert (Hdir : forall r p entries,
             Fs.resolve r p = Some (Dir entries) ->
             getFolderSize r p = Ok (total_file_bytes (Dir entries))).
  { intros r p entries Hres. unfold getFolderSize. rewrite Hres.
    destruct (folderSize_directory (Dir entries)) as [H|H]; [exact H|discriminate]. }
  split; [exact Hmissing|]. split; [exact Hdir|]. split.
  - intros before after name.
    destruct (folderSize_directory (Dir (before ++ (name, Other) :: after))) as [H1|H1];
      [|discriminate].
    destruct (folderSize_directory (Dir (before ++ after))) as [H2|H2]; [|discriminate].
    rewrite H1, H2. unfold total_file_bytes. simpl.
    rewrite !flat_map_app. simpl. reflexivity.
  - intros r p fuel Hu Hfuel.
    rewrite (getFolderSize_fuel_agrees r p fuel Hu Hfuel). split.
    + intros Hne. now rewrite Hmissing.
    + intros entries Hres. now rewrite (Hdir _ _ _ Hres).
Qed.

(** On a path that leads to a regular file, [readdirSync] throws. *)
Example getFolderSize_of_a_file :
  getFolderSize (Dir [("notes.txt", File 12 "hello, world")]) ["notes.txt"]
  = Throw "ENOTDIR: not a directory, scandir".
Proof. reflexivity. Qed.

Ltac names_differ :=
  repeat (constructor; [simpl; intuition discriminate|]); constructor.

Ltac unique_names_by_inspection :=
  repeat first
    [ apply unique_file
    | apply unique_other
    | apply unique_dir; [names_differ|]
    | apply Forall_nil
    | apply Forall_cons; cbn [snd] ].

Lemma getFolderSize_sums_regular_files_witness :
  let tree := Dir [("sdk", Dir [("a.bin", File 10 ""); ("sock", Other);
                                ("lib", Dir [("b.bin", File 5 ""); ("c.bin", File 7 "")])])] in
  getFolderSize tree ["missing"] = Ok 0 /\
  getFolderSize tree ["sdk"] = Ok 22 /\
  getFolderSize_fuel 4 tree ["missing"] = Some (Ok 0) /\
  getFolderSize_fuel 4 tree ["sdk"] = Some (Ok 22).
Proof.
  intros tree.
  assert (Hu : unique_names tree) by (subst tree; unique_names_by_inspection).
  assert (Hfuel : (height tree < 4)%nat) by (vm_compute; lia).
  destruct getFolderSize_sums_regular_files as [Hmissing [Hdir [_ Hpath]]].
  destruct (Hpath tree ["missing"] 4%nat Hu Hfuel) as [Hpath_missing _].
  destruct (Hpath tree ["sdk"] 4%nat Hu Hfuel) as [_ Hpath_dir].
  split; [apply Hmissing; reflexivity|].
  split; [exact (Hdir tree ["sdk"] _ eq_refl)|].
  split; [apply Hpath_missing; reflexivity|].
  exact (Hpath_dir _ eq_refl).
Defined.

(* ================================================================= *)
(** ** The commands *)

Ltac unfold_monad :=
  unfold removeSelected, removeVersions, removeSelectedStep, removeVersionsStep,
    deleteFolderRecursive, execAsync, showQuickPick, showWarningMessage,
    parseStringM, getFolderSizeM, readFileSync, statIsDirectory, readdirSync,
    existsSync, showErrorMessage, showInformationMessage, consoleLog,
    emit, lift, try_catch, bind, ret, showing in *.

Lemma count_errors_app (a b : list event) :
  count_errors (a ++ b) = count_errors a + count_errors b.
Proof. unfold count_errors. rewrite filter_app, length_app. lia. Qed.

Section RemovalLoops.
Variable host : Host.
Variable describe : Item -> string -> string.

(** One turn of the interactive loop always completes: the item is
    either counted as removed or reported in an error message of its
    own, never both. *)
Lemma removeSelectedStep_completes (acc : Z * Z) (item : Item) (w : world) :
  exists acc' r' new,
    removeSelectedStep host describe acc item w = (Ok acc', mkWorld r' (shown w ++ new)) /\
    ((fst acc' = fst acc + 1 /\ count_errors new = 0) \/
     (acc' = acc /\ count_errors new = 1)).
Proof.
  destruct acc as [removedCount totalSize]. destruct w as [r evs].
  unfold_monad. simpl.
  destruct (getFolderSize r (ipath item)) as [size|e].
  - destruct (Fs.existsSync r (ipath item)); simpl.
    + set (command := if String.eqb (platform host) "win32" then "rmdir /s /q" else "rm -rf").
      destruct (shell host command (ipath item) r) as [r' [message|]]; simpl.
      * exists (removedCount, totalSize), r',
          [Exec command (ipath item); Error (describe item message)].
        rewrite <- app_assoc. split; [reflexivity|]. right. split; reflexivity.
      * eexists _, r', [_]. split; [reflexivity|]. left. split; reflexivity.
    + eexists _, r, []. rewrite app_nil_r. split; [reflexivity|].
      left. split; reflexivity.
  - eexists _, r, [_]. split; [reflexivity|]. right. split; reflexivity.
Qed.

(** X1.  The interactive loop never aborts: whatever fails, it runs to the
    end of the batch, and every item is accounted for, by the count of
    removed items or by an error message. *)
Lemma removeSelected_accounts_for_every_item (selected : list Item) :
  forall (acc : Z * Z) (w : world),
  exists acc' r' new,
    forOf (removeSelectedStep host describe) selected acc w
    = (Ok acc', mkWorld r' (shown w ++ new)) /\
    fst acc' - fst acc + count_errors new = Z.of_nat (List.length selected).
Proof.
  induction selected as [|item rest IH]; intros acc w.
  - exists acc, (fs w), []. simpl. unfold ret. rewrite app_nil_r.
    destruct w; simpl. split; [reflexivity|]. unfold count_errors. simpl. lia.
  - destruct (removeSelectedStep_completes acc item w) as (acc1 & r1 & new1 & Hstep & Hcount).
    destruct (IH acc1 (mkWorld r1 (shown w ++ new1))) as (acc2 & r2 & new2 & Hrest & Hsum).
    exists acc2, r2, (new1 ++ new2).
    cbn [forOf]. unfold bind at 1. rewrite Hstep, Hrest. simpl.
    rewrite <- app_assoc. split; [reflexivity|].
    rewrite count_errors_app.
    cbn [List.length].
    destruct Hcount as [[H1 H2]|[H1 H2]]; [|subst acc1]; lia.
Qed.

(** The scenario of the specification on the interactive loop: deleting
    the first path fails, deleting the second succeeds. *)
Lemma removeSelected_failure_then_success
  (i1 i2 : Item) (w : world) (s1 s2 : Z) (r1 r2 : node) (message : string) :
  let command := if String.eqb (platform host) "win32" then "rmdir /s /q" else "rm -rf" in
  getFolderSize (fs w) (ipath i1) = Ok s1 ->
  Fs.existsSync (fs w) (ipath i1) = true ->
  shell host command (ipath i1) (fs w) = (r1, Some message) ->
  getFolderSize r1 (ipath i2) = Ok s2 ->
  Fs.existsSync r1 (ipath i2) = true ->
  shell host command (ipath i2) r1 = (r2, None) ->
  removeSelected host describe [i1; i2] w
  = (Ok (1, s2),
     mkWorld r2 (shown w ++ [Exec command (ipath i1); Error (describe i1 message);
                             Exec command (ipath i2)])).
Proof.
  intros command Hs1 He1 Hd1 Hs2 He2 Hd2. subst command.
  destruct w as [r evs]. unfold removeSelected. cbn [forOf].
  unfold_monad. simpl in *.
  rewrite Hs1; simpl. rewrite He1; simpl. rewrite Hd1; simpl.
  rewrite Hs2; simpl. rewrite He2; simpl. rewrite Hd2; simpl.
  rewrite <- !app_assoc. reflexivity.
Qed.

(** X2.  In the loop of the sweep a failing deletion is the end of the loop:
    the exception leaves it with the rest of the batch untouched. *)
Lemma removeVersions_failure_aborts
  (v : Item) (rest : list Item) (acc : Z * Z) (w : world) (s : Z) (r1 : node)
  (message : string) :
  let command := if String.eqb (platform host) "win32" then "rmdir /s /q" else "rm -rf" in
  getFolderSize (fs w) (ipath v) = Ok s ->
  Fs.existsSync (fs w) (ipath v) = true ->
  shell host command (ipath v) (fs w) = (r1, Some message) ->
  removeVersions host (v :: rest) acc w
  = (Throw message, mkWorld r1 (shown w ++ [Exec command (ipath v)])).
Proof.
  intros command Hs He Hd. subst command.
  destruct w as [r evs]. destruct acc as [totalSize removedCount].
  unfold removeVersions. cbn [forOf].
  unfold_monad. simpl in *.
  rewrite Hs; simpl. rewrite He; simpl. rewrite Hd; simpl. reflexivity.
Qed.
End RemovalLoops.

(** C2.  [cleanAllExceptLatest] on a pack with the versions 8.0.3,
    8.0.40 and 8.0.100, where deleting 8.0.40 fails: the removal set is
    8.0.40 then 8.0.3; the failure on 8.0.40 ends the whole command with the
    error message of its outer handler, 8.0.3 is never attempted and is
    still there, and no count of removed items is reported.  The loop of
    the interactive commands, given the same two paths, reports the failure
    and goes on: one item removed, the 100 bytes of 8.0.3 freed. *)
Theorem sweep_failure_aborts_the_batch :
  map label (keepLatestVersion
               (map (fun v => mkItem v "" "" (Scenario.packDir ++ [v]) false)
                    ["8.0.3"; "8.0.40"; "8.0.100"]))
  = ["8.0.40"; "8.0.3"] /\
  cleanAllExceptLatest Scenario.packsHost Scenario.packsWorld
  = (Ok tt,
     mkWorld Scenario.packsTree
       [ConsoleLog "cleanAllExceptLatest command executed";
        Exec "rm -rf" Scenario.lockedVersion;
        Error "Error cleaning all except latest versions: Permission denied"]) /\
  Fs.existsSync Scenario.packsTree Scenario.otherVersion = true /\
  removeVersions Scenario.packsHost
    [mkItem "8.0.40" "" "" Scenario.lockedVersion false;
     mkItem "8.0.3" "" "" Scenario.otherVersion false] (0, 0) Scenario.packsWorld
  = (Throw "Permission denied",
     mkWorld Scenario.packsTree [Exec "rm -rf" Scenario.lockedVersion]) /\
  removeSelected Scenario.packsHost
    (fun item error => "Error removing " +++ label item +++ ": " +++ error)
    [mkItem "8.0.40" "" "" Scenario.lockedVersion false;
     mkItem "8.0.3" "" "" Scenario.otherVersion false] Scenario.packsWorld
  = (Ok (1, 100),
     mkWorld (Fs.remove Scenario.otherVersion Scenario.packsTree)
       [Exec "rm -rf" Scenario.lockedVersion;
        Error "Error removing 8.0.40: Permission denied";
        Exec "rm -rf" Scenario.otherVersion]).
Proof. repeat split; vm_compute; reflexivity. Qed.

(** C8.  On a platform other than macOS the two restricted commands do
    the same whatever the file system holds: they log their name, show
    the information message "This command is only available on macOS"
    and return; no error message, no picker, no shell command, and the
    file system is as before. *)
Theorem restricted_commands_noop_off_macOS (host : Host) (w : world) :
  platform host <> "darwin" ->
  cleanIosDeviceSupport host w
  = (Ok tt, showing w [ConsoleLog "cleanIosDeviceSupport command executed";
                       Information "This command is only available on macOS"]) /\
  cleanIosSimulatorRuntime host w
  = (Ok tt, showing w [ConsoleLog "cleanIosSimulatorRuntime command executed";
                       Information "This command is only available on macOS"]).
Proof.
  intros Hp.
  unfold cleanIosDeviceSupport, cleanIosSimulatorRuntime, isDarwin.
  destruct (String.eqb_spec (platform host) "darwin") as [E|_]; [contradiction|].
  unfold_monad. simpl. rewrite <- !app_assoc. split; reflexivity.
Qed.

Lemma restricted_commands_noop_off_macOS_witness :
  cleanIosDeviceSupport Scenario.packsHost Scenario.packsWorld
  = (Ok tt, showing Scenario.packsWorld
              [ConsoleLog "cleanIosDeviceSupport command executed";
               Information "This command is only available on macOS"]) /\
  cleanIosSimulatorRuntime Scenario.packsHost Scenario.packsWorld
  = (Ok tt, showing Scenario.packsWorld
              [ConsoleLog "cleanIosSimulatorRuntime command executed";
               Information "This command is only available on macOS"]).
Proof.
  apply (restricted_commands_noop_off_macOS Scenario.packsHost Scenario.packsWorld).
  discriminate.
Defined.

(** ** What the sort callbacks do guarantee *)

Section SortOrder.
Context {A : Type}.
Variable f : A -> A -> comparison.
Hypothesis f_asym : forall x y, f x y = Gt -> f y x <> Gt.

Lemma insert_in_order (x : A) (l : list A) :
  Sorted (in_order f) l -> Sorted (in_order f) (JsArray.insert f x l).
Proof.
  induction l as [|y l IH]; intros Hs; simpl.
  - repeat constructor.
  - inversion Hs as [|? ? Hl Hhd]; subst.
    destruct (f x y) eqn:E.
    + constructor; [assumption|]. constructor. unfold in_order. congruence.
    + constructor; [assumption|]. constructor. unfold in_order. congruence.
    + constructor; [now apply IH|].
      destruct l as [|z l]; simpl.
      * constructor. now apply f_asym.
      * destruct (f x z); constructor;
          solve [now apply f_asym | now inversion Hhd].
Qed.

(** Each element of the sorted array is one the callback does not place
    after its successor. *)
Lemma sort_in_order (l : list A) : Sorted (in_order f) (JsArray.sort f l).
Proof.
  induction l as [|x l IH]; simpl.
  - constructor.
  - now apply insert_in_order.
Qed.
End SortOrder.

Lemma sign_sub_asym (x y : option Z) :
  JsArray.sign (JsArray.sub x y) = Gt -> JsArray.sign (JsArray.sub y x) <> Gt.
Proof.
  destruct x as [a|], y as [b|]; simpl; try discriminate.
  intros H. apply Z.compare_gt_iff in H.
  intros H'. apply Z.compare_gt_iff in H'. lia.
Qed.

Lemma bySize_asym (x y : Item) : bySize x y = Gt -> bySize y x <> Gt.
Proof. unfold bySize. apply sign_sub_asym. Qed.

Lemma byUsageAndSize_asym (x y : Item) :
  byUsageAndSize x y = Gt -> byUsageAndSize y x <> Gt.
Proof.
  unfold byUsageAndSize.
  destruct (isUsed x), (isUsed y); simpl; try discriminate; try apply sign_sub_asym.
Qed.

(** X3.  The "Sort by size" pickers: of two neighbours that both show a
    number, the first shows the larger one or the same. *)
Lemma bySize_sorts_by_shown_number (items : list Item) :
  Sorted (fun a b =>
            forall sizeA sizeB,
              shownSize (description a) = Some sizeA ->
              shownSize (description b) = Some sizeB ->
              sizeB <= sizeA)
         (JsArray.sort bySize items).
Proof.
  pose proof (sort_in_order bySize bySize_asym items) as Hs.
  induction Hs as [|a l Hl IH Hhd]; constructor; [assumption|].
  destruct Hhd as [|b l Hab]; constructor.
  intros sizeA sizeB HA HB. unfold in_order, bySize in Hab.
  rewrite HA, HB in Hab. simpl in Hab.
  destruct (Z.compare_spec (sizeB - sizeA) 0); try lia. congruence.
Qed.

(** X4.  The simulator-runtime picker: no entry in use comes before one that
    is not in use. *)
Lemma byUsageAndSize_not_in_use_first (items : list Item) :
  StronglySorted (fun a b => isUsed a = true -> isUsed b = true)
                 (JsArray.sort byUsageAndSize items).
Proof.
  apply Sorted_StronglySorted.
  - intros a b c Hab Hbc Ha. auto.
  - pose proof (sort_in_order byUsageAndSize byUsageAndSize_asym items) as Hs.
    induction Hs as [|a l Hl IH Hhd]; constructor; [assumption|].
    destruct Hhd as [|b l Hab]; constructor.
    intros Ha. unfold in_order, byUsageAndSize in Hab. rewrite Ha in Hab.
    destruct (isUsed b); [reflexivity|]. simpl in Hab. congruence.
Qed.


(** ** Presentation order *)

(** C5.  [cleanIosDeviceSupport] on two folders of 921600 bytes (shown
    as "900 KB") and 2147483648 bytes (shown as "2 GB"): the sort callback
    compares [parseInt] of the shown text, 900 against 2, so the picker
    lists the 900 KB folder before the 2 GB one, which is not descending by
    byte size.  The simulator-runtime picker does the same within the
    not-in-use entries (they do come before the one in use). *)
Theorem picker_order_compares_shown_number :
  let ds := Scenario.home ++ ["Library"; "Developer"; "Xcode"; "iOS DeviceSupport"] in
  let small := mkItem "15.0" "Size: 900 KB" "" (ds ++ ["15.0"]) false in
  let large := mkItem "16.0" "Size: 2 GB" "" (ds ++ ["16.0"]) false in
  let b := mkItem "B.asset" "Not in use" "Size: 900 KB" (runtimePath ++ ["B.asset"]) false in
  let c := mkItem "C.asset" "Not in use" "Size: 2 GB" (runtimePath ++ ["C.asset"]) false in
  let a := mkItem "A.asset" "Currently in use" "Size: 10 Bytes" (runtimePath ++ ["A.asset"]) true in
  cleanIosDeviceSupport Scenario.deviceSupportHost (mkWorld Scenario.deviceSupportTree [])
  = (Ok tt,
     mkWorld Scenario.deviceSupportTree
       [ConsoleLog "cleanIosDeviceSupport command executed";
        QuickPick "Select iOS Device Support folders to remove" [small; large]]) /\
  getFolderSize Scenario.deviceSupportTree (ipath small) = Ok 921600 /\
  getFolderSize Scenario.deviceSupportTree (ipath large) = Ok 2147483648 /\
  shownSize (description small) = Some 900 /\
  shownSize (description large) = Some 2 /\
  bySize small large = Lt /\
  JsArray.sort bySize [large; small] = [small; large] /\
  cleanIosSimulatorRuntime Scenario.runtimeCancelHost (mkWorld Scenario.runtimesBig [])
  = (Ok tt,
     mkWorld Scenario.runtimesBig
       [ConsoleLog "cleanIosSimulatorRuntime command executed";
        QuickPick "Select iOS Simulator Runtime assets to remove" [b; c; a]]).
Proof. repeat split; vm_compute; reflexivity. Qed.

(** ** Usage tagging *)

Lemma unusedAssets_exactly_not_in_use (assetFolders : list Item) (x : Item) :
  In x (unusedAssets assetFolders) <-> In x assetFolders /\ isUsed x = false.
Proof.
  unfold unusedAssets. rewrite filter_In.
  destruct (isUsed x); simpl; intuition congruence.
Qed.

(** The example of the specification: installed set {"A"}, folders
    "A.asset" and "B.asset". *)
Lemma asset_tagging_example :
  usedRuntimesOf Scenario.manifestA = Ok [Some "A"] /\
  map (fun i => (label i, isUsed i))
      (runtimeItems [Some "A"]
         [AssetFolder.make "A.asset" (runtimePath ++ ["A.asset"]) 10;
          AssetFolder.make "B.asset" (runtimePath ++ ["B.asset"]) 20])
  = [("A.asset", true); ("B.asset", false)] /\
  map (fun i => (label i, isUsed i))
      (sweepAssetFolders runtimePath [Some "A"] ["A.asset"; "B.asset"])
  = [("A.asset", true); ("B.asset", false)] /\
  map label (unusedAssets (sweepAssetFolders runtimePath [Some "A"] ["A.asset"; "B.asset"]))
  = ["B.asset"] /\
  cleanAllExceptLatest Scenario.runtimeHost (mkWorld Scenario.runtimesAB [])
  = (Ok tt,
     mkWorld (Fs.remove (runtimePath ++ ["B.asset"]) Scenario.runtimesAB)
       [ConsoleLog "cleanAllExceptLatest command executed";
        Exec "rm -rf" (runtimePath ++ ["B.asset"]);
        Information "Removed 1 items, freeing 20 Bytes. Kept only the latest versions."]).
Proof. repeat split; vm_compute; reflexivity. Qed.

(** A name [base.asset] whose [base] holds no dot: removing the first
    [.asset] removes the suffix. *)
Lemma replace_plain_suffix (base : string) :
  (forall c, In c (list_ascii_of_string base) -> c <> "."%char) ->
  JsString.replace ".asset" "" (base +++ ".asset") = base.
Proof.
  induction base as [|c base IH]; intros Hdot.
  - reflexivity.
  - cbn [String.append JsString.replace].
    assert (Hc : c <> "."%char) by (apply Hdot; simpl; auto).
    assert (Hpre : String.prefix ".asset" (String c (base +++ ".asset")) = false).
    { change (String.prefix ".asset" (String c (base +++ ".asset")))
        with (if Ascii.ascii_dec "." c
              then String.prefix "asset" (base +++ ".asset") else false).
      destruct (Ascii.ascii_dec "." c) as [E|_]; [congruence|reflexivity]. }
    rewrite Hpre. f_equal. apply IH.
    intros c' Hin. apply Hdot. simpl. auto.
Qed.

(** ** The installed set *)

Lemma value_eqb_eq (x y : option string) : JsSet.value_eqb x y = true <-> x = y.
Proof.
  destruct x as [a|], y as [b|]; simpl; try (split; congruence).
  rewrite String.eqb_eq. split; congruence.
Qed.

Lemma has_In (s : JsSet.t) (x : option string) : JsSet.has s x = true <-> In x s.
Proof.
  unfold JsSet.has. rewrite existsb_exists. split.
  - intros [y [Hin Heq]]. apply value_eqb_eq in Heq. now subst.
  - intros Hin. exists x. split; [assumption|]. now apply value_eqb_eq.
Qed.

Lemma add_In (s : JsSet.t) (x y : option string) :
  In y (JsSet.add s x) <-> In y s \/ y = x.
Proof.
  unfold JsSet.add. destruct (JsSet.has s x) eqn:E.
  - apply has_In in E. split; [auto|]. intros [H|H]; [|subst y]; assumption.
  - rewrite in_app_iff. simpl. intuition.
Qed.

(** X5.  What [usedRuntimes] holds after the [forEach]: the [assetId] of every
    element whose [state] is "installed", and nothing else. *)
Lemma collectInstalled_members (assets : list AssetElement) :
  forall (s0 s : JsSet.t) (v : option string),
    collectInstalled assets s0 = Ok s ->
    (In v s <->
     In v s0 \/
     exists attrs, In (mkAsset (Some attrs)) assets /\
                   attribute "state" attrs = Some "installed" /\
                   attribute "assetId" attrs = v).
Proof.
  induction assets as [|[[attrs|]] rest IH]; intros s0 s v Hc; simpl in Hc.
  - injection Hc as <-. split; [auto|]. intros [H|[attrs [[] _]]]. assumption.
  - destruct (JsSet.value_eqb (attribute "state" attrs) (Some "installed")) eqn:E.
    + apply value_eqb_eq in E. rewrite (IH _ _ v Hc), add_In. split.
      * intros [[H| ->]|[a [Hin H]]]; [now left| |].
        -- right. exists attrs. simpl. auto.
        -- right. exists a. simpl. auto.
      * intros [H|[a [[Heq|Hin] [Hst Hid]]]]; [now left; left| |].
        -- injection Heq as <-. left. right. now symmetry.
        -- right. exists a. auto.
    + rewrite (IH _ _ v Hc). split.
      * intros [H|[a [Hin H]]]; [now left|]. right. exists a. simpl. auto.
      * intros [H|[a [[Heq|Hin] [Hst Hid]]]]; [now left| |].
        -- injection Heq as <-. rewrite Hst in E. discriminate.
        -- right. exists a. auto.
  - discriminate.
Qed.

(** X6.  For a folder [base.asset] whose [base] holds no dot, the tag is
    membership of [base] in the installed set. *)
Lemma assetIsUsed_plain_name (usedRuntimes : JsSet.t) (base : string) :
  (forall c, In c (list_ascii_of_string base) -> c <> "."%char) ->
  assetIsUsed usedRuntimes (base +++ ".asset") = true <-> In (Some base) usedRuntimes.
Proof.
  intros Hdot. unfold assetIsUsed. rewrite (replace_plain_suffix base Hdot).
  apply has_In.
Qed.

(** C6.  A manifest with the installed runtime "iOS.assets" and the
    folder "iOS.assets.asset": the folder name ends with ".asset" and
    without that suffix it is a member of the installed set, but the code
    looks up the name with the first ".asset" taken out, "iOSs.asset",
    tags the folder as not in use, and the sweep deletes it. *)
Theorem inUse_tag_removes_first_occurrence :
  usedRuntimesOf Scenario.manifestAssets = Ok [Some "iOS.assets"] /\
  JsString.endsWith ".asset" "iOS.assets.asset" = true /\
  stripSuffix ".asset" "iOS.assets.asset" = "iOS.assets" /\
  JsSet.has [Some "iOS.assets"] (Some (stripSuffix ".asset" "iOS.assets.asset")) = true /\
  JsString.replace ".asset" "" "iOS.assets.asset" = "iOSs.asset" /\
  assetIsUsed [Some "iOS.assets"] "iOS.assets.asset" = false /\
  map label (unusedAssets
               (sweepAssetFolders runtimePath [Some "iOS.assets"]
                  [Scenario.manifestName; "iOS.assets.asset"]))
  = ["iOS.assets.asset"] /\
  cleanAllExceptLatest Scenario.assetsHost (mkWorld Scenario.runtimesAssets [])
  = (Ok tt,
     mkWorld (Fs.remove (runtimePath ++ ["iOS.assets.asset"]) Scenario.runtimesAssets)
       [ConsoleLog "cleanAllExceptLatest command executed";
        Exec "rm -rf" (runtimePath ++ ["iOS.assets.asset"]);
        Information "Removed 1 items, freeing 10 Bytes. Kept only the latest versions."]).
Proof. repeat split; vm_compute; reflexivity. Qed.

(** ** The manifest *)

Lemma readable_manifest_exists (r : node) (content : string) :
  Fs.readFileSync r xmlPath = Ok content ->
  Fs.existsSync r xmlPath = true /\ Fs.existsSync r runtimePath = true.
Proof.
  unfold Fs.readFileSync, Fs.existsSync, xmlPath. rewrite resolve_app.
  destruct (Fs.resolve r runtimePath) as [n|]; [|discriminate].
  destruct (Fs.resolve n _) as [[sz c|entries|]|]; try discriminate; auto.
Qed.

(** C7 as stated fails for the sweep: on macOS, with the runtime
    directory present and its manifest absent, [cleanAllExceptLatest]
    shows no error message at all. *)
Lemma sweep_absent_manifest_shows_no_error :
  ~ (forall (host : Host) (w : world),
        platform host = "darwin" ->
        Fs.existsSync (fs w) runtimePath = true ->
        Fs.existsSync (fs w) xmlPath = false ->
        exists msg, In (Error msg) (shown (snd (cleanAllExceptLatest host w)))).
Proof.
  intros H.
  destruct (H Scenario.runtimeHost (mkWorld Scenario.runtimesNoManifest [])
              eq_refl eq_refl eq_refl) as [msg Hin].
  vm_compute in Hin.
  destruct Hin as [Hin|[Hin|[]]]; discriminate.
Qed.

(** C7, amended.  On macOS:
    - the interactive command with the manifest absent shows the error
      "iOS Simulator Runtime XML file not found", and with a manifest the
      parser rejects it shows "Error cleaning iOS Simulator Runtime: "
      followed by the parser's message; in both cases nothing else happens
      (no picker, no deletion);
    - in the sweep, once the earlier blocks are through, a manifest the
      parser rejects ends the command with "Error cleaning all except latest
      versions: " followed by the parser's message, before any asset folder
      is listed or removed;
    - in the sweep, an absent manifest makes the asset-bundle block do
      nothing: no folder is tagged or removed, no error is shown, and the
      command ends with its usual summary. *)
Theorem manifest_unavailable_handling (host : Host) (w : world) :
  platform host = "darwin" ->
  (Fs.existsSync (fs w) xmlPath = false ->
   cleanIosSimulatorRuntime host w
   = (Ok tt, showing w [ConsoleLog "cleanIosSimulatorRuntime command executed";
                        Error "iOS Simulator Runtime XML file not found"])) /\
  (forall content msg,
      Fs.readFileSync (fs w) xmlPath = Ok content ->
      parseString host content = Throw msg ->
      cleanIosSimulatorRuntime host w
      = (Ok tt, showing w [ConsoleLog "cleanIosSimulatorRuntime command executed";
                           Error ("Error cleaning iOS Simulator Runtime: " +++ msg)])) /\
  (forall content msg acc w1,
      sweepBeforeRuntime host
        (showing w [ConsoleLog "cleanAllExceptLatest command executed"]) = (Ok acc, w1) ->
      Fs.readFileSync (fs w1) xmlPath = Ok content ->
      parseString host content = Throw msg ->
      sweepSimulatorRuntime host acc w1 = (Throw msg, w1) /\
      cleanAllExceptLatest host w
      = (Ok tt, showing w1 [Error ("Error cleaning all except latest versions: " +++ msg)])) /\
  (forall totalSize removedCount w1,
      sweepBeforeRuntime host
        (showing w [ConsoleLog "cleanAllExceptLatest command executed"])
      = (Ok (totalSize, removedCount), w1) ->
      Fs.existsSync (fs w1) xmlPath = false ->
      sweepSimulatorRuntime host (totalSize, removedCount) w1
      = (Ok (totalSize, removedCount), w1) /\
      cleanAllExceptLatest host w
      = (Ok tt, showing w1 [Information
                              ("Removed " +++ JsString.ofZ removedCount +++
                               " items, freeing " +++ formatBytes totalSize +++
                               ". Kept only the latest versions.")])).
Proof.
  intros Hp.
  assert (Hd : isDarwin host = true) by (unfold isDarwin; now rewrite Hp).
  assert (Hblock_bad : forall content msg acc w1,
             Fs.readFileSync (fs w1) xmlPath = Ok content ->
             parseString host content = Throw msg ->
             sweepSimulatorRuntime host acc w1 = (Throw msg, w1)).
  { intros content msg acc w1 Hread Hparse.
    destruct (readable_manifest_exists _ _ Hread) as [Hx Hr].
    unfold sweepSimulatorRuntime. rewrite Hd.
    unfold_monad. rewrite Hr, Hx, Hread, Hparse. reflexivity. }
  assert (Hblock_absent : forall acc w1,
             Fs.existsSync (fs w1) xmlPath = false ->
             sweepSimulatorRuntime host acc w1 = (Ok acc, w1)).
  { intros acc w1 Habs.
    unfold sweepSimulatorRuntime. rewrite Hd.
    unfold_monad.
    destruct (Fs.existsSync (fs w1) runtimePath); cbv beta iota;
      [rewrite Habs|]; reflexivity. }
  assert (Hcommand : forall acc w1,
             sweepBeforeRuntime host
               (showing w [ConsoleLog "cleanAllExceptLatest command executed"])
             = (Ok acc, w1) ->
             cleanAllExceptLatest host w
             = try_catch
                 ('(totalSize, removedCount) <- sweepSimulatorRuntime host acc ;;
                  showInformationMessage
                    ("Removed " +++ JsString.ofZ removedCount +++ " items, freeing " +++
                     formatBytes totalSize +++ ". Kept only the latest versions."))
                 (fun error =>
                    showErrorMessage
                      ("Error cleaning all except latest versions: " +++ error))
                 w1).
  { intros acc w1 Hbefore.
    unfold cleanAllExceptLatest, sweepBeforeRuntime in *.
    unfold try_catch, bind, consoleLog, emit, showing in *. simpl in *.
    destruct (sweepDeviceSupport host (0, 0) _) as [[a1|e1] v1]; [|discriminate].
    destruct (sweepAndroidSdk host a1 v1) as [[a2|e2] v2]; [|discriminate].
    rewrite Hbefore. reflexivity. }
  split; [|split; [|split]].
  - intros Habs. unfold cleanIosSimulatorRuntime. rewrite Hd.
    unfold_monad. simpl. rewrite Habs. simpl. now rewrite <- app_assoc.
  - intros content msg Hread Hparse.
    destruct (readable_manifest_exists _ _ Hread) as [Hx _].
    unfold cleanIosSimulatorRuntime. rewrite Hd.
    unfold_monad. simpl. rewrite Hx. simpl. rewrite Hread. rewrite Hparse.
    simpl. now rewrite <- app_assoc.
  - intros content msg acc w1 Hbefore Hread Hparse.
    split; [now apply (Hblock_bad content)|].
    rewrite (Hcommand _ _ Hbefore).
    unfold try_catch, bind. rewrite (Hblock_bad content msg acc w1 Hread Hparse).
    reflexivity.
  - intros totalSize removedCount w1 Hbefore Habs.
    split; [now apply Hblock_absent|].
    rewrite (Hcommand _ _ Hbefore).
    unfold try_catch, bind. rewrite (Hblock_absent _ w1 Habs).
    reflexivity.
Qed.

Lemma manifest_unavailable_handling_witness :
  let absent := mkWorld Scenario.runtimesNoManifest [] in
  let rejected := mkWorld Scenario.runtimesBadManifest [] in
  cleanIosSimulatorRuntime Scenario.runtimeHost absent
  = (Ok tt, showing absent [ConsoleLog "cleanIosSimulatorRuntime command executed";
                            Error "iOS Simulator Runtime XML file not found"]) /\
  cleanIosSimulatorRuntime Scenario.runtimeHost rejected
  = (Ok tt, showing rejected
              [ConsoleLog "cleanIosSimulatorRuntime command executed";
               Error "Error cleaning iOS Simulator Runtime: Unclosed root tag"]) /\
  cleanAllExceptLatest Scenario.runtimeHost rejected
  = (Ok tt, showing rejected
              [ConsoleLog "cleanAllExceptLatest command executed";
               Error "Error cleaning all except latest versions: Unclosed root tag"]) /\
  cleanAllExceptLatest Scenario.runtimeHost absent
  = (Ok tt, showing absent
              [ConsoleLog "cleanAllExceptLatest command executed";
               Information "Removed 0 items, freeing 0 Bytes. Kept only the latest versions."]).
Proof.
  intros absent rejected.
  destruct (manifest_unavailable_handling Scenario.runtimeHost absent eq_refl)
    as [Habsent [_ [_ Hsweep_absent]]].
  destruct (manifest_unavailable_handling Scenario.runtimeHost rejected eq_refl)
    as [_ [Hrejected [Hsweep_rejected _]]].
  split; [exact (Habsent eq_refl)|].
  split; [exact (Hrejected "<assets" "Unclosed root tag" eq_refl eq_refl)|].
  split.
  - exact (proj2 (Hsweep_rejected
                    "<assets" "Unclosed root tag" (0, 0)
                    (showing rejected [ConsoleLog "cleanAllExceptLatest command executed"])
                    eq_refl eq_refl eq_refl)).
  - exact (proj2 (Hsweep_absent
                    0 0
                    (showing absent [ConsoleLog "cleanAllExceptLatest command executed"])
                    eq_refl eq_refl)).
Defined.

(** ** Checks of the string helpers on the texts the commands build *)

Example formatBytes_samples :
  map formatBytes [0; 1; 1023; 1024; 1536; 921600; 1048576; 2147483648]
  = ["0 Bytes"; "1 Bytes"; "1023 Bytes"; "1 KB"; "1.5 KB"; "900 KB"; "1 MB"; "2 GB"].
Proof. reflexivity. Qed.

Example formatBytes_past_the_table : formatBytes (1024 ^ 5) = "1 undefined".
Proof. reflexivity. Qed.

Example split_size_text : JsString.split ": " "Size: 1.5 KB" = ["Size"; "1.5 KB"].
Proof. reflexivity. Qed.

Example shownSize_drops_fraction_and_unit : shownSize "Size: 1.5 KB" = Some 1.
Proof. reflexivity. Qed.

Example versionToken_strips_annotation : versionToken "14.5 (18E182)" = "14.5".
Proof. reflexivity. Qed.

Example android_platforms_sweep :
  map label (keepLatestVersion
               (map (fun v => mkItem v "" "" ["sdk"; "platforms"; v] false)
                    ["android-30"; "android-33"; "android-31"]))
  = ["android-31"; "android-30"].
Proof. reflexivity. Qed.


(* ================================================================= *)
(** * Further properties of the commands *)

(** ** Events and the file system along a command *)

Lemma exec_targets_app (a b : list event) :
  exec_targets (a ++ b) = exec_targets a ++ exec_targets b.
Proof. unfold exec_targets. apply flat_map_app. Qed.

Lemma emits_at_weaken {A} (w : world) (ok ok' : event -> Prop) (c : M A) :
  (forall e, ok e -> ok' e) -> emits_at w ok c -> emits_at w ok' c.
Proof.
  intros Himp (new & Hs & Hok & Hfs).
  exists new. repeat split; auto. eapply Forall_impl; eauto.
Qed.

Lemma emits_weaken {A} (ok ok' : event -> Prop) (c : M A) :
  (forall e, ok e -> ok' e) -> emits ok c -> emits ok' c.
Proof. intros Himp Hc w. eapply emits_at_weaken; eauto. Qed.

Lemma emits_ret {A} (ok : event -> Prop) (a : A) : emits ok (ret a).
Proof. intros w. exists []. simpl. rewrite app_nil_r. auto. Qed.

Lemma emits_throw {A} (ok : event -> Prop) (e : string) :
  emits ok (fun w => (@Throw A e, w)).
Proof. intros w. exists []. simpl. rewrite app_nil_r. auto. Qed.

Lemma emits_lift {A} (ok : event -> Prop) (f : node -> result A) : emits ok (lift f).
Proof. intros w. exists []. simpl. rewrite app_nil_r. auto. Qed.

Lemma emits_emit (ok : event -> Prop) (e : event) :
  ok e -> exec_targets [e] = [] -> emits ok (emit e).
Proof. intros He Hx w. exists [e]. simpl. auto. Qed.

Lemma emits_at_bind {A B} (w : world) (ok : event -> Prop) (c : M A) (k : A -> M B) :
  emits_at w ok c ->
  (forall a w1, c w = (Ok a, w1) -> emits_at w1 ok (k a)) ->
  emits_at w ok (bind c k).
Proof.
  intros (n1 & Hs1 & Hok1 & Hfs1) Hk. unfold emits_at, bind.
  destruct (c w) as [[a|e] w1]; simpl in *.
  - destruct (Hk a w1 eq_refl) as (n2 & Hs2 & Hok2 & Hfs2).
    exists (n1 ++ n2). rewrite Hs2, Hs1, app_assoc. split; [reflexivity|].
    split; [now apply Forall_app|].
    rewrite exec_targets_app. intros H. apply app_eq_nil in H as [H1 H2].
    rewrite Hfs2, Hfs1; auto.
  - exists n1. auto.
Qed.

Lemma emits_at_try_catch {A} (w : world) (ok : event -> Prop)
  (body : M A) (handler : string -> M A) :
  emits_at w ok body ->
  (forall e w1, body w = (Throw e, w1) -> emits_at w1 ok (handler e)) ->
  emits_at w ok (try_catch body handler).
Proof.
  intros (n1 & Hs1 & Hok1 & Hfs1) Hk. unfold emits_at, try_catch.
  destruct (body w) as [[a|e] w1]; simpl in *.
  - exists n1. auto.
  - destruct (Hk e w1 eq_refl) as (n2 & Hs2 & Hok2 & Hfs2).
    exists (n1 ++ n2). rewrite Hs2, Hs1, app_assoc. split; [reflexivity|].
    split; [now apply Forall_app|].
    rewrite exec_targets_app. intros H. apply app_eq_nil in H as [H1 H2].
    rewrite Hfs2, Hfs1; auto.
Qed.

Lemma emits_bind {A B} (ok : event -> Prop) (c : M A) (k : A -> M B) :
  emits ok c -> (forall a, emits ok (k a)) -> emits ok (bind c k).
Proof. intros Hc Hk w. apply emits_at_bind; [apply Hc|]. intros a w1 _. apply Hk. Qed.

Lemma emits_try_catch {A} (ok : event -> Prop) (body : M A) (handler : string -> M A) :
  emits ok body -> (forall e, emits ok (handler e)) -> emits ok (try_catch body handler).
Proof. intros Hc Hk w. apply emits_at_try_catch; [apply Hc|]. intros e w1 _. apply Hk. Qed.

Lemma emits_forOf {A S} (ok : event -> Prop) (body : S -> A -> M S) (l : list A) :
  (forall acc x, In x l -> emits ok (body acc x)) ->
  forall acc, emits ok (forOf body l acc).
Proof.
  induction l as [|x l IH]; intros Hb acc; simpl.
  - apply emits_ret.
  - apply emits_bind; [apply Hb; now left|].
    intros acc'. apply IH. intros a y Hy. apply Hb. now right.
Qed.

Lemma emits_mapM {A B} (ok : event -> Prop) (f : A -> M B) (l : list A) :
  (forall x, In x l -> emits ok (f x)) -> emits ok (mapM f l).
Proof.
  induction l as [|x l IH]; intros Hf; simpl.
  - apply emits_ret.
  - apply emits_bind; [apply Hf; now left|]. intros y.
    apply emits_bind; [apply IH; intros z Hz; apply Hf; now right|].
    intros ys. apply emits_ret.
Qed.

Lemma emits_execAsync (host : Host) (ok : event -> Prop) (command : string) (target : path) :
  ok (Exec command target) -> emits ok (execAsync host command target).
Proof.
  intros He w. unfold emits_at, execAsync. cbv beta.
  destruct (shell host command target (fs w)) as [r' [m|]]; simpl;
    exists [Exec command target]; (split; [reflexivity|]);
    (split; [now constructor|]); discriminate.
Qed.

Lemma emits_deleteFolderRecursive (host : Host) (ok : event -> Prop) (p : path) :
  (forall command, ok (Exec command p)) -> emits ok (deleteFolderRecursive host p).
Proof.
  intros He. unfold deleteFolderRecursive.
  apply emits_bind; [apply emits_lift|]. intros [|].
  - apply emits_execAsync, He.
  - apply emits_ret.
Qed.

Lemma quiet_deletes_within (P : path -> Prop) (e : event) :
  quiet e -> deletes_within P e.
Proof. destruct e; simpl; auto. unfold quiet. simpl. discriminate. Qed.


Lemma reads_emits {A} (ok : event -> Prop) (c : M A) (f : node -> result A) :
  reads c f -> emits ok c.
Proof.
  intros Hr w. exists []. rewrite (Hr w). simpl. rewrite app_nil_r. auto.
Qed.

Lemma reads_lift {A} (f : node -> result A) : reads (lift f) f.
Proof. intros w. reflexivity. Qed.

Lemma reads_bind {A B} (c : M A) (k : A -> M B)
  (f : node -> result A) (g : A -> node -> result B) :
  reads c f -> (forall a, reads (k a) (g a)) ->
  reads (bind c k) (fun r => match f r with Ok a => g a r | Throw e => Throw e end).
Proof.
  intros Hc Hk w. unfold bind. rewrite (Hc w).
  destruct (f (fs w)) as [a|e]; [apply Hk|reflexivity].
Qed.

Lemma reads_ret {A} (a : A) : reads (ret a) (fun _ => Ok a).
Proof. intros w. reflexivity. Qed.

Lemma reads_mapM {A B} (f : A -> M B) (g : A -> node -> result B) (l : list A) :
  (forall x, reads (f x) (g x)) ->
  reads (mapM f l) (fun r => traverse (fun x => g x r) l).
Proof.
  intros Hf w. induction l as [|x l IH]; simpl.
  - reflexivity.
  - unfold bind. rewrite (Hf x w). destruct (g x (fs w)) as [y|e]; [|reflexivity].
    fold (@mapM A B f l). rewrite IH.
    destruct (traverse (fun x0 => g x0 (fs w)) l); reflexivity.
Qed.

Lemma filterM_directories (root : path) (names : list string) (w : world) :
  filterM (fun folder => statIsDirectory (root ++ [folder])) names w
  = (keep_directories (fs w) root names, w).
Proof.
  induction names as [|name rest IH]; simpl.
  - reflexivity.
  - unfold bind at 1. unfold statIsDirectory at 1. unfold lift.
    destruct (Fs.statSync (fs w) (root ++ [name])) as [n|e]; [|reflexivity].
    unfold bind. rewrite IH.
    destruct (keep_directories (fs w) root rest); reflexivity.
Qed.

Lemma subdirectories_reads (root : path) :
  reads (subdirectories root) (fun r => subdirs_of r root).
Proof.
  intros w. unfold subdirectories, subdirs_of, bind, readdirSync, lift.
  destruct (Fs.readdirSync (fs w) root) as [names|e]; [|reflexivity].
  apply filterM_directories.
Qed.

(** ** The removal loops *)

Lemma emits_removeSelectedStep (host : Host) (describe : Item -> string -> string)
  (ok : event -> Prop) (acc : Z * Z) (item : Item) :
  (forall command, ok (Exec command (ipath item))) ->
  (forall e, quiet e -> ok e) ->
  emits ok (removeSelectedStep host describe acc item).
Proof.
  intros He Hq. unfold removeSelectedStep. destruct acc as [removedCount totalSize].
  apply emits_try_catch.
  - apply emits_bind; [apply emits_lift|]. intros size.
    apply emits_bind; [now apply emits_deleteFolderRecursive|]. intros _.
    apply emits_ret.
  - intros error. apply emits_bind; [|intros _; apply emits_ret].
    apply emits_emit; [apply Hq|]; reflexivity.
Qed.

Lemma emits_removeVersionsStep (host : Host) (ok : event -> Prop)
  (acc : Z * Z) (version : Item) :
  (forall command, ok (Exec command (ipath version))) ->
  emits ok (removeVersionsStep host acc version).
Proof.
  intros He. unfold removeVersionsStep. destruct acc as [totalSize removedCount].
  apply emits_bind; [apply emits_lift|]. intros size.
  apply emits_bind; [now apply emits_deleteFolderRecursive|]. intros _.
  apply emits_ret.
Qed.

(** The loop of the interactive commands only ever runs the shell
    on the path of an item of the selection; apart from such commands it
    leaves the file system as it found it. *)
Theorem removeSelected_deletes_only_selected
  (host : Host) (describe : Item -> string -> string) (selected : list Item) :
  emits (deletes_within (fun target => In target (map ipath selected)))
        (removeSelected host describe selected).
Proof.
  unfold removeSelected. apply emits_forOf. intros acc item Hin.
  apply emits_removeSelectedStep.
  - intros command. simpl. now apply in_map.
  - intros e. apply quiet_deletes_within.
Qed.

(** X7.  An item whose path does not exist (any more) is counted as
    removed, with no bytes freed and without a shell command, by the loop
    of the interactive commands and by the loop of the sweep alike. *)
Theorem missing_path_counts_as_removed
  (host : Host) (describe : Item -> string -> string)
  (removedCount totalSize : Z) (item : Item) (w : world) :
  Fs.existsSync (fs w) (ipath item) = false ->
  removeSelectedStep host describe (removedCount, totalSize) item w
  = (Ok (removedCount + 1, totalSize), w) /\
  removeVersionsStep host (totalSize, removedCount) item w
  = (Ok (totalSize, removedCount + 1), w).
Proof.
  intros Hmiss.
  assert (Hsize : getFolderSize (fs w) (ipath item) = Ok 0).
  { unfold getFolderSize. unfold Fs.existsSync in Hmiss.
    destruct (Fs.resolve (fs w) (ipath item)); [discriminate|reflexivity]. }
  unfold_monad. simpl. rewrite Hsize. simpl. rewrite Hmiss. simpl.
  rewrite Z.add_0_r. split; reflexivity.
Qed.

Lemma missing_path_counts_as_removed_witness :
  let w := mkWorld Scenario.packsTree [] in
  let gone := mkItem "9.0.0" "" "" (Scenario.packDir ++ ["9.0.0"]) false in
  removeSelectedStep Scenario.packsHost (fun _ e => e) (3, 500) gone w
  = (Ok (4, 500), w) /\
  removeVersionsStep Scenario.packsHost (500, 3) gone w = (Ok (500, 4), w).
Proof.
  intros w gone.
  apply (missing_path_counts_as_removed Scenario.packsHost (fun _ e => e) 3 500 gone w).
  reflexivity.
Defined.

(** ** The sweep *)

Lemma keepLatestVersion_In (vs : list Item) (x : Item) :
  In x (keepLatestVersion vs) -> In x vs.
Proof.
  unfold keepLatestVersion. destruct (List.length vs <=? 1)%nat; [contradiction|].
  intros Hin.
  apply (Permutation_in x (Permutation_sym (sort_perm byVersionDescending vs))).
  destruct (JsArray.sort byVersionDescending vs); [contradiction|]. now right.
Qed.

Lemma emits_removeVersions (host : Host) (ok : event -> Prop)
  (l : list Item) (acc : Z * Z) :
  (forall x command, In x l -> ok (Exec command (ipath x))) ->
  emits ok (removeVersions host l acc).
Proof.
  intros He. unfold removeVersions. apply emits_forOf.
  intros a x Hin. apply emits_removeVersionsStep. intros c. now apply He.
Qed.

Lemma emits_sweepVersions (host : Host) (root : path) (acc : Z * Z) :
  emits (deletes_within (child_of root)) (sweepVersions host root acc).
Proof.
  unfold sweepVersions.
  apply emits_bind; [apply (reads_emits _ _ _ (subdirectories_reads root))|].
  intros folders. apply emits_removeVersions.
  intros x command Hin. simpl.
  apply keepLatestVersion_In, in_map_iff in Hin. destruct Hin as [folder [<- _]].
  simpl. now exists folder.
Qed.

Lemma unusedAssets_origin (used : JsSet.t) (names : list string) (x : Item) :
  In x (unusedAssets (sweepAssetFolders runtimePath used names)) ->
  exists name, In name names /\ ipath x = runtimePath ++ [name] /\
               JsString.endsWith ".asset" name = true /\
               assetIsUsed used name = false.
Proof.
  unfold unusedAssets, sweepAssetFolders. rewrite filter_In, in_map_iff.
  intros [[name [<- Hin]] Hun]. apply filter_In in Hin as [Hin Hsuffix].
  simpl in Hun. exists name. repeat split; auto.
  now destruct (assetIsUsed used name).
Qed.

Lemma emits_sweepSimulatorRuntime (host : Host) (acc : Z * Z) :
  emits (deletes_within
           (fun target => isDarwin host = true /\
                          exists name, target = runtimePath ++ [name] /\
                                       JsString.endsWith ".asset" name = true))
        (sweepSimulatorRuntime host acc).
Proof.
  unfold sweepSimulatorRuntime. destruct (isDarwin host) eqn:Hd; [|apply emits_ret].
  apply emits_bind; [apply emits_lift|]. intros [|]; [|apply emits_ret].
  apply emits_bind; [apply emits_lift|]. intros [|]; [|apply emits_ret].
  apply emits_bind; [apply emits_lift|]. intros xmlContent.
  apply emits_bind.
  { intros w. exists []. unfold parseStringM. simpl. rewrite app_nil_r. auto. }
  intros doc.
  apply emits_bind; [apply emits_lift|]. intros used.
  apply emits_bind; [apply emits_lift|]. intros names.
  apply emits_removeVersions. intros x command Hin. simpl.
  destruct (unusedAssets_origin used names x Hin) as (name & _ & Hp & Hs & _).
  split; [reflexivity|]. now exists name.
Qed.

(** X8.  Whatever the file system, the shell and the manifest, every
    delete [cleanAllExceptLatest] issues is on an entry of the
    device-support directory or an [.asset] entry of the runtime directory
    (both on macOS only), on an entry of the SDK's [platforms],
    [system-images] or [build-tools], or on an entry of a pack: never on
    one of those directories itself, on [cmdline-tools], or anywhere else. *)
Theorem sweep_deletes_only_version_folders (host : Host) :
  emits (deletes_within (sweep_target host)) (cleanAllExceptLatest host).
Proof.
  unfold cleanAllExceptLatest.
  apply emits_bind; [apply emits_emit; reflexivity|]. intros _.
  apply emits_try_catch; [|intros error; apply emits_emit; reflexivity].
  apply emits_bind.
  { unfold sweepDeviceSupport. destruct (isDarwin host) eqn:Hd; [|apply emits_ret].
    apply emits_bind; [apply emits_lift|]. intros [|]; [|apply emits_ret].
    eapply emits_weaken; [|apply emits_sweepVersions].
    intros [] H; simpl in *; auto. left. now split. }
  intros acc1. apply emits_bind.
  { unfold sweepAndroidSdk.
    apply emits_bind; [apply emits_lift|]. intros [|]; [|apply emits_ret].
    apply emits_forOf. intros acc component Hin.
    apply emits_bind; [apply emits_lift|]. intros [|]; [|apply emits_ret].
    eapply emits_weaken; [|apply emits_sweepVersions].
    intros [] H; simpl in *; auto. right. left. now exists component. }
  intros acc2. apply emits_bind.
  { unfold sweepDotnetPacks.
    apply emits_bind; [apply emits_lift|]. intros [|]; [|apply emits_ret].
    apply emits_bind; [apply (reads_emits _ _ _ (subdirectories_reads _))|].
    intros packs. apply emits_forOf. intros acc pack Hin.
    eapply emits_weaken; [|apply emits_sweepVersions].
    intros [] H; simpl in *; auto. right. right. left. now exists pack. }
  intros acc3. apply emits_bind.
  { eapply emits_weaken; [|apply emits_sweepSimulatorRuntime].
    intros [] H; simpl in *; auto. right. right. right. exact H. }
  intros [totalSize removedCount]. apply emits_emit; reflexivity.
Qed.


Lemma removeVersions_counts_every_entry (host : Host) (l : list Item) :
  forall (totalSize removedCount totalSize' removedCount' : Z) (w w' : world),
    removeVersions host l (totalSize, removedCount) w
    = (Ok (totalSize', removedCount'), w') ->
    removedCount' = removedCount + Z.of_nat (List.length l).
Proof.
  unfold removeVersions.
  induction l as [|x l IH]; intros t c t' c' w w' Hrun; cbn [forOf] in Hrun.
  - unfold ret in Hrun. injection Hrun as _ <- _. simpl. lia.
  - unfold bind at 1 in Hrun.
    destruct (removeVersionsStep host (t, c) x w) as [[[t1 c1]|e] w1] eqn:Hstep;
      [|discriminate].
    apply IH in Hrun. subst c'.
    unfold removeVersionsStep, bind, ret in Hstep.
    destruct (getFolderSizeM (ipath x) w) as [[size|e] v1]; [|discriminate].
    destruct (deleteFolderRecursive host (ipath x) v1) as [[[]|e] v2]; [|discriminate].
    injection Hstep as _ <- _. cbn [List.length]. lia.
Qed.

(** X9.  When [cleanAllExceptLatest]'s pass over one directory of
    versions completes, [removedCount] has grown by the number of
    sub-directories less one (by nothing when there is none): all but one
    are counted. *)
Theorem sweepVersions_counts_all_but_one
  (host : Host) (root : path) (totalSize removedCount totalSize' removedCount' : Z)
  (w w' : world) :
  sweepVersions host root (totalSize, removedCount) w
  = (Ok (totalSize', removedCount'), w') ->
  exists folders,
    subdirs_of (fs w) root = Ok folders /\
    removedCount' = removedCount + Z.of_nat (List.length folders - 1).
Proof.
  unfold sweepVersions, bind. rewrite (subdirectories_reads root w).
  destruct (subdirs_of (fs w) root) as [folders|e]; [|discriminate].
  intros Hrun. exists folders. split; [reflexivity|].
  apply removeVersions_counts_every_entry in Hrun. subst removedCount'.
  f_equal. f_equal.
  set (versions := map _ folders).
  assert (Hlen : List.length versions = List.length folders) by apply length_map.
  destruct (le_lt_dec (List.length versions) 1) as [Hle|Hgt].
  - unfold keepLatestVersion.
    destruct (Nat.leb_spec (List.length versions) 1); [simpl; lia|lia].
  - destruct (keepLatestVersion_submultiset versions ltac:(lia)) as [kept Hp].
    apply Permutation_length in Hp. simpl in Hp. lia.
Qed.

Lemma sweepVersions_counts_all_but_one_witness :
  exists folders,
    subdirs_of Scenario.packsTree Scenario.packDir = Ok folders /\
    2 = 0 + Z.of_nat (List.length folders - 1).
Proof.
  exact (sweepVersions_counts_all_but_one
           Scenario2.obligingHost Scenario.packDir 0 0 300 2
           Scenario.packsWorld
           (mkWorld (Fs.remove (Scenario.packDir ++ ["8.0.3"])
                       (Fs.remove (Scenario.packDir ++ ["8.0.40"]) Scenario.packsTree))
                    [Exec "rm -rf" (Scenario.packDir ++ ["8.0.40"]);
                     Exec "rm -rf" (Scenario.packDir ++ ["8.0.3"])])
           eq_refl).
Defined.

Lemma keep_directories_sub (r : node) (root : path) (names : list string) :
  forall kept,
    keep_directories r root names = Ok kept ->
    incl kept names /\ (NoDup names -> NoDup kept).
Proof.
  induction names as [|name rest IH]; intros kept Hk; simpl in Hk.
  - injection Hk as <-. split; [apply incl_refl|auto].
  - destruct (Fs.statSync r (root ++ [name])) as [n|e]; [|discriminate].
    destruct (keep_directories r root rest) as [kept'|e]; [|discriminate].
    destruct (IH kept' eq_refl) as [Hincl Hnd].
    injection Hk as <-. split.
    + destruct (Fs.isDirectory n).
      * intros x [->|Hx]; [now left|right; now apply Hincl].
      * intros x Hx. right. now apply Hincl.
    + intros Hnames. inversion Hnames as [|? ? Hnotin Hrest]; subst.
      destruct (Fs.isDirectory n); [|now apply Hnd].
      constructor; [|now apply Hnd]. intros Hin. apply Hnotin. now apply Hincl.
Qed.

Lemma subdirs_unique (r : node) (root : path) (folders : list string) :
  unique_names r -> subdirs_of r root = Ok folders -> NoDup folders.
Proof.
  intros Hu. unfold subdirs_of, Fs.readdirSync.
  destruct (Fs.resolve r root) as [[sz c|entries|]|] eqn:Hres; try discriminate.
  intros Hk. destruct (resolve_subtree root r _ Hres Hu) as [Hdir _].
  inversion Hdir as [| |? Hnd _]; subst.
  now apply (proj2 (keep_directories_sub _ _ _ _ Hk)).
Qed.

Lemma versionsIn_paths (root : path) (folders : list string) :
  NoDup folders -> NoDup (map ipath (versionsIn root folders)).
Proof.
  unfold versionsIn. rewrite map_map. simpl. intros Hnd.
  induction Hnd as [|f l Hnotin Hnd IH]; simpl; constructor; [|assumption].
  rewrite in_map_iff. intros [g [Heq Hin]].
  apply app_inv_head in Heq. injection Heq as ->. contradiction.
Qed.

(** X10.  In a file system where no directory lists a name twice, the pass
    over one directory of versions never runs the shell on the folder that
    comes first in the descending version order: the latest version is
    never deleted, and what is deleted is an entry of that directory. *)
Theorem sweepVersions_keeps_the_latest
  (host : Host) (root : path) (acc : Z * Z) (w : world)
  (folders : list string) (kept : Item) :
  unique_names (fs w) ->
  subdirs_of (fs w) root = Ok folders ->
  hd_error (JsArray.sort byVersionDescending (versionsIn root folders)) = Some kept ->
  emits_at w
    (deletes_within (fun target => target <> ipath kept /\ child_of root target))
    (sweepVersions host root acc).
Proof.
  intros Hu Hsub Hkept.
  pose proof (subdirs_unique _ _ _ Hu Hsub) as Hnd.
  unfold sweepVersions. apply emits_at_bind.
  { apply (reads_emits _ _ _ (subdirectories_reads root)). }
  intros folders' w1 Hread. rewrite (subdirectories_reads root w), Hsub in Hread.
  injection Hread as <- <-.
  apply emits_removeVersions. intros x command Hin. simpl.
  fold (versionsIn root folders) in Hin.
  split.
  - pose proof (versionsIn_paths root folders Hnd) as Hpaths.
    pose proof (sort_perm byVersionDescending (versionsIn root folders)) as Hperm.
    apply (Permutation_map ipath) in Hperm.
    apply (Permutation_NoDup Hperm) in Hpaths.
    unfold keepLatestVersion in Hin.
    destruct (List.length (versionsIn root folders) <=? 1)%nat; [contradiction|].
    destruct (JsArray.sort byVersionDescending (versionsIn root folders))
      as [|first rest]; [discriminate|].
    injection Hkept as ->. simpl in Hin, Hpaths.
    inversion Hpaths as [|? ? Hnotin _]; subst.
    intros Heq. apply Hnotin. rewrite <- Heq. now apply in_map.
  - apply keepLatestVersion_In in Hin. unfold versionsIn in Hin.
    apply in_map_iff in Hin. destruct Hin as [folder [<- _]]. now exists folder.
Qed.

Lemma sweepVersions_keeps_the_latest_witness :
  emits_at Scenario.packsWorld
    (deletes_within
       (fun target => target <> Scenario.packDir ++ ["8.0.100"] /\
                      child_of Scenario.packDir target))
    (sweepVersions Scenario2.obligingHost Scenario.packDir (0, 0)).
Proof.
  apply (sweepVersions_keeps_the_latest
           Scenario2.obligingHost Scenario.packDir (0, 0) Scenario.packsWorld
           ["8.0.3"; "8.0.40"; "8.0.100"]
           (mkItem "8.0.100" "" "" (Scenario.packDir ++ ["8.0.100"]) false)).
  - unfold Scenario.packsWorld, Scenario.packsTree. simpl. unique_names_by_inspection.
  - reflexivity.
  - reflexivity.
Defined.

(** X11.  With a manifest that parses and gives the installed set [used],
    the asset-bundle block of the sweep only runs the shell on entries of
    the runtime directory whose name ends with [.asset] and which its own
    tag calls not in use. *)
Theorem sweep_spares_assets_tagged_in_use
  (host : Host) (acc : Z * Z) (w : world)
  (content : string) (doc : XmlDoc) (used : JsSet.t) :
  Fs.readFileSync (fs w) xmlPath = Ok content ->
  parseString host content = Ok doc ->
  usedRuntimesOf doc = Ok used ->
  emits_at w
    (deletes_within
       (fun target => exists name,
            target = runtimePath ++ [name] /\
            JsString.endsWith ".asset" name = true /\
            assetIsUsed used name = false))
    (sweepSimulatorRuntime host acc).
Proof.
  intros Hread Hparse Hused.
  unfold sweepSimulatorRuntime. destruct (isDarwin host); [|apply emits_ret].
  apply emits_at_bind; [apply emits_lift|]. intros [|] w1 H1; [|apply emits_ret].
  apply emits_at_bind; [apply emits_lift|]. intros [|] w2 H2; [|apply emits_ret].
  apply emits_at_bind; [apply emits_lift|]. intros xmlContent w3 H3.
  unfold existsSync, lift in H1, H2. injection H1 as _ <-. injection H2 as _ <-.
  unfold readFileSync, lift in H3. rewrite Hread in H3. injection H3 as <- <-.
  apply emits_at_bind.
  { exists []. unfold parseStringM. simpl. rewrite app_nil_r. auto. }
  intros doc' w4 H4. unfold parseStringM in H4. rewrite Hparse in H4.
  injection H4 as <- <-.
  apply emits_at_bind; [apply emits_lift|]. intros used' w5 H5.
  unfold lift in H5. rewrite Hused in H5. injection H5 as <- <-.
  apply emits_at_bind; [apply emits_lift|]. intros names w6 H6.
  apply emits_removeVersions. intros x command Hin. simpl.
  destruct (unusedAssets_origin used names x Hin) as (name & _ & Hp & Hs & Hun).
  now exists name.
Qed.

Lemma sweep_spares_assets_tagged_in_use_witness :
  emits_at (mkWorld Scenario.runtimesAB [])
    (deletes_within
       (fun target => exists name,
            target = runtimePath ++ [name] /\
            JsString.endsWith ".asset" name = true /\
            assetIsUsed [Some "A"] name = false))
    (sweepSimulatorRuntime Scenario.runtimeHost (0, 0)).
Proof.
  apply (sweep_spares_assets_tagged_in_use
           Scenario.runtimeHost (0, 0) (mkWorld Scenario.runtimesAB [])
           "<assets>" Scenario.manifestA [Some "A"]); reflexivity.
Defined.


(** ** The interactive commands *)

Lemma emits_bind_showQuickPick {B} (host : Host) (ok : event -> Prop)
  (items : list Item) (placeHolder : string) (k : option (list Item) -> M B) :
  ok (QuickPick placeHolder items) ->
  emits ok (k (quickPick host placeHolder items)) ->
  emits ok (bind (showQuickPick host items placeHolder) k).
Proof.
  intros Hok Hk w. apply emits_at_bind.
  - exists [QuickPick placeHolder items]. simpl. auto.
  - intros a w1 Heq. unfold showQuickPick, bind, emit, ret in Heq.
    injection Heq as <- _. apply Hk.
Qed.

Lemma emits_bind_showWarningMessage {B} (host : Host) (ok : event -> Prop)
  (msg : string) (k : option string -> M B) :
  ok (Warning msg) ->
  emits ok (k (warningAnswer host msg)) ->
  emits ok (bind (showWarningMessage host msg) k).
Proof.
  intros Hok Hk w. apply emits_at_bind.
  - exists [Warning msg]. simpl. auto.
  - intros a w1 Heq. unfold showWarningMessage, bind, emit, ret in Heq.
    injection Heq as <- _. apply Hk.
Qed.

Lemma emits_parseStringM (host : Host) (ok : event -> Prop) (s : string) :
  emits ok (parseStringM host s).
Proof. intros w. exists []. unfold parseStringM. simpl. rewrite app_nil_r. auto. Qed.

Lemma emits_quiet_keeps_fs {A} (c : M A) (w : world) :
  emits quiet c -> fs (snd (c w)) = fs w /\ exists new,
    shown (snd (c w)) = shown w ++ new /\ exec_targets new = [].
Proof.
  intros Hc. destruct (Hc w) as (new & Hs & Hq & Hfs).
  assert (Hx : exec_targets new = []).
  { clear Hs Hfs. induction Hq as [|e l He _ IH]; [reflexivity|].
    change (e :: l) with ([e] ++ l). rewrite exec_targets_app, IH, app_nil_r.
    exact He. }
  split; [auto|]. now exists new.
Qed.

Lemma emits_nothing_to_delete {A} (P : path -> Prop) (c : M A) :
  (forall t, ~ P t) -> emits (deletes_within P) c -> emits quiet c.
Proof.
  intros Hno. apply emits_weaken. intros [] H; try reflexivity.
  simpl in H. now apply Hno in H.
Qed.

Lemma dismissed_picks_nothing (host : Host) :
  always_dismissed host -> forall t, ~ picked host t.
Proof.
  intros Hd t (ph & items & sel & Hq & Hin).
  destruct (Hd ph items) as [H|H]; rewrite H in Hq; [discriminate|].
  injection Hq as <-. contradiction.
Qed.

Ltac not_a_loop :=
  lazymatch goal with
  | |- emits _ (removeSelected _ _ _) => fail
  | |- emits _ (forOf _ _ _) => fail
  | |- _ => idtac
  end.

Ltac emits_auto :=
  repeat (not_a_loop; first
    [ apply emits_ret
    | apply emits_throw
    | apply emits_lift
    | apply emits_parseStringM
    | apply (reads_emits _ _ _ (subdirectories_reads _))
    | apply emits_emit; [first [exact I | reflexivity] | reflexivity]
    | apply emits_bind_showQuickPick; [first [exact I | reflexivity]|]
    | apply emits_bind_showWarningMessage; [first [exact I | reflexivity]|]
    | apply emits_mapM; intros ? ?
    | apply emits_bind; [|intros ?]
    | apply emits_try_catch; [|intros ?]
    | match goal with
      | |- emits _ (if negb ?b then _ else _) => destruct b eqn:?
      | |- emits _ (if ?b then _ else _) => destruct b eqn:?
      | |- emits _ (match ?x with (_, _) => _ end) => is_var x; destruct x
      end ]).

Lemma emits_removeSelected_picked (host : Host) (describe : Item -> string -> string)
  (placeHolder : string) (items selected : list Item) :
  quickPick host placeHolder items = Some selected ->
  emits (deletes_within (picked host)) (removeSelected host describe selected).
Proof.
  intros Hq. eapply emits_weaken; [|apply removeSelected_deletes_only_selected].
  intros [] H; simpl in *; auto. now exists placeHolder, items, selected.
Qed.

(** X12.  Every path [cleanIosDeviceSupport] runs the shell on is the path
    of an item the picker gave back; with a picker that is dismissed, or
    confirmed with nothing ticked, the command deletes nothing and leaves
    the file system as it found it. *)
Theorem cleanIosDeviceSupport_deletes_only_picked (host : Host) :
  emits (deletes_within (picked host)) (cleanIosDeviceSupport host) /\
  (always_dismissed host -> emits quiet (cleanIosDeviceSupport host)).
Proof.
  assert (H : emits (deletes_within (picked host)) (cleanIosDeviceSupport host)).
  { unfold cleanIosDeviceSupport. emits_auto.
    destruct (quickPick host _ _) as [[|item selected]|] eqn:Hq; emits_auto.
    - eapply emits_removeSelected_picked, Hq. }
  split; [exact H|].
  intros Hd. eapply emits_nothing_to_delete; [|exact H].
  now apply dismissed_picks_nothing.
Qed.

Lemma cleanIosDeviceSupport_deletes_only_picked_witness :
  emits quiet (cleanIosDeviceSupport Scenario.deviceSupportHost).
Proof.
  apply (proj2 (cleanIosDeviceSupport_deletes_only_picked Scenario.deviceSupportHost)).
  intros placeHolder items. left. reflexivity.
Defined.

Lemma filter_nonempty_existsb {A} (f : A -> bool) (l : list A) :
  (0 <? List.length (filter f l))%nat = existsb f l.
Proof.
  induction l as [|x l IH]; simpl; [reflexivity|].
  destruct (f x); simpl; [reflexivity|exact IH].
Qed.

Lemma emits_bind_ret {A B} (ok : event -> Prop) (a : A) (k : A -> M B) :
  emits ok (k a) -> emits ok (bind (ret a) k).
Proof. intros Hk w. exact (Hk w). Qed.

Lemma emits_warning_then {B} (host : Host) (ok : event -> Prop) (msg : string)
  (f : option string -> bool) (k : bool -> M B) :
  ok (Warning msg) ->
  emits ok (k (f (warningAnswer host msg))) ->
  emits ok (bind (bind (showWarningMessage host msg) (fun confirm => ret (f confirm))) k).
Proof.
  intros Hok Hk w.
  destruct (Hk (mkWorld (fs w) (shown w ++ [Warning msg]))) as (new & Hs & Hf & Hfs).
  exists (Warning msg :: new).
  unfold bind, showWarningMessage, emit, ret in *. simpl in *.
  rewrite Hs, <- app_assoc. auto.
Qed.

(** X13.  Every path [cleanIosSimulatorRuntime] runs the shell on is the
    path of an item of a selection the picker gave back, and when that
    selection holds an item in use, the warning was answered "Yes".  So
    when every selection holds an item in use and the answer is never
    "Yes", the command deletes nothing. *)
Theorem cleanIosSimulatorRuntime_deletes_only_confirmed (host : Host) :
  emits (deletes_within (confirmed host)) (cleanIosSimulatorRuntime host) /\
  ((forall msg, warningAnswer host msg <> Some "Yes") ->
   (forall placeHolder items selected,
       quickPick host placeHolder items = Some selected ->
       selected = [] \/ existsb isUsed selected = true) ->
   emits quiet (cleanIosSimulatorRuntime host)).
Proof.
  assert (H : emits (deletes_within (confirmed host)) (cleanIosSimulatorRuntime host)).
  { unfold cleanIosSimulatorRuntime. emits_auto.
    destruct (quickPick host _ _) as [[|item selected]|] eqn:Hq;
      [apply emits_ret | | apply emits_ret].
    rewrite filter_nonempty_existsb.
    assert (Hdel : (existsb isUsed (item :: selected) = true ->
                    exists msg, warningAnswer host msg = Some "Yes") ->
                   forall describe,
                     emits (deletes_within (confirmed host))
                           (removeSelected host describe (item :: selected))).
    { intros Hyes describe.
      eapply emits_weaken; [|apply removeSelected_deletes_only_selected].
      intros [] Hin; simpl in *; auto.
      eexists _, _, _. split; [exact Hq|]. split; [exact Hin|exact Hyes]. }
    destruct (existsb isUsed (item :: selected)) eqn:Hused.
    - apply emits_warning_then; [exact I|].
      match goal with |- context [warningAnswer host ?m] =>
        destruct (JsSet.value_eqb (warningAnswer host m) (Some "Yes")) eqn:Hyes;
        [apply value_eqb_eq in Hyes|] end; cbn [negb].
      + apply emits_bind; [apply Hdel; intros _; eexists; exact Hyes|].
        intros [removedCount totalSize]. apply emits_emit; [exact I|reflexivity].
      + apply emits_ret.
    - apply emits_bind_ret. cbn [negb].
      apply emits_bind; [apply Hdel; discriminate|].
      intros [removedCount totalSize]. apply emits_emit; [exact I|reflexivity]. }
  split; [exact H|].
  intros Hno Hsel. eapply emits_nothing_to_delete; [|exact H].
  intros t (ph & items & sel & Hq & Hin & Hyes).
  destruct (Hsel _ _ _ Hq) as [->|Hused]; [contradiction|].
  destruct (Hyes Hused) as [msg Hmsg]. now apply (Hno msg).
Qed.

Lemma cleanIosSimulatorRuntime_deletes_only_confirmed_witness :
  emits quiet (cleanIosSimulatorRuntime Scenario3.cautiousHost).
Proof.
  apply (proj2 (cleanIosSimulatorRuntime_deletes_only_confirmed Scenario3.cautiousHost)).
  - intros msg. discriminate.
  - intros placeHolder items selected. simpl. unfold Scenario3.pick_if_in_use.
    destruct (existsb isUsed items) eqn:Hused; [|discriminate].
    intros [= <-]. now right.
Defined.

(** ** Running a command step by step *)

Lemma run_bind_emit {B} (e : event) (k : unit -> M B) (w : world) :
  bind (emit e) k w = k tt (showing w [e]).
Proof. reflexivity. Qed.

Lemma reads_existsSync (p : path) : reads (existsSync p) (fun r => Ok (Fs.existsSync r p)).
Proof. apply reads_lift. Qed.

Lemma reads_getFolderSizeM (p : path) : reads (getFolderSizeM p) (fun r => getFolderSize r p).
Proof. apply reads_lift. Qed.

Lemma reads_readdirSync (p : path) : reads (readdirSync p) (fun r => Fs.readdirSync r p).
Proof. apply reads_lift. Qed.

Lemma reads_readFileSync (p : path) : reads (readFileSync p) (fun r => Fs.readFileSync r p).
Proof. apply reads_lift. Qed.

Lemma traverse_total {A B} (f : A -> result B) (l : list A) :
  (forall x, In x l -> exists y, f x = Ok y) ->
  exists ys, traverse f l = Ok ys /\ Forall2 (fun x y => f x = Ok y) l ys.
Proof.
  induction l as [|x l IH]; intros Hf; simpl.
  - exists []. split; [reflexivity|constructor].
  - destruct (Hf x (or_introl eq_refl)) as [y Hy].
    destruct IH as [ys [Hys Hall]]; [intros z Hz; apply Hf; now right|].
    exists (y :: ys). rewrite Hy, Hys. split; [reflexivity|now constructor].
Qed.

Lemma traverse_fails {A B} (f : A -> result B) (l : list A) (e : string) :
  (forall x, In x l -> f x = Throw e \/ exists y, f x = Ok y) ->
  (exists x, In x l /\ f x = Throw e) ->
  traverse f l = Throw e.
Proof.
  induction l as [|x l IH]; intros Hf [z [Hz Hfz]]; [contradiction|]. simpl.
  destruct (Hf x (or_introl eq_refl)) as [Hx|[y Hy]]; [now rewrite Hx|].
  rewrite Hy. destruct Hz as [->|Hz]; [congruence|].
  rewrite IH; [reflexivity| |now exists z].
  intros u Hu. apply Hf. now right.
Qed.

Lemma keep_directories_are_directories (r : node) (root : path) (names : list string) :
  forall kept,
    keep_directories r root names = Ok kept ->
    forall name, In name kept ->
      exists entries, Fs.resolve r (root ++ [name]) = Some (Dir entries).
Proof.
  induction names as [|name rest IH]; intros kept Hk; simpl in Hk.
  - injection Hk as <-. contradiction.
  - unfold Fs.statSync in Hk.
    destruct (Fs.resolve r (root ++ [name])) as [n|] eqn:Hres; [|discriminate].
    destruct (keep_directories r root rest) as [kept'|e]; [|discriminate].
    injection Hk as <-.
    destruct n as [sz c|entries|]; simpl; try (now apply IH).
    intros x [<-|Hx]; [now exists entries|now apply (IH kept')].
Qed.

Lemma subdirectory_size (r : node) (root : path) (folders : list string) (folder : string) :
  subdirs_of r root = Ok folders -> In folder folders ->
  exists size, getFolderSize r (root ++ [folder]) = Ok size.
Proof.
  unfold subdirs_of. destruct (Fs.readdirSync r root) as [names|e]; [|discriminate].
  intros Hk Hin.
  destruct (keep_directories_are_directories _ _ _ _ Hk _ Hin) as [entries Hres].
  exists (total_file_bytes (Dir entries)). unfold getFolderSize. rewrite Hres.
  destruct (folderSize_directory (Dir entries)) as [H|H]; [exact H|discriminate].
Qed.

Lemma subdirs_root_exists (r : node) (root : path) (folders : list string) :
  subdirs_of r root = Ok folders -> Fs.existsSync r root = true.
Proof.
  unfold subdirs_of, Fs.readdirSync, Fs.existsSync.
  destruct (Fs.resolve r root); [reflexivity|discriminate].
Qed.


Lemma run_try_reads {A B} (c : M A) (f : node -> result A) (k : A -> M B)
  (h : string -> M B) (w : world) :
  reads c f ->
  try_catch (bind c k) h w = match f (fs w) with
                             | Ok a => try_catch (k a) h w
                             | Throw e => h e w
                             end.
Proof.
  intros Hr. unfold try_catch, bind. rewrite (Hr w).
  destruct (f (fs w)); reflexivity.
Qed.

Lemma run_try_showQuickPick {B} (host : Host) (items : list Item) (ph : string)
  (k : option (list Item) -> M B) (h : string -> M B) (w : world) :
  try_catch (bind (showQuickPick host items ph) k) h w
  = try_catch (k (quickPick host ph items)) h (showing w [QuickPick ph items]).
Proof. reflexivity. Qed.

Lemma reads_sized_items {B} (root : path) (mk : string -> Z -> B) (l : list string) :
  reads (mapM (fun folder =>
                 size <- getFolderSizeM (root ++ [folder]) ;; ret (mk folder size)) l)
        (fun r => traverse (fun folder =>
                              match getFolderSize r (root ++ [folder]) with
                              | Ok size => Ok (mk folder size)
                              | Throw e => Throw e
                              end) l).
Proof.
  apply reads_mapM. intros folder.
  apply (reads_bind _ _ _ (fun size _ => Ok (mk folder size)) (reads_getFolderSizeM _)).
  intros size. apply reads_ret.
Qed.

(** The items built for the sub-directories [folders] of [root]: one per
    folder, in order, each with its measured size. *)
Lemma sized_items_of_subdirectories {B} (r : node) (root : path) (folders : list string)
  (mk : string -> Z -> B) :
  subdirs_of r root = Ok folders ->
  exists items,
    traverse (fun folder =>
                match getFolderSize r (root ++ [folder]) with
                | Ok size => Ok (mk folder size)
                | Throw e => Throw e
                end) folders = Ok items /\
    Forall2 (fun folder item =>
               exists size, getFolderSize r (root ++ [folder]) = Ok size /\
                            item = mk folder size) folders items.
Proof.
  intros Hsub.
  destruct (traverse_total
              (fun folder =>
                 match getFolderSize r (root ++ [folder]) with
                 | Ok size => Ok (mk folder size)
                 | Throw e => Throw e
                 end) folders) as [items [Ht Hall]].
  - intros folder Hin.
    destruct (subdirectory_size _ _ _ _ Hsub Hin) as [size Hsize].
    exists (mk folder size). now rewrite Hsize.
  - exists items. split; [exact Ht|].
    eapply Forall2_impl; [|exact Hall]. intros folder item Hitem. simpl in Hitem.
    destruct (getFolderSize r (root ++ [folder])) as [size|e]; [|discriminate].
    exists size. split; [reflexivity|congruence].
Qed.

Lemma emits_anything_after_pick (host : Host) (describe : Item -> string -> string)
  (summary : Z * Z -> string) (selected : option (list Item)) (h : string -> string) :
  emits (fun _ => True)
    (try_catch
       match selected with
       | Some (item :: rest) =>
           x <- removeSelected host describe (item :: rest) ;;
           showInformationMessage (summary x)
       | _ => ret tt
       end
       (fun error => showErrorMessage (h error))).
Proof.
  apply emits_try_catch; [|intros e; apply emits_emit; [exact I|reflexivity]].
  destruct selected as [[|item rest]|]; try apply emits_ret.
  apply emits_bind.
  - eapply emits_weaken; [|apply removeSelected_deletes_only_selected]. auto.
  - intros x. apply emits_emit; [exact I|reflexivity].
Qed.

(** X14.  On macOS, [cleanIosDeviceSupport] shows the information message
    "No iOS Device Support folders found" and nothing else when the
    device-support directory is missing or has no sub-directory;
    otherwise it opens the picker on exactly one item per sub-directory
    (entries that are not directories are left out), labelled with the
    folder's name, at the folder's path, and showing the size measured for
    it. *)
Theorem cleanIosDeviceSupport_offers_the_subdirectories (host : Host) (w : world) :
  platform host = "darwin" ->
  let root := deviceSupportPath host in
  let nothing :=
    (Ok tt, showing w [ConsoleLog "cleanIosDeviceSupport command executed";
                       Information "No iOS Device Support folders found"]) in
  (Fs.existsSync (fs w) root = false -> cleanIosDeviceSupport host w = nothing) /\
  (subdirs_of (fs w) root = Ok [] -> cleanIosDeviceSupport host w = nothing) /\
  (forall folders,
      subdirs_of (fs w) root = Ok folders -> folders <> [] ->
      exists items rest,
        shown (snd (cleanIosDeviceSupport host w))
        = shown w ++ ConsoleLog "cleanIosDeviceSupport command executed"
                  :: QuickPick "Select iOS Device Support folders to remove" items
                  :: rest /\
        Permutation (map label items) folders /\
        Forall (fun item =>
                  ipath item = root ++ [label item] /\
                  exists size,
                    getFolderSize (fs w) (ipath item) = Ok size /\
                    description item = "Size: " +++ formatBytes size) items).
Proof.
  intros Hp root nothing.
  assert (Hd : isDarwin host = true) by (unfold isDarwin; now rewrite Hp).
  assert (Hstart : forall body handler,
            (consoleLog "cleanIosDeviceSupport command executed" ;;;
             if negb (isDarwin host) then showInformationMessage only_macOS
             else try_catch body handler) w
            = try_catch body handler
                (showing w [ConsoleLog "cleanIosDeviceSupport command executed"])).
  { intros body handler. unfold consoleLog. rewrite run_bind_emit, Hd. reflexivity. }
  split; [|split].
  - intros Hmiss. unfold cleanIosDeviceSupport. rewrite Hstart.
    rewrite (run_try_reads _ _ _ _ _ (reads_existsSync _)).
    cbn [showing fs]. fold root. rewrite Hmiss. cbn [negb].
    unfold nothing, try_catch, showInformationMessage, emit, showing. simpl.
    now rewrite <- app_assoc.
  - intros Hsub. unfold cleanIosDeviceSupport. rewrite Hstart.
    rewrite (run_try_reads _ _ _ _ _ (reads_existsSync _)).
    cbn [showing fs]. fold root. rewrite (subdirs_root_exists _ _ _ Hsub). cbn [negb].
    rewrite (run_try_reads _ _ _ _ _ (subdirectories_reads _)).
    cbn [showing fs]. rewrite Hsub. cbn [List.length Nat.eqb].
    unfold nothing, try_catch, showInformationMessage, emit, showing. simpl.
    now rewrite <- app_assoc.
  - intros folders Hsub Hne. unfold cleanIosDeviceSupport. rewrite Hstart.
    rewrite (run_try_reads _ _ _ _ _ (reads_existsSync _)).
    cbn [showing fs]. fold root. rewrite (subdirs_root_exists _ _ _ Hsub). cbn [negb].
    rewrite (run_try_reads _ _ _ _ _ (subdirectories_reads _)).
    cbn [showing fs]. rewrite Hsub.
    assert (Hlen : (List.length folders =? 0)%nat = false)
      by (destruct folders; [contradiction|reflexivity]).
    rewrite Hlen.
    rewrite (run_try_reads _ _ _ _ _
               (reads_sized_items root
                  (fun folder size =>
                     mkItem folder ("Size: " +++ formatBytes size) "" (root ++ [folder]) false)
                  folders)).
    cbn [showing fs].
    destruct (sized_items_of_subdirectories (fs w) root folders
                (fun folder size =>
                   mkItem folder ("Size: " +++ formatBytes size) "" (root ++ [folder]) false)
                Hsub) as [items [Hitems Hall]].
    rewrite Hitems. rewrite run_try_showQuickPick.
    match goal with |- context [try_catch ?body ?handler ?w1] =>
      destruct (emits_anything_after_pick host
                  (fun folder error => "Error removing " +++ label folder +++ ": " +++ error)
                  (fun x => let '(removedCount, totalSize) := x in
                            "Removed " +++ JsString.ofZ removedCount +++
                            " iOS Device Support folders, freeing " +++ formatBytes totalSize)
                  (quickPick host "Select iOS Device Support folders to remove"
                     (JsArray.sort bySize items))
                  (fun error => "Error cleaning iOS Device Support: " +++ error)
                  w1) as (rest & Hshown & _ & _)
    end.
    exists (JsArray.sort bySize items), rest. split; [|split].
    + match type of Hshown with shown (snd ?lhs) = _ =>
        match goal with |- shown (snd ?g) = _ => replace g with lhs end end.
      * rewrite Hshown. unfold showing. simpl. rewrite <- !app_assoc. reflexivity.
      * destruct (quickPick host _ _) as [[|i l]|]; try reflexivity.
        unfold try_catch, bind.
        destruct (removeSelected host _ (i :: l) _) as [[[c t]|e] w2]; reflexivity.
    + rewrite <- (Permutation_map label (sort_perm bySize items)).
      clear - Hall. induction Hall as [|f i fl il [size [_ ->]] _ IH]; simpl.
      * constructor.
      * now constructor.
    + apply (Permutation_Forall (sort_perm bySize items)).
      clear - Hall. induction Hall as [|f i fl il [size [Hsize ->]] _ IH]; constructor;
        [|exact IH].
      simpl. split; [reflexivity|]. now exists size.
Qed.


Lemma cleanIosDeviceSupport_offers_the_subdirectories_witness :
  exists items rest,
    shown (snd (cleanIosDeviceSupport Scenario.deviceSupportHost
                  (mkWorld Scenario.deviceSupportTree [])))
    = [] ++ ConsoleLog "cleanIosDeviceSupport command executed"
            :: QuickPick "Select iOS Device Support folders to remove" items
            :: rest /\
    Permutation (map label items) ["15.0"; "16.0"] /\
    Forall (fun item =>
              ipath item = deviceSupportPath Scenario.deviceSupportHost ++ [label item] /\
              exists size,
                getFolderSize Scenario.deviceSupportTree (ipath item) = Ok size /\
                description item = "Size: " +++ formatBytes size) items.
Proof.
  apply (proj2 (proj2 (cleanIosDeviceSupport_offers_the_subdirectories
                         Scenario.deviceSupportHost
                         (mkWorld Scenario.deviceSupportTree []) eq_refl))
           ["15.0"; "16.0"]).
  - reflexivity.
  - discriminate.
Defined.

Lemma getFolderSize_outcomes (r : node) (p : path) :
  getFolderSize r p = Throw "ENOTDIR: not a directory, scandir" \/
  exists size, getFolderSize r p = Ok size.
Proof.
  unfold getFolderSize. destruct (Fs.resolve r p) as [n|]; [|right; now exists 0].
  destruct (folderSize_directory n) as [H|H]; [right; eexists; exact H|].
  left. destruct n; try reflexivity. discriminate.
Qed.

Lemma run_try_parse {B} (host : Host) (s : string) (k : XmlDoc -> M B)
  (h : string -> M B) (w : world) :
  try_catch (bind (parseStringM host s) k) h w
  = match parseString host s with
    | Ok doc => try_catch (k doc) h w
    | Throw e => h e w
    end.
Proof.
  unfold try_catch, bind, parseStringM. destruct (parseString host s); reflexivity.
Qed.

(** X15.  [cleanIosSimulatorRuntime] measures every entry of the runtime
    directory whose name ends with [.asset] without asking whether it is a
    directory: when one of them is not, the command ends, before any picker,
    with the error message of its handler about [ENOTDIR]. *)
Theorem cleanIosSimulatorRuntime_fails_on_asset_file
  (host : Host) (w : world) (content : string) (doc : XmlDoc) (names : list string) :
  platform host = "darwin" ->
  Fs.readFileSync (fs w) xmlPath = Ok content ->
  parseString host content = Ok doc ->
  Fs.readdirSync (fs w) runtimePath = Ok names ->
  (exists name n,
      In name names /\ JsString.endsWith ".asset" name = true /\
      Fs.resolve (fs w) (runtimePath ++ [name]) = Some n /\
      Fs.isDirectory n = false) ->
  cleanIosSimulatorRuntime host w
  = (Ok tt,
     showing w [ConsoleLog "cleanIosSimulatorRuntime command executed";
                Error "Error cleaning iOS Simulator Runtime: ENOTDIR: not a directory, scandir"]).
Proof.
  intros Hp Hread Hparse Hnames (name & n & Hin & Hsuffix & Hres & Hnd).
  assert (Hd : isDarwin host = true) by (unfold isDarwin; now rewrite Hp).
  destruct (readable_manifest_exists _ _ Hread) as [Hx _].
  unfold cleanIosSimulatorRuntime, consoleLog. rewrite run_bind_emit, Hd. cbn [negb].
  rewrite (run_try_reads _ _ _ _ _ (reads_existsSync _)).
  cbn [showing fs]. rewrite Hx. cbn [negb].
  rewrite (run_try_reads _ _ _ _ _ (reads_readFileSync _)).
  cbn [showing fs]. rewrite Hread.
  rewrite run_try_parse, Hparse.
  rewrite (run_try_reads _ _ _ _ _ (reads_readdirSync _)).
  cbn [showing fs]. rewrite Hnames.
  rewrite (run_try_reads _ _ _ _ _
             (reads_sized_items runtimePath
                (fun folder size => AssetFolder.make folder (runtimePath ++ [folder]) size)
                (filter (JsString.endsWith ".asset") names))).
  cbn [showing fs].
  rewrite (traverse_fails _ _ "ENOTDIR: not a directory, scandir").
  - unfold showErrorMessage, emit, showing. simpl. now rewrite <- app_assoc.
  - intros folder _.
    destruct (getFolderSize_outcomes (fs w) (runtimePath ++ [folder])) as [H|[size H]];
      rewrite H; [now left|right; eexists; reflexivity].
  - exists name. split; [now apply filter_In|].
    unfold getFolderSize. rewrite Hres.
    destruct n; try reflexivity. discriminate.
Qed.

Lemma cleanIosSimulatorRuntime_fails_on_asset_file_witness :
  let tree := Scenario.runtimeTree
                [(Scenario.manifestName, File 120 "<assets>");
                 ("A.asset", Scenario.folder_of 10); ("notes.asset", File 3 "abc")] in
  cleanIosSimulatorRuntime Scenario.runtimeHost (mkWorld tree [])
  = (Ok tt,
     showing (mkWorld tree [])
       [ConsoleLog "cleanIosSimulatorRuntime command executed";
        Error "Error cleaning iOS Simulator Runtime: ENOTDIR: not a directory, scandir"]).
Proof.
  intros tree.
  apply (cleanIosSimulatorRuntime_fails_on_asset_file
           Scenario.runtimeHost (mkWorld tree []) "<assets>" Scenario.manifestA
           [Scenario.manifestName; "A.asset"; "notes.asset"]);
    try reflexivity.
  exists "notes.asset", (File 3 "abc").
  repeat split; try reflexivity. simpl. auto.
Defined.


(** ** cleanBinObj *)

Lemma emitsL_ret {A} (ok : event -> Prop) (a : A) : emitsL ok (Locals.ret a).
Proof. intros v w. exists []. simpl. rewrite app_nil_r. auto. Qed.

Lemma emitsL_count (ok : event -> Prop) (size : Z) : emitsL ok (Locals.count size).
Proof. intros v w. exists []. simpl. rewrite app_nil_r. auto. Qed.

Lemma emitsL_lift {A} (ok : event -> Prop) (c : M A) :
  emits ok c -> emitsL ok (Locals.lift c).
Proof.
  intros Hc v w. destruct (Hc w) as (new & Hs & Hok & Hfs).
  exists new. unfold Locals.lift. destruct (c w) as [r w']. auto.
Qed.

Lemma emitsL_bind {A B} (ok : event -> Prop) (c : Locals.L A) (k : A -> Locals.L B) :
  emitsL ok c -> (forall a, emitsL ok (k a)) -> emitsL ok (Locals.bind c k).
Proof.
  intros Hc Hk v w. unfold Locals.bind.
  destruct (Hc v w) as (n1 & Hs1 & Hok1 & Hfs1).
  destruct (c v w) as [[[a|e] v1] w1]; simpl in *.
  - destruct (Hk a v1 w1) as (n2 & Hs2 & Hok2 & Hfs2).
    exists (n1 ++ n2). rewrite Hs2, Hs1, app_assoc. split; [reflexivity|].
    split; [now apply Forall_app|].
    rewrite exec_targets_app. intros H. apply app_eq_nil in H as [H1 H2].
    rewrite Hfs2, Hfs1; auto.
  - exists n1. auto.
Qed.

Lemma emitsL_try_catch {A} (ok : event -> Prop) (body : Locals.L A)
  (handler : string -> Locals.L A) :
  emitsL ok body -> (forall e, emitsL ok (handler e)) ->
  emitsL ok (Locals.try_catch body handler).
Proof.
  intros Hc Hk v w. unfold Locals.try_catch.
  destruct (Hc v w) as (n1 & Hs1 & Hok1 & Hfs1).
  destruct (body v w) as [[[a|e] v1] w1]; simpl in *.
  - exists n1. auto.
  - destruct (Hk e v1 w1) as (n2 & Hs2 & Hok2 & Hfs2).
    exists (n1 ++ n2). rewrite Hs2, Hs1, app_assoc. split; [reflexivity|].
    split; [now apply Forall_app|].
    rewrite exec_targets_app. intros H. apply app_eq_nil in H as [H1 H2].
    rewrite Hfs2, Hfs1; auto.
Qed.

Lemma emitsL_forOf {A} (ok : event -> Prop) (body : A -> Locals.L unit) (l : list A) :
  (forall x, In x l -> emitsL ok (body x)) -> emitsL ok (Locals.forOf body l).
Proof.
  induction l as [|x l IH]; intros Hb; simpl.
  - apply emitsL_ret.
  - apply emitsL_bind; [apply Hb; now left|].
    intros _. apply IH. intros y Hy. apply Hb. now right.
Qed.

Lemma emits_block (ok : event -> Prop) (init : Z * Z) (c : Locals.L unit) :
  emitsL ok c -> emits ok (Locals.block init c).
Proof.
  intros Hc w. destruct (Hc init w) as (new & Hs & Hok & Hfs).
  exists new. unfold Locals.block. destruct (c init w) as [[[a|e] v] w']; auto.
Qed.

Lemma emitsL_cleanIfPresent (host : Host) (ok : event -> Prop) (p : path) :
  (forall command, ok (Exec command p)) -> emitsL ok (cleanIfPresent host p).
Proof.
  intros He. unfold cleanIfPresent.
  apply emitsL_bind; [apply emitsL_lift, emits_lift|]. intros [|]; [|apply emitsL_ret].
  apply emitsL_bind; [apply emitsL_lift, emits_lift|]. intros size.
  apply emitsL_bind; [apply emitsL_lift; now apply emits_deleteFolderRecursive|].
  intros _. apply emitsL_count.
Qed.

Lemma cleanWorkspaceFolder_completes (host : Host) (folder : WorkspaceFolder)
  (v : Z * Z) (w : world) :
  fst (fst (cleanWorkspaceFolder host folder v w)) = Ok tt.
Proof.
  unfold cleanWorkspaceFolder, Locals.try_catch.
  match goal with |- context [Locals.bind ?a ?b v w] =>
    destruct (Locals.bind a b v w) as [[[[]|e] v1] w1] end; reflexivity.
Qed.

Lemma forOf_folders_completes (host : Host) (folders : list WorkspaceFolder) :
  forall v w,
    fst (fst (Locals.forOf (cleanWorkspaceFolder host) folders v w)) = Ok tt.
Proof.
  induction folders as [|folder rest IH]; intros v w; simpl; [reflexivity|].
  unfold Locals.bind.
  pose proof (cleanWorkspaceFolder_completes host folder v w) as Hc.
  destruct (cleanWorkspaceFolder host folder v w) as [[[[]|e] v1] w1];
    simpl in Hc; [apply IH|discriminate].
Qed.

(** X16.  [cleanBinObj] never fails as a whole, and the only paths it
    runs the shell on are the [bin] and the [obj] of the open workspace
    folders; with no workspace open it deletes nothing. *)
Theorem cleanBinObj_touches_only_bin_and_obj (host : Host) (bench : Workbench) :
  emits (deletes_within (bin_or_obj bench)) (cleanBinObj host bench) /\
  (forall w, fst (cleanBinObj host bench w) = Ok tt) /\
  (workspaceFolders bench = None ->
   forall w, cleanBinObj host bench w
             = (Ok tt, showing w [ConsoleLog "cleanBinObj command executed";
                                  Error "No workspace folder is open"])).
Proof.
  split; [|split].
  - unfold cleanBinObj.
    apply emits_bind; [apply emits_emit; [exact I|reflexivity]|]. intros _.
    destruct (workspaceFolders bench) as [folders|] eqn:Hws;
      [|apply emits_emit; [exact I|reflexivity]].
    apply emits_bind; [|intros [c t]; apply emits_emit; [exact I|reflexivity]].
    apply emits_block, emitsL_forOf. intros folder Hin.
    unfold cleanWorkspaceFolder.
    apply emitsL_try_catch.
    + apply emitsL_bind; [|intros _];
        apply emitsL_cleanIfPresent; intros command; simpl;
        exists folders, folder; auto.
    + intros e. apply emitsL_lift, emits_emit; [exact I|reflexivity].
  - intros w. unfold cleanBinObj, consoleLog. rewrite run_bind_emit.
    destruct (workspaceFolders bench) as [folders|]; [|reflexivity].
    unfold bind, Locals.block.
    pose proof (forOf_folders_completes host folders (0, 0)
                  (showing w [ConsoleLog "cleanBinObj command executed"])) as Hc.
    destruct (Locals.forOf _ folders _ _) as [[[[]|e] [c t]] w1];
      simpl in Hc; [reflexivity|discriminate].
  - intros Hnone w. unfold cleanBinObj. rewrite Hnone.
    unfold consoleLog, showErrorMessage, bind, emit, showing. simpl.
    now rewrite <- app_assoc.
Qed.

Lemma cleanBinObj_touches_only_bin_and_obj_witness :
  let idle := mkWorkbench None None [] (fun _ r => (r, Throw "")) (fun _ _ => None)
                          (fun _ _ => None) in
  cleanBinObj Scenario2.obligingHost idle (mkWorld Scenario4.projectTree [])
  = (Ok tt, showing (mkWorld Scenario4.projectTree [])
              [ConsoleLog "cleanBinObj command executed";
               Error "No workspace folder is open"]).
Proof.
  intros idle.
  apply (proj2 (proj2 (cleanBinObj_touches_only_bin_and_obj Scenario2.obligingHost idle))).
  reflexivity.
Defined.

(** X17.  In [cleanBinObj], when deleting [bin] of a workspace folder
    fails, the error is reported for that folder, its [obj] is not
    attempted, and the counters are as before. *)
Theorem cleanBinObj_bin_failure_skips_obj
  (host : Host) (folder : WorkspaceFolder) (v : Z * Z) (w : world)
  (size : Z) (r1 : node) (message : string) :
  let binPath := fsPath folder ++ ["bin"] in
  let command := if String.eqb (platform host) "win32" then "rmdir /s /q" else "rm -rf" in
  Fs.existsSync (fs w) binPath = true ->
  getFolderSize (fs w) binPath = Ok size ->
  shell host command binPath (fs w) = (r1, Some message) ->
  cleanWorkspaceFolder host folder v w
  = ((Ok tt, v),
     mkWorld r1 (shown w ++ [Exec command binPath;
                             Error ("Error cleaning " +++ folderName folder +++
                                    ": " +++ message)])).
Proof.
  intros binPath command Hex Hsize Hsh. subst binPath command.
  unfold cleanWorkspaceFolder, cleanIfPresent, Locals.try_catch, Locals.bind,
    Locals.lift, Locals.count, Locals.ret.
  unfold_monad. simpl. rewrite Hex. simpl. rewrite Hsize. simpl. rewrite Hex. simpl.
  rewrite Hsh. simpl. now rewrite <- app_assoc.
Qed.

Lemma cleanBinObj_bin_failure_skips_obj_witness :
  cleanBinObj Scenario4.binLocked (Scenario4.bench (fun _ r => (r, Throw "")))
              (mkWorld Scenario4.projectTree [])
  = (Ok tt,
     mkWorld Scenario4.projectTree
       [ConsoleLog "cleanBinObj command executed";
        Exec "rm -rf" (Scenario4.project ++ ["bin"]);
        Error "Error cleaning App: Device busy";
        Information "Cleaned 0 bin/obj folders, freeing 0 Bytes"]).
Proof.
  pose proof (cleanBinObj_bin_failure_skips_obj
                Scenario4.binLocked (mkFolder "App" Scenario4.project) (0, 0)
                (showing (mkWorld Scenario4.projectTree [])
                         [ConsoleLog "cleanBinObj command executed"])
                4096 Scenario4.projectTree "Device busy" eq_refl eq_refl eq_refl) as H.
  unfold cleanBinObj, consoleLog. rewrite run_bind_emit. cbn [Scenario4.bench workspaceFolders].
  unfold bind, Locals.block. cbn [Locals.forOf]. unfold Locals.bind at 1.
  rewrite H. reflexivity.
Defined.

(** X18.  In [cleanBinObj], when [bin] of a workspace folder was deleted
    and deleting its [obj] then fails, [bin] stays counted, with its size,
    and the error is reported for the folder. *)
Theorem cleanBinObj_obj_failure_keeps_bin_counted
  (host : Host) (folder : WorkspaceFolder) (deletedCount totalSize : Z) (w : world)
  (size size' : Z) (r1 r2 : node) (message : string) :
  let binPath := fsPath folder ++ ["bin"] in
  let objPath := fsPath folder ++ ["obj"] in
  let command := if String.eqb (platform host) "win32" then "rmdir /s /q" else "rm -rf" in
  Fs.existsSync (fs w) binPath = true ->
  getFolderSize (fs w) binPath = Ok size ->
  shell host command binPath (fs w) = (r1, None) ->
  Fs.existsSync r1 objPath = true ->
  getFolderSize r1 objPath = Ok size' ->
  shell host command objPath r1 = (r2, Some message) ->
  cleanWorkspaceFolder host folder (deletedCount, totalSize) w
  = ((Ok tt, (deletedCount + 1, totalSize + size)),
     mkWorld r2 (shown w ++ [Exec command binPath; Exec command objPath;
                             Error ("Error cleaning " +++ folderName folder +++
                                    ": " +++ message)])).
Proof.
  intros binPath objPath command Hex Hsize Hsh Hex' Hsize' Hsh'.
  subst binPath objPath command.
  unfold cleanWorkspaceFolder, cleanIfPresent, Locals.try_catch, Locals.bind,
    Locals.lift, Locals.count, Locals.ret.
  unfold_monad. simpl. rewrite Hex. simpl. rewrite Hsize. simpl. rewrite Hex. simpl.
  rewrite Hsh. simpl. rewrite Hex'. simpl. rewrite Hsize'. simpl. rewrite Hex'. simpl.
  rewrite Hsh'. simpl. now rewrite <- !app_assoc.
Qed.

Lemma cleanBinObj_obj_failure_keeps_bin_counted_witness :
  cleanWorkspaceFolder Scenario4.objLocked (mkFolder "App" Scenario4.project) (0, 0)
                       (mkWorld Scenario4.projectTree [])
  = ((Ok tt, (1, 4096)),
     mkWorld (Fs.remove (Scenario4.project ++ ["bin"]) Scenario4.projectTree)
       [Exec "rm -rf" (Scenario4.project ++ ["bin"]);
        Exec "rm -rf" (Scenario4.project ++ ["obj"]);
        Error "Error cleaning App: Device busy"]).
Proof.
  exact (cleanBinObj_obj_failure_keeps_bin_counted
           Scenario4.objLocked (mkFolder "App" Scenario4.project) 0 0
           (mkWorld Scenario4.projectTree []) 4096 1024
           (Fs.remove (Scenario4.project ++ ["bin"]) Scenario4.projectTree)
           (Fs.remove (Scenario4.project ++ ["bin"]) Scenario4.projectTree)
           "Device busy" eq_refl eq_refl eq_refl eq_refl eq_refl eq_refl).
Defined.


(** ** cleanNugetCache *)

(** X19.  [cleanNugetCache] measures the cache after the command that
    clears it has run: the size in its message is the size the package
    directory has in the file system the command left, so 0 bytes when the
    directory is gone or empty by then. *)
Theorem cleanNugetCache_measures_after_clearing
  (host : Host) (bench : Workbench) (w : world) (r1 : node) (stdout : string) (size : Z) :
  run bench "dotnet nuget locals all --clear" (fs w) = (r1, Ok (stdout, "")) ->
  getFolderSize r1 (nugetCachePath host bench) = Ok size ->
  cleanNugetCache host bench w
  = (Ok tt,
     mkWorld r1
       (shown w ++
        [ConsoleLog "cleanNugetCache command executed";
         Exec "dotnet nuget locals all --clear" [];
         Information ("NuGet cache cleared successfully, freeing " +++ formatBytes size)])).
Proof.
  intros Hrun Hsize.
  unfold cleanNugetCache, execCommand.
  unfold_monad. simpl. rewrite Hrun. simpl.
  destruct (Fs.existsSync r1 (nugetCachePath host bench)) eqn:Hex; simpl.
  - rewrite Hsize. simpl. now rewrite <- !app_assoc.
  - assert (Hzero : size = 0).
    { unfold getFolderSize, Fs.existsSync in *.
      destruct (Fs.resolve r1 (nugetCachePath host bench)); [discriminate|congruence]. }
    subst size. now rewrite <- !app_assoc.
Qed.

Lemma cleanNugetCache_measures_after_clearing_witness :
  let before := Scenario4.nugetTree [("newtonsoft.json", Scenario.folder_of 5000)] in
  cleanNugetCache Scenario2.obligingHost
                  (Scenario4.bench (Scenario4.dotnet_printing ""))
                  (mkWorld before [])
  = (Ok tt,
     mkWorld (Scenario4.nugetTree [])
       [ConsoleLog "cleanNugetCache command executed";
        Exec "dotnet nuget locals all --clear" [];
        Information "NuGet cache cleared successfully, freeing 0 Bytes"]).
Proof.
  intros before.
  exact (cleanNugetCache_measures_after_clearing
           Scenario2.obligingHost (Scenario4.bench (Scenario4.dotnet_printing ""))
           (mkWorld before []) (Scenario4.nugetTree []) "Clearing NuGet cache" 0
           eq_refl eq_refl).
Defined.

(** X20.  When the clearing command fails, or succeeds but prints
    anything on its error stream, [cleanNugetCache] reports an error with
    that text and no size, whatever the command did to the file system. *)
Theorem cleanNugetCache_reports_stderr_as_failure
  (host : Host) (bench : Workbench) (w : world) (r1 : node)
  (outcome : result (string * string)) (text : string) :
  run bench "dotnet nuget locals all --clear" (fs w) = (r1, outcome) ->
  outcome = Throw text \/ (exists stdout, outcome = Ok (stdout, text) /\ text <> "") ->
  cleanNugetCache host bench w
  = (Ok tt,
     mkWorld r1
       (shown w ++
        [ConsoleLog "cleanNugetCache command executed";
         Exec "dotnet nuget locals all --clear" [];
         Error ("Error clearing NuGet cache: " +++ text)])).
Proof.
  intros Hrun Hout.
  unfold cleanNugetCache, execCommand.
  unfold_monad. simpl. rewrite Hrun.
  destruct Hout as [->|[stdout [-> Hne]]]; simpl.
  - now rewrite <- !app_assoc.
  - destruct (String.eqb_spec text "") as [->|_]; [contradiction|]. simpl.
    now rewrite <- !app_assoc.
Qed.

Lemma cleanNugetCache_reports_stderr_as_failure_witness :
  let before := Scenario4.nugetTree [("newtonsoft.json", Scenario.folder_of 5000)] in
  cleanNugetCache Scenario2.obligingHost
                  (Scenario4.bench (Scenario4.dotnet_printing "warn: locked file skipped"))
                  (mkWorld before [])
  = (Ok tt,
     mkWorld (Scenario4.nugetTree [])
       [ConsoleLog "cleanNugetCache command executed";
        Exec "dotnet nuget locals all --clear" [];
        Error "Error clearing NuGet cache: warn: locked file skipped"]).
Proof.
  intros before.
  apply (cleanNugetCache_reports_stderr_as_failure
           Scenario2.obligingHost
           (Scenario4.bench (Scenario4.dotnet_printing "warn: locked file skipped"))
           (mkWorld before []) (Scenario4.nugetTree [])
           (Ok ("Clearing NuGet cache", "warn: locked file skipped"))
           "warn: locked file skipped").
  - reflexivity.
  - right. exists "Clearing NuGet cache". split; [reflexivity|discriminate].
Defined.

(** ** cleanAndroidSdk *)

Lemma emits_bind_showQuickPickOne {B} (bench : Workbench) (ok : event -> Prop)
  (items : list Item) (placeHolder : string) (k : option Item -> M B) :
  ok (QuickPick placeHolder items) ->
  emits ok (k (quickPickOne bench placeHolder items)) ->
  emits ok (bind (showQuickPickOne bench items placeHolder) k).
Proof.
  intros Hok Hk w. apply emits_at_bind.
  - exists [QuickPick placeHolder items]. simpl. auto.
  - intros a w1 Heq. unfold showQuickPickOne, bind, emit, ret in Heq.
    injection Heq as <- _. apply Hk.
Qed.

Lemma run_try_showQuickPickOne {B} (bench : Workbench) (items : list Item) (ph : string)
  (k : option Item -> M B) (h : string -> M B) (w : world) :
  try_catch (bind (showQuickPickOne bench items ph) k) h w
  = try_catch (k (quickPickOne bench ph items)) h (showing w [QuickPick ph items]).
Proof. reflexivity. Qed.

Lemma componentItems_reads (sdkRoot : path) :
  reads (componentItems sdkRoot) (fun r => componentItemsOf r sdkRoot).
Proof.
  intros w. unfold componentItems, componentItemsOf.
  rewrite (reads_mapM _
             (fun c r =>
                match (if Fs.existsSync r (sdkRoot ++ [snd c])
                       then getFolderSize r (sdkRoot ++ [snd c]) else Ok 0) with
                | Ok size =>
                    Ok (mkItem (fst c) ("Size: " +++ formatBytes size) "" [snd c] false)
                | Throw e => Throw e
                end)); [reflexivity|].
  intros c w'. unfold bind, existsSync, getFolderSizeM, lift, ret.
  destruct (Fs.existsSync (fs w') (sdkRoot ++ [snd c])); [|reflexivity].
  destruct (getFolderSize (fs w') (sdkRoot ++ [snd c])); reflexivity.
Qed.

Lemma emits_cleanAndroidComponent (host : Host) (sdkRoot : path)
  (selectedComponent : option Item) :
  emits (deletes_within (picked host))
        (cleanAndroidComponent host sdkRoot selectedComponent).
Proof.
  unfold cleanAndroidComponent.
  destruct selectedComponent as [selected|]; [|apply emits_ret].
  destruct (findComponent (label selected)) as [component|]; [|apply emits_throw].
  cbv zeta. emits_auto.
  destruct (quickPick host _ _) as [[|item rest]|] eqn:Hq; emits_auto.
  eapply emits_removeSelected_picked, Hq.
Qed.

(** X21.  Every path [cleanAndroidSdk] runs the shell on is the path of an item
    the version picker gave back; when that picker is dismissed, or
    confirmed with nothing ticked, and also when the component picker is
    dismissed, the command deletes nothing and leaves the file system as
    it found it. *)
Theorem cleanAndroidSdk_deletes_only_picked (host : Host) (bench : Workbench) :
  emits (deletes_within (picked host)) (cleanAndroidSdk host bench) /\
  (always_dismissed host -> emits quiet (cleanAndroidSdk host bench)) /\
  ((forall placeHolder items, quickPickOne bench placeHolder items = None) ->
   emits quiet (cleanAndroidSdk host bench)).
Proof.
  assert (H : forall ok, (forall e, quiet e -> ok e) ->
            (forall selected,
                emits ok (cleanAndroidComponent host (getAndroidSdkPath host bench)
                            selected)) ->
            emits ok (cleanAndroidSdk host bench)).
  { intros ok Hquiet Hrest. unfold cleanAndroidSdk. cbv zeta.
    apply emits_bind; [apply emits_emit; [now apply Hquiet|reflexivity]|intros _].
    apply emits_try_catch;
      [|intros e; apply emits_emit; [now apply Hquiet|reflexivity]].
    apply emits_bind; [apply emits_lift|intros [|]]; cbn [negb];
      [|apply emits_emit; [now apply Hquiet|reflexivity]].
    apply emits_bind; [apply (reads_emits _ _ _ (componentItems_reads _))|intros items].
    apply emits_bind_showQuickPickOne; [now apply Hquiet|]. apply Hrest. }
  assert (Hpicked : emits (deletes_within (picked host)) (cleanAndroidSdk host bench)).
  { apply H; [intros e; apply quiet_deletes_within|].
    intros selected. apply emits_cleanAndroidComponent. }
  split; [exact Hpicked|]. split.
  - intros Hd. eapply emits_nothing_to_delete; [|exact Hpicked].
    now apply dismissed_picks_nothing.
  - intros Hnone. unfold cleanAndroidSdk. cbv zeta.
    apply emits_bind; [apply emits_emit; reflexivity|intros _].
    apply emits_try_catch; [|intros e; apply emits_emit; reflexivity].
    apply emits_bind; [apply emits_lift|intros [|]]; cbn [negb];
      [|apply emits_emit; reflexivity].
    apply emits_bind; [apply (reads_emits _ _ _ (componentItems_reads _))|intros items].
    apply emits_bind_showQuickPickOne; [reflexivity|].
    rewrite Hnone. apply emits_ret.
Qed.

Lemma cleanAndroidSdk_deletes_only_picked_witness :
  emits quiet (cleanAndroidSdk Scenario2.obligingHost
                 (Scenario4.bench (Scenario4.dotnet_printing ""))).
Proof.
  apply (proj1 (proj2 (cleanAndroidSdk_deletes_only_picked Scenario2.obligingHost
                         (Scenario4.bench (Scenario4.dotnet_printing ""))))).
  intros placeHolder items. left. reflexivity.
Defined.

Lemma run_android_start (host : Host) (bench : Workbench) (w : world) :
  Fs.existsSync (fs w) (getAndroidSdkPath host bench) = true ->
  forall items,
    componentItemsOf (fs w) (getAndroidSdkPath host bench) = Ok items ->
    cleanAndroidSdk host bench w
    = try_catch
        (cleanAndroidComponent host (getAndroidSdkPath host bench)
           (quickPickOne bench "Select Android SDK component to clean" items))
        (fun error =>
           showErrorMessage ("Error cleaning Android SDK components: " +++ error))
        (showing w [ConsoleLog "cleanAndroidSdk command executed";
                    QuickPick "Select Android SDK component to clean" items]).
Proof.
  intros Hroot items Hitems. unfold cleanAndroidSdk, consoleLog. cbv zeta.
  rewrite run_bind_emit.
  rewrite (run_try_reads _ _ _ _ _ (reads_existsSync _)).
  cbn [showing fs]. rewrite Hroot. cbn [negb].
  rewrite (run_try_reads _ _ _ _ _ (componentItems_reads _)).
  cbn [showing fs]. rewrite Hitems.
  rewrite run_try_showQuickPickOne. unfold showing. simpl.
  rewrite <- !app_assoc. reflexivity.
Qed.

(** X22.  When the SDK root is missing, [cleanAndroidSdk] shows one error
    message that names the path and the setting, and opens no picker.
    When the component the user chose has no directory it shows
    "No <name> found", and when that directory has no sub-directory
    "No <name> versions found"; in both cases it ends there. *)
Theorem cleanAndroidSdk_nothing_to_clean (host : Host) (bench : Workbench) (w : world) :
  let root := getAndroidSdkPath host bench in
  let log := ConsoleLog "cleanAndroidSdk command executed" in
  (Fs.existsSync (fs w) root = false ->
   cleanAndroidSdk host bench w
   = (Ok tt,
      showing w [log;
                 Error ("Android SDK path not found at: " +++ pathText root +++ newline +++
                        "Please set the path in extension settings (mauiCleaner.androidSdkPath)" +++
                        " or ensure the default path exists.")])) /\
  (forall items selected name dir,
      Fs.existsSync (fs w) root = true ->
      componentItemsOf (fs w) root = Ok items ->
      quickPickOne bench "Select Android SDK component to clean" items = Some selected ->
      findComponent (label selected) = Some (name, dir) ->
      let picker := QuickPick "Select Android SDK component to clean" items in
      (Fs.existsSync (fs w) (root ++ [dir]) = false ->
       cleanAndroidSdk host bench w
       = (Ok tt, showing w [log; picker; Information ("No " +++ name +++ " found")])) /\
      (subdirs_of (fs w) (root ++ [dir]) = Ok [] ->
       cleanAndroidSdk host bench w
       = (Ok tt, showing w [log; picker;
                            Information ("No " +++ name +++ " versions found")]))).
Proof.
  intros root log. split.
  - intros Hmiss. unfold cleanAndroidSdk, consoleLog. cbv zeta.
    rewrite run_bind_emit.
    rewrite (run_try_reads _ _ _ _ _ (reads_existsSync _)).
    cbn [showing fs]. fold root. rewrite Hmiss. cbn [negb].
    unfold try_catch, showErrorMessage, emit, showing. simpl.
    now rewrite <- app_assoc.
  - intros items selected name dir Hroot Hitems Hpick Hfind picker.
    pose proof (run_android_start host bench w Hroot items Hitems) as Hstart.
    fold root in Hstart. rewrite Hpick in Hstart.
    unfold cleanAndroidComponent in Hstart. rewrite Hfind in Hstart.
    cbv zeta in Hstart. cbn [fst snd] in Hstart.
    rewrite (run_try_reads _ _ _ _ _ (reads_existsSync _)) in Hstart.
    cbn [showing fs] in Hstart.
    split.
    + intros Hmiss. rewrite Hstart, Hmiss. cbn [negb].
      unfold try_catch, showInformationMessage, emit, showing. simpl.
      now rewrite <- !app_assoc.
    + intros Hsub. rewrite Hstart, (subdirs_root_exists _ _ _ Hsub). cbn [negb].
      rewrite (run_try_reads _ _ _ _ _ (subdirectories_reads _)).
      cbn [showing fs]. rewrite Hsub.
      unfold try_catch, showInformationMessage, emit, showing. simpl.
      now rewrite <- !app_assoc.
Qed.

Lemma cleanAndroidSdk_nothing_to_clean_witness :
  cleanAndroidSdk Scenario2.obligingHost Scenario5.bench (mkWorld Scenario5.sdkTree [])
  = (Ok tt,
     showing (mkWorld Scenario5.sdkTree [])
       [ConsoleLog "cleanAndroidSdk command executed";
        QuickPick "Select Android SDK component to clean"
          [mkItem "System Images" "Size: 0 Bytes" "" ["system-images"] false;
           mkItem "Platforms" "Size: 0 Bytes" "" ["platforms"] false;
           mkItem "Build Tools" "Size: 2 KB" "" ["build-tools"] false;
           mkItem "Command-line Tools" "Size: 0 Bytes" "" ["cmdline-tools"] false];
        Information "No System Images found"]).
Proof.
  exact (proj1 (proj2 (cleanAndroidSdk_nothing_to_clean Scenario2.obligingHost
                         Scenario5.bench (mkWorld Scenario5.sdkTree []))
                  _ _ "System Images" "system-images"
                  eq_refl eq_refl eq_refl eq_refl) eq_refl).
Defined.

Lemma size_or_zero (r : node) (p : path) :
  (if Fs.existsSync r p then getFolderSize r p else Ok 0) = getFolderSize r p.
Proof.
  unfold Fs.existsSync, getFolderSize. destruct (Fs.resolve r p); reflexivity.
Qed.

Lemma emits_after_component_pick (host : Host) (sdkRoot : path)
  (selected : option Item) (h : string -> string) :
  emits (fun _ => True)
        (try_catch (cleanAndroidComponent host sdkRoot selected)
                   (fun error => showErrorMessage (h error))).
Proof.
  apply emits_try_catch; [|intros e; apply emits_emit; [exact I|reflexivity]].
  eapply emits_weaken; [|apply emits_cleanAndroidComponent]. auto.
Qed.

(** X23.  Once the SDK root exists, [cleanAndroidSdk] opens its first picker on
    the four components System Images, Platforms, Build Tools and
    Command-line Tools, in that order, each with the size [getFolderSize]
    gives for its directory under the root (0 Bytes for a missing
    one) and with the directory's name as its path. *)
Theorem cleanAndroidSdk_offers_the_components
  (host : Host) (bench : Workbench) (w : world) (s1 s2 s3 s4 : Z) :
  let root := getAndroidSdkPath host bench in
  Fs.existsSync (fs w) root = true ->
  getFolderSize (fs w) (root ++ ["system-images"]) = Ok s1 ->
  getFolderSize (fs w) (root ++ ["platforms"]) = Ok s2 ->
  getFolderSize (fs w) (root ++ ["build-tools"]) = Ok s3 ->
  getFolderSize (fs w) (root ++ ["cmdline-tools"]) = Ok s4 ->
  exists rest,
    shown (snd (cleanAndroidSdk host bench w))
    = shown w ++
      ConsoleLog "cleanAndroidSdk command executed"
      :: QuickPick "Select Android SDK component to clean"
           [mkItem "System Images" ("Size: " +++ formatBytes s1) "" ["system-images"] false;
            mkItem "Platforms" ("Size: " +++ formatBytes s2) "" ["platforms"] false;
            mkItem "Build Tools" ("Size: " +++ formatBytes s3) "" ["build-tools"] false;
            mkItem "Command-line Tools" ("Size: " +++ formatBytes s4) ""
                   ["cmdline-tools"] false]
      :: rest.
Proof.
  intros root Hroot H1 H2 H3 H4.
  assert (Hitems : componentItemsOf (fs w) root
                   = Ok [mkItem "System Images" ("Size: " +++ formatBytes s1) ""
                                ["system-images"] false;
                         mkItem "Platforms" ("Size: " +++ formatBytes s2) ""
                                ["platforms"] false;
                         mkItem "Build Tools" ("Size: " +++ formatBytes s3) ""
                                ["build-tools"] false;
                         mkItem "Command-line Tools" ("Size: " +++ formatBytes s4) ""
                                ["cmdline-tools"] false]).
  { unfold componentItemsOf, components. cbn [traverse fst snd].
    rewrite !size_or_zero, H1, H2, H3, H4. reflexivity. }
  rewrite (run_android_start host bench w Hroot _ Hitems).
  match goal with |- context [try_catch (cleanAndroidComponent host ?r ?sel) _ ?w1] =>
    destruct (emits_after_component_pick host r sel
                (fun error => "Error cleaning Android SDK components: " +++ error) w1)
      as (rest & Hshown & _ & _)
  end.
  exists rest. etransitivity; [exact Hshown|].
  unfold showing. simpl. rewrite <- !app_assoc. reflexivity.
Qed.

Lemma cleanAndroidSdk_offers_the_components_witness :
  exists rest,
    shown (snd (cleanAndroidSdk Scenario2.obligingHost Scenario5.bench
                  (mkWorld Scenario5.sdkTree [])))
    = [] ++
      ConsoleLog "cleanAndroidSdk command executed"
      :: QuickPick "Select Android SDK component to clean"
           [mkItem "System Images" ("Size: " +++ formatBytes 0) "" ["system-images"] false;
            mkItem "Platforms" ("Size: " +++ formatBytes 0) "" ["platforms"] false;
            mkItem "Build Tools" ("Size: " +++ formatBytes 2048) "" ["build-tools"] false;
            mkItem "Command-line Tools" ("Size: " +++ formatBytes 0) ""
                   ["cmdline-tools"] false]
      :: rest.
Proof.
  apply (cleanAndroidSdk_offers_the_components Scenario2.obligingHost Scenario5.bench
           (mkWorld Scenario5.sdkTree []) 0 0 2048 0); reflexivity.
Defined.

(** ** cleanDotnetPacks *)

Lemma path_eqb_eq (p q : path) : path_eqb p q = true <-> p = q.
Proof.
  unfold path_eqb. destruct (list_eq_dec string_dec p q); split; congruence.
Qed.

Lemma addPath_In (s : list path) (p q : path) :
  In q (addPath s p) <-> In q s \/ q = p.
Proof.
  unfold addPath. destruct (existsb (path_eqb p) s) eqn:E.
  - apply existsb_exists in E as [x [Hx Heq]]. apply path_eqb_eq in Heq. subst x.
    split; [auto|]. intros [H|H]; [|subst q]; assumption.
  - rewrite in_app_iff. simpl. intuition.
Qed.

Lemma addPath_NoDup (s : list path) (p : path) : NoDup s -> NoDup (addPath s p).
Proof.
  intros Hs. unfold addPath. destruct (existsb (path_eqb p) s) eqn:E; [assumption|].
  apply NoDup_app; [assumption|repeat constructor; auto|].
  intros x Hx [Heq|[]]. subst x.
  assert (H : existsb (path_eqb p) s = true)
    by (apply existsb_exists; exists p; split; [assumption|now apply path_eqb_eq]).
  congruence.
Qed.

Lemma packs_fold_In (selected : list PackEntry) :
  forall (s : list path) (p : path),
    In p (fold_left (fun s item => if isPack item then addPath s (ipath (entry item)) else s)
                    selected s)
    <-> In p s \/
        exists item, In item selected /\ isPack item = true /\ ipath (entry item) = p.
Proof.
  induction selected as [|x rest IH]; intros s p; simpl.
  - split; [auto|]. intros [H|[item [[] _]]]. assumption.
  - rewrite IH. destruct (isPack x) eqn:E.
    + rewrite addPath_In. split.
      * intros [[H| ->]|[item [Hin H]]]; [now left| |].
        -- right. exists x. auto.
        -- right. exists item. auto.
      * intros [H|[item [[<-|Hin] [Hp Hpath]]]]; [now left; left| |].
        -- left. right. now symmetry.
        -- right. exists item. auto.
    + split.
      * intros [H|[item [Hin H]]]; [now left|]. right. exists item. auto.
      * intros [H|[item [[<-|Hin] [Hp Hpath]]]]; [now left|congruence|].
        right. exists item. auto.
Qed.

Lemma versions_fold_In (selected : list PackEntry) :
  forall (s : list path) (p : path),
    In p (fold_left (fun s item =>
                       if isPack item then s
                       else if isVersion item then addPath s (ipath (entry item)) else s)
                    selected s)
    <-> In p s \/
        exists item, In item selected /\ isPack item = false /\
                     isVersion item = true /\ ipath (entry item) = p.
Proof.
  induction selected as [|x rest IH]; intros s p; simpl.
  - split; [auto|]. intros [H|[item [[] _]]]. assumption.
  - rewrite IH. destruct (isPack x) eqn:E; [|destruct (isVersion x) eqn:E'].
    + split.
      * intros [H|[item [Hin H]]]; [now left|]. right. exists item. auto.
      * intros [H|[item [[<-|Hin] [Hp Hpath]]]]; [now left|congruence|].
        right. exists item. auto.
    + rewrite addPath_In. split.
      * intros [[H| ->]|[item [Hin H]]]; [now left| |].
        -- right. exists x. auto.
        -- right. exists item. auto.
      * intros [H|[item [[<-|Hin] [Hp [Hv Hpath]]]]]; [now left; left| |].
        -- left. right. now symmetry.
        -- right. exists item. auto.
    + split.
      * intros [H|[item [Hin H]]]; [now left|]. right. exists item. auto.
      * intros [H|[item [[<-|Hin] [Hp [Hv Hpath]]]]]; [now left|congruence|].
        right. exists item. auto.
Qed.

Lemma fold_addPath_NoDup {A} (f : list path -> A -> list path) (l : list A) :
  (forall s x, NoDup s -> NoDup (f s x)) ->
  forall s, NoDup s -> NoDup (fold_left f l s).
Proof.
  intros Hf. induction l as [|x l IH]; intros s Hs; simpl; [assumption|].
  apply IH, Hf, Hs.
Qed.

(** The two sets the selection of [cleanDotnetPacks] is split into: the
    first holds exactly the paths of the selected items marked as packs,
    the second exactly the paths of the selected items marked as versions
    and not as packs, and no path is listed twice. *)
Lemma selection_split (selected : list PackEntry) :
  (forall p, In p (packsToRemove selected) <->
             exists item, In item selected /\ isPack item = true /\
                          ipath (entry item) = p) /\
  (forall p, In p (versionsToRemove selected) <->
             exists item, In item selected /\ isPack item = false /\
                          isVersion item = true /\ ipath (entry item) = p) /\
  NoDup (packsToRemove selected) /\ NoDup (versionsToRemove selected).
Proof.
  split; [|split; [|split]].
  - intros p. unfold packsToRemove. rewrite packs_fold_In. simpl. tauto.
  - intros p. unfold versionsToRemove. rewrite versions_fold_In. simpl. tauto.
  - apply fold_addPath_NoDup; [|constructor].
    intros s x Hs. destruct (isPack x); [now apply addPath_NoDup|assumption].
  - apply fold_addPath_NoDup; [|constructor].
    intros s x Hs. destruct (isPack x); [assumption|].
    destruct (isVersion x); [now apply addPath_NoDup|assumption].
Qed.

Lemma emits_removePaths (host : Host) (ok : event -> Prop) (what : string)
  (paths : list path) (acc : Z * Z) :
  (forall p command, In p paths -> ok (Exec command p)) ->
  (forall e, quiet e -> ok e) ->
  emits ok (removePaths host what paths acc).
Proof.
  intros Hp Hq. unfold removePaths. apply emits_forOf.
  intros acc' p Hin. apply emits_removeSelectedStep; [|exact Hq].
  intros command. simpl. now apply Hp.
Qed.

Lemma packItem_reads (host : Host) (packFolder : string) :
  exists f, reads (packItem host packFolder) f.
Proof.
  unfold packItem, sizedItems. eexists.
  eapply reads_bind; [apply subdirectories_reads|]. intros versionFolders.
  eapply reads_bind; [apply reads_getFolderSizeM|]. intros packSize.
  eapply reads_bind.
  - apply reads_mapM. intros folder.
    eapply reads_bind; [apply reads_getFolderSizeM|]. intros size. apply reads_ret.
  - intros versionItems. apply reads_ret.
Qed.

Lemma emits_bind_showQuickPickPacks {B} (bench : Workbench) (ok : event -> Prop)
  (items : list PackEntry) (placeHolder : string)
  (k : option (list PackEntry) -> M B) :
  ok (QuickPick placeHolder (map entry items)) ->
  emits ok (k (quickPickPacks bench placeHolder items)) ->
  emits ok (bind (showQuickPickPacks bench items placeHolder) k).
Proof.
  intros Hok Hk w. apply emits_at_bind.
  - exists [QuickPick placeHolder (map entry items)]. simpl. auto.
  - intros a w1 Heq. unfold showQuickPickPacks, bind, emit, ret in Heq.
    injection Heq as <- _. apply Hk.
Qed.

Lemma emits_removePackSelection (host : Host) (bench : Workbench)
  (placeHolder : string) (items : list PackEntry) :
  emits (deletes_within (picked_pack bench))
        (removePackSelection host (quickPickPacks bench placeHolder items)).
Proof.
  unfold removePackSelection.
  destruct (quickPickPacks bench placeHolder items) as [[|item rest]|] eqn:Hq;
    try apply emits_ret.
  destruct (selection_split (item :: rest)) as (Hpacks & Hversions & _ & _).
  apply emits_bind; [|intros acc; apply emits_bind].
  - apply emits_removePaths; [|apply quiet_deletes_within].
    intros p command Hin. simpl. apply Hpacks in Hin as (x & Hx & Hpack & Hpath).
    exists placeHolder, items, (item :: rest), x. auto.
  - apply emits_removePaths; [|apply quiet_deletes_within].
    intros p command Hin. simpl.
    apply Hversions in Hin as (x & Hx & _ & Hversion & Hpath).
    exists placeHolder, items, (item :: rest), x. auto.
  - intros [removedCount totalSize]. apply emits_emit; [exact I|reflexivity].
Qed.

(** X24.  Every path [cleanDotnetPacks] runs the shell on is the path of an
    item of the picker's answer that is marked as a pack or as a version;
    when the picker is dismissed, or confirmed with nothing ticked, the
    command deletes nothing and leaves the file system as it found it. *)
Theorem cleanDotnetPacks_deletes_only_picked (host : Host) (bench : Workbench) :
  emits (deletes_within (picked_pack bench)) (cleanDotnetPacks host bench) /\
  ((forall placeHolder items,
       quickPickPacks bench placeHolder items = None \/
       quickPickPacks bench placeHolder items = Some []) ->
   emits quiet (cleanDotnetPacks host bench)).
Proof.
  assert (H : emits (deletes_within (picked_pack bench)) (cleanDotnetPacks host bench)).
  { unfold cleanDotnetPacks.
    apply emits_bind; [apply emits_emit; [exact I|reflexivity]|intros _].
    apply emits_try_catch; [|intros e; apply emits_emit; [exact I|reflexivity]].
    apply emits_bind; [apply emits_lift|intros [|]]; cbn [negb];
      [|apply emits_emit; [exact I|reflexivity]].
    apply emits_bind; [apply (reads_emits _ _ _ (subdirectories_reads _))|].
    intros packFolders.
    destruct (List.length packFolders =? 0)%nat;
      [apply emits_emit; [exact I|reflexivity]|].
    apply emits_bind.
    - apply emits_mapM. intros packFolder _.
      destruct (packItem_reads host packFolder) as [f Hf].
      apply (reads_emits _ _ _ Hf).
    - intros items. cbv zeta.
      apply emits_bind_showQuickPickPacks; [exact I|].
      apply emits_removePackSelection. }
  split; [exact H|].
  intros Hd. eapply emits_nothing_to_delete; [|exact H].
  intros t (ph & items & selected & item & Hq & Hin & _).
  destruct (Hd ph items) as [Hn|Hn]; rewrite Hn in Hq; [discriminate|].
  injection Hq as <-. contradiction.
Qed.

Lemma cleanDotnetPacks_deletes_only_picked_witness :
  emits quiet (cleanDotnetPacks Scenario2.obligingHost Scenario5.bench).
Proof.
  apply (proj2 (cleanDotnetPacks_deletes_only_picked Scenario2.obligingHost
                  Scenario5.bench)).
  intros placeHolder items. left. reflexivity.
Defined.

(** X25.  When the packs directory is missing, [cleanDotnetPacks] shows one
    error message that names the path; when it holds no sub-directory,
    the information message "No .NET packs found".  In both cases no
    picker is opened and nothing else happens. *)
Theorem cleanDotnetPacks_nothing_to_clean (host : Host) (bench : Workbench) (w : world) :
  let log := ConsoleLog "cleanDotnetPacks command executed" in
  (Fs.existsSync (fs w) (packsPath host) = false ->
   cleanDotnetPacks host bench w
   = (Ok tt,
      showing w [log; Error (".NET packs directory not found at: " +++
                             pathText (packsPath host))])) /\
  (subdirs_of (fs w) (packsPath host) = Ok [] ->
   cleanDotnetPacks host bench w
   = (Ok tt, showing w [log; Information "No .NET packs found"])).
Proof.
  intros log. split.
  - intros Hmiss. unfold cleanDotnetPacks, consoleLog. rewrite run_bind_emit.
    rewrite (run_try_reads _ _ _ _ _ (reads_existsSync _)).
    cbn [showing fs]. rewrite Hmiss. cbn [negb].
    unfold try_catch, showErrorMessage, emit, showing. simpl.
    now rewrite <- app_assoc.
  - intros Hsub. unfold cleanDotnetPacks, consoleLog. rewrite run_bind_emit.
    rewrite (run_try_reads _ _ _ _ _ (reads_existsSync _)).
    cbn [showing fs]. rewrite (subdirs_root_exists _ _ _ Hsub). cbn [negb].
    rewrite (run_try_reads _ _ _ _ _ (subdirectories_reads _)).
    cbn [showing fs]. rewrite Hsub. cbn [List.length Nat.eqb].
    unfold try_catch, showInformationMessage, emit, showing. simpl.
    now rewrite <- app_assoc.
Qed.

Lemma cleanDotnetPacks_nothing_to_clean_witness :
  cleanDotnetPacks Scenario2.obligingHost Scenario5.bench (mkWorld Scenario5.sdkTree [])
  = (Ok tt,
     showing (mkWorld Scenario5.sdkTree [])
       [ConsoleLog "cleanDotnetPacks command executed";
        Error ".NET packs directory not found at: /usr/local/share/dotnet/packs"]).
Proof.
  apply (proj1 (cleanDotnetPacks_nothing_to_clean Scenario2.obligingHost Scenario5.bench
                  (mkWorld Scenario5.sdkTree []))).
  reflexivity.
Defined.

(** X26.  When a pack and one of its own versions are both ticked, in either
    order, [cleanDotnetPacks] deletes the pack first; the version is gone
    with it, so no second shell command is run, its size counts as 0, and
    it is still counted: the message reports 2 items and the bytes of the
    pack. *)
Theorem cleanDotnetPacks_pack_with_its_version
  (host : Host) (pack version : PackEntry) (selected : list PackEntry)
  (w : world) (size : Z) (r1 : node) :
  let command := if String.eqb (platform host) "win32" then "rmdir /s /q" else "rm -rf" in
  let packPath := ipath (entry pack) in
  selected = [pack; version] \/ selected = [version; pack] ->
  isPack pack = true ->
  isPack version = false -> isVersion version = true ->
  Fs.existsSync (fs w) packPath = true ->
  getFolderSize (fs w) packPath = Ok size ->
  shell host command packPath (fs w) = (r1, None) ->
  Fs.existsSync r1 (ipath (entry version)) = false ->
  removePackSelection host (Some selected) w
  = (Ok tt,
     mkWorld r1 (shown w ++ [Exec command packPath;
                             Information ("Removed 2 items, freeing " +++
                                          formatBytes size)])).
Proof.
  intros command packPath Hsel Hpack Hnp Hver Hex Hsize Hsh Hgone.
  assert (Hps : packsToRemove selected = [packPath]).
  { destruct Hsel as [->| ->]; unfold packsToRemove; simpl;
      rewrite Hpack, Hnp; reflexivity. }
  assert (Hvs : versionsToRemove selected = [ipath (entry version)]).
  { destruct Hsel as [->| ->]; unfold versionsToRemove; simpl;
      rewrite Hpack, Hnp, Hver; reflexivity. }
  assert (Hzero : getFolderSize r1 (ipath (entry version)) = Ok 0).
  { unfold Fs.existsSync in Hgone. unfold getFolderSize.
    destruct (Fs.resolve r1 (ipath (entry version))); [discriminate|reflexivity]. }
  unfold removePackSelection.
  assert (Hne : exists x rest, selected = x :: rest)
    by (destruct Hsel as [->| ->]; eauto).
  destruct Hne as (x & rest & Hx). rewrite Hx, <- Hx. clear x rest Hx.
  rewrite Hps, Hvs. destruct w as [r evs]. simpl in *.
  unfold removePaths. cbn [forOf].
  unfold_monad. simpl.
  fold packPath. rewrite Hsize. simpl. rewrite Hex. simpl.
  fold command. rewrite Hsh. simpl.
  rewrite Hzero. simpl. rewrite Hgone. simpl.
  rewrite Z.add_0_r, <- !app_assoc. reflexivity.
Qed.

Lemma cleanDotnetPacks_pack_with_its_version_witness :
  removePackSelection Scenario2.obligingHost
    (Some [Scenario6.version; Scenario6.pack]) Scenario.packsWorld
  = (Ok tt,
     mkWorld (Fs.remove Scenario.packDir Scenario.packsTree)
       ([] ++ [Exec "rm -rf" Scenario.packDir;
               Information ("Removed 2 items, freeing " +++ formatBytes 600)])).
Proof.
  apply (cleanDotnetPacks_pack_with_its_version Scenario2.obligingHost
           Scenario6.pack Scenario6.version [Scenario6.version; Scenario6.pack]
           Scenario.packsWorld 600 (Fs.remove Scenario.packDir Scenario.packsTree)).
  - right. reflexivity.
  - reflexivity.
  - reflexivity.
  - reflexivity.
  - reflexivity.
  - reflexivity.
  - reflexivity.
  - reflexivity.
Defined.

(** ** What formatBytes prints *)

Lemma append_empty_r (s : string) : s +++ "" = s.
Proof. induction s as [|c s IH]; simpl; [reflexivity|now rewrite IH]. Qed.

Lemma append_assoc3 (a b c : string) : (a +++ b) +++ c = a +++ b +++ c.
Proof. induction a as [|x a IH]; simpl; [reflexivity|now rewrite IH]. Qed.

Lemma sizes_at_bounds (i : Z) (unit : string) :
  sizes_at i = Some unit -> 0 <= i < 5.
Proof.
  unfold sizes_at. destruct (Z.ltb_spec i 0); [discriminate|]. intros Hn.
  assert (Hlt : (Z.to_nat i < List.length sizes)%nat)
    by (apply nth_error_Some; congruence).
  simpl in Hlt. lia.
Qed.

(** Every whole number of units below 1024, for every unit of the table,
    run through [formatBytes]. *)
Lemma whole_units_checked :
  forallb (fun i =>
             forallb (fun n =>
                        String.eqb (formatBytes (Z.of_nat n * 1024 ^ Z.of_nat i))
                                   (JsString.ofZ (Z.of_nat n) +++ " " +++
                                    show_undefined (sizes_at (Z.of_nat i))))
                     (seq 1 (Z.to_nat 1023)))
          (seq 0 5) = true.
Proof. vm_compute. reflexivity. Qed.

(** X27.  A whole number of units is printed without a fraction: for
    [1 <= n < 1024] and a unit of the table, [formatBytes] of [n] times
    the unit is [n], a space and the unit's name. *)
Theorem formatBytes_whole_units (n i : Z) (unit : string) :
  1 <= n < 1024 -> sizes_at i = Some unit ->
  formatBytes (n * 1024 ^ i) = JsString.ofZ n +++ " " +++ unit.
Proof.
  intros Hn Hu. pose proof (sizes_at_bounds _ _ Hu) as Hi.
  pose proof whole_units_checked as Hall.
  rewrite forallb_forall in Hall.
  assert (Hin : In (Z.to_nat i) (seq 0 5)) by (apply in_seq; lia).
  specialize (Hall _ Hin). rewrite forallb_forall in Hall.
  assert (Hin' : In (Z.to_nat n) (seq 1 (Z.to_nat 1023))) by (apply in_seq; lia).
  specialize (Hall _ Hin').
  rewrite !Z2Nat.id, Hu in Hall by lia.
  now apply String.eqb_eq.
Qed.

Lemma formatBytes_whole_units_witness :
  formatBytes (900 * 1024 ^ 1) = JsString.ofZ 900 +++ " " +++ "KB".
Proof.
  apply (formatBytes_whole_units 900 1 "KB"); [lia|reflexivity].
Defined.

(** Every byte count less than a two-hundredth of a unit below 1024 KB
    and below 1024 MB, run through [formatBytes]. *)
Lemma just_below_checked :
  forallb (fun d => String.eqb (formatBytes (1024 ^ 2 - Z.of_nat d)) "1024 KB")
          (seq 1 5) = true /\
  forallb (fun d => String.eqb (formatBytes (1024 ^ 3 - Z.of_nat d)) "1024 MB")
          (seq 1 (Z.to_nat 5242)) = true.
Proof. split; vm_compute; reflexivity. Qed.

(** X28.  Rounding to two decimals can reach the next unit without changing
    the unit printed: a byte count less than a two-hundredth of a KB below
    1024 KB, or of a MB below 1024 MB, is printed as "1024" of that unit,
    not as "1" of the next. *)
Theorem formatBytes_prints_1024 (b i : Z) (unit : string) :
  i = 1 \/ i = 2 ->
  sizes_at i = Some unit ->
  b < 1024 ^ (i + 1) ->
  200 * (1024 ^ (i + 1) - b) <= 1024 ^ i ->
  formatBytes b = "1024 " +++ unit.
Proof.
  intros Hi Hu Hhi Hnear. destruct just_below_checked as [Hkb Hmb].
  rewrite forallb_forall in Hkb, Hmb.
  destruct Hi as [-> | ->]; injection Hu as <-.
  - change (1024 ^ (1 + 1)) with 1048576 in *. change (1024 ^ 1) with 1024 in *.
    assert (Hin : In (Z.to_nat (1048576 - b)) (seq 1 5)) by (apply in_seq; lia).
    specialize (Hkb _ Hin). rewrite Z2Nat.id in Hkb by lia.
    replace (1024 ^ 2 - (1048576 - b)) with b in Hkb
      by (change (1024 ^ 2) with 1048576; lia).
    now apply String.eqb_eq.
  - change (1024 ^ (2 + 1)) with 1073741824 in *. change (1024 ^ 2) with 1048576 in *.
    assert (Hin : In (Z.to_nat (1073741824 - b)) (seq 1 (Z.to_nat 5242))) by (apply in_seq; lia).
    specialize (Hmb _ Hin). rewrite Z2Nat.id in Hmb by lia.
    replace (1024 ^ 3 - (1073741824 - b)) with b in Hmb
      by (change (1024 ^ 3) with 1073741824; lia).
    now apply String.eqb_eq.
Qed.

Lemma formatBytes_prints_1024_witness : formatBytes 1048575 = "1024 " +++ "KB".
Proof.
  apply (formatBytes_prints_1024 1048575 1 "KB");
    [now left | reflexivity | reflexivity | vm_compute; discriminate].
Defined.

(** ** The number the pickers sort by *)

Lemma digits_go_acc (d : Decimal.uint) :
  forall (acc : positive) (rest : string),
    (forall c s, rest = String c s -> JsString.is_digit c = false) ->
    JsString.digits_go true (Z.pos acc) (NilEmpty.string_of_uint d +++ rest)
    = Some (Z.pos (Pos.of_uint_acc d acc)).
Proof.
  induction d; intros acc rest Hrest;
    cbn [NilEmpty.string_of_uint String.append Pos.of_uint_acc JsString.digits_go];
    try (match goal with
         | |- context [JsString.is_digit ?c] =>
             change (JsString.is_digit c) with true; cbv iota
         end;
         match goal with
         | |- JsString.digits_go true ?a _ = Some (Z.pos (Pos.of_uint_acc d ?p)) =>
             replace a with (Z.pos p)
               by (match goal with
                   | |- context [JsString.digit_value ?c] =>
                       let v := eval vm_compute in (JsString.digit_value c) in
                       change (JsString.digit_value c) with v
                   end; lia)
         end;
         apply IHd; exact Hrest).
  destruct rest as [|c s]; [reflexivity|].
  cbn [JsString.digits_go]. now rewrite (Hrest c s eq_refl).
Qed.

Lemma digits_go_uint (d : Decimal.uint) :
  forall (seen : bool) (rest : string),
    (forall c s, rest = String c s -> JsString.is_digit c = false) ->
    d <> Decimal.Nil \/ seen = true ->
    JsString.digits_go seen 0 (NilEmpty.string_of_uint d +++ rest)
    = Some (Z.of_N (Pos.of_uint d)).
Proof.
  induction d; intros seen rest Hrest Hd;
    cbn [NilEmpty.string_of_uint String.append Pos.of_uint JsString.digits_go];
    try (match goal with
         | |- context [JsString.is_digit ?c] =>
             change (JsString.is_digit c) with true; cbv iota
         end).
  - destruct Hd as [Hd| ->]; [congruence|].
    destruct rest as [|c s]; [reflexivity|].
    cbn [JsString.digits_go]. now rewrite (Hrest c s eq_refl).
  - change (10 * 0 + JsString.digit_value "0") with 0. apply IHd; auto.
  - apply (digits_go_acc d 1 rest Hrest).
  - apply (digits_go_acc d 2 rest Hrest).
  - apply (digits_go_acc d 3 rest Hrest).
  - apply (digits_go_acc d 4 rest Hrest).
  - apply (digits_go_acc d 5 rest Hrest).
  - apply (digits_go_acc d 6 rest Hrest).
  - apply (digits_go_acc d 7 rest Hrest).
  - apply (digits_go_acc d 8 rest Hrest).
  - apply (digits_go_acc d 9 rest Hrest).
Qed.

Lemma to_uint_not_Nil (p : positive) : Pos.to_uint p <> Decimal.Nil.
Proof.
  intros H. pose proof (DecimalPos.Unsigned.of_to p) as Hp.
  rewrite H in Hp. discriminate.
Qed.

Lemma uint_digits (d : Decimal.uint) :
  Forall (fun c => JsString.is_digit c = true)
         (list_ascii_of_string (NilEmpty.string_of_uint d)).
Proof. induction d; simpl; constructor; auto. Qed.

Lemma parseInt_digit_head (c : ascii) (s : string) :
  JsString.is_digit c = true ->
  JsString.parseInt (String c s) = JsString.digits_go false 0 (String c s).
Proof.
  destruct c as [b0 b1 b2 b3 b4 b5 b6 b7].
  destruct b0, b1, b2, b3, b4, b5, b6, b7; try discriminate; reflexivity.
Qed.

(** [parseInt] reads back a number that is not negative from the front
    of a text, up to the first character that is not a digit. *)
Lemma parseInt_ofZ (n : Z) (rest : string) :
  0 <= n ->
  (forall c s, rest = String c s -> JsString.is_digit c = false) ->
  JsString.parseInt (JsString.ofZ n +++ rest) = Some n.
Proof.
  intros Hn Hrest. unfold JsString.ofZ.
  destruct n as [|p|p]; [| |lia].
  - change (NilEmpty.string_of_int (Z.to_int 0)) with (NilEmpty.string_of_uint (Decimal.D0 Decimal.Nil)).
    cbn [NilEmpty.string_of_uint String.append].
    rewrite parseInt_digit_head by reflexivity.
    apply (digits_go_uint (Decimal.D0 Decimal.Nil) false rest Hrest).
    left. discriminate.
  - cbn [Z.to_int NilEmpty.string_of_int].
    pose proof (to_uint_not_Nil p) as Hnil.
    pose proof (uint_digits (Pos.to_uint p)) as Hdig.
    pose proof (digits_go_uint (Pos.to_uint p) false rest Hrest (or_introl Hnil)) as Hgo.
    rewrite DecimalPos.Unsigned.of_to in Hgo.
    destruct (NilEmpty.string_of_uint (Pos.to_uint p)) as [|c s] eqn:Hs.
    + destruct (Pos.to_uint p); try discriminate. congruence.
    + cbn [String.append] in *. inversion Hdig as [|? ? Hc _]; subst.
      rewrite parseInt_digit_head by exact Hc. exact Hgo.
Qed.

Lemma chars_append (a b : string) :
  list_ascii_of_string (a +++ b) = list_ascii_of_string a ++ list_ascii_of_string b.
Proof. induction a as [|c a IH]; simpl; [reflexivity|now rewrite IH]. Qed.

Lemma rev_string_snoc (cur : list ascii) (c : ascii) (s : string) :
  JsString.rev_string (c :: cur) +++ s = JsString.rev_string cur +++ String c s.
Proof.
  unfold JsString.rev_string. simpl. generalize (List.rev cur) as l.
  induction l as [|x l IH]; simpl; [reflexivity|now rewrite IH].
Qed.

(** A text without a colon is one piece. *)
Lemma split_without_colon (s : string) :
  forall cur,
    Forall (fun c => c <> ":"%char) (list_ascii_of_string s) ->
    JsString.split_go ": " 0 cur s = [JsString.rev_string cur +++ s].
Proof.
  induction s as [|c s IH]; intros cur Hs; simpl in Hs.
  - simpl. now rewrite append_empty_r.
  - inversion Hs as [|? ? Hc Hs']; subst.
    cbn [JsString.split_go].
    change (String.prefix ": " (String c s))
      with (if Ascii.ascii_dec ":" c then String.prefix " " s else false).
    destruct (Ascii.ascii_dec ":" c) as [E|_]; [now subst c|].
    rewrite (IH (c :: cur) Hs'). now rewrite rev_string_snoc.
Qed.

Lemma shownSize_of_size_text (text : string) :
  Forall (fun c => c <> ":"%char) (list_ascii_of_string text) ->
  shownSize ("Size: " +++ text) = JsString.parseInt text.
Proof.
  intros Htext. unfold shownSize, JsString.split.
  assert (Hsplit : JsString.split_go ": " 0 [] ("Size: " +++ text)
                   = "Size" :: JsString.split_go ": " 0 [] text).
  { simpl. destruct text; reflexivity. }
  rewrite Hsplit, (split_without_colon text [] Htext). reflexivity.
Qed.

Lemma digit_not_colon (c : ascii) : JsString.is_digit c = true -> c <> ":"%char.
Proof. intros H ->. discriminate. Qed.

Lemma ofZ_without_colon (n : Z) :
  Forall (fun c => c <> ":"%char) (list_ascii_of_string (JsString.ofZ n)).
Proof.
  assert (H : forall d, Forall (fun c => c <> ":"%char)
                               (list_ascii_of_string (NilEmpty.string_of_uint d))).
  { intros d. eapply Forall_impl; [|apply uint_digits]. apply digit_not_colon. }
  unfold JsString.ofZ. destruct (Z.to_int n); simpl; [apply H|].
  constructor; [discriminate|apply H].
Qed.

Lemma unit_without_colon (i : Z) :
  Forall (fun c => c <> ":"%char)
         (list_ascii_of_string (show_undefined (sizes_at i))).
Proof.
  unfold sizes_at. destruct (i <? 0); [repeat constructor; discriminate|].
  destruct (Z.to_nat i) as [|[|[|[|[|n]]]]]; simpl;
    try (repeat constructor; discriminate).
  destruct n; simpl; repeat constructor; discriminate.
Qed.

(** X29.  The number a "Sort by size" callback reads off a size text is the
    whole part of the number [formatBytes] printed, whatever the unit
    index the runtime computed: the fraction and the unit play no part in
    the order of a picker. *)
Theorem shownSize_is_whole_part (bytes i : Z) :
  1 <= bytes < 2 ^ 53 ->
  unitIndex 1024 bytes = Some i ->
  shownSize ("Size: " +++ formatBytes bytes)
  = Some (scaledHundredths bytes 1024 i / 100).
Proof.
  intros Hb Hi.
  assert (Hh : 0 <= scaledHundredths bytes 1024 i).
  { unfold scaledHundredths, toFixed2. destruct (Z.leb_spec 0 i) as [Hnn|Hneg].
    - assert (0 < 1024 ^ i) by (apply Z.pow_pos_nonneg; lia). apply Z.div_pos; lia.
    - assert (0 < 1024 ^ (- i)) by (apply Z.pow_pos_nonneg; lia). apply Z.div_pos; nia. }
  unfold formatBytes. destruct (Z.eqb_spec bytes 0) as [->|_]; [lia|]. cbv zeta.
  rewrite Hi.
  set (h := scaledHundredths bytes 1024 i) in *.
  set (unit := show_undefined (sizes_at i)).
  assert (Hunit : Forall (fun c => c <> ":"%char) (list_ascii_of_string unit))
    by apply unit_without_colon.
  rewrite shownSize_of_size_text.
  - unfold showHundredths. cbv zeta. rewrite append_assoc3.
    apply parseInt_ofZ; [apply Z.div_pos; lia|].
    intros c s. destruct ((h / 10 mod 10 =? 0) && (h mod 10 =? 0)); cbn [String.append];
      intros [= <- _]; reflexivity.
  - unfold showHundredths. cbv zeta. rewrite !chars_append.
    apply Forall_app. split; [apply Forall_app; split|].
    + apply ofZ_without_colon.
    + destruct ((h / 10 mod 10 =? 0) && (h mod 10 =? 0)); [constructor|].
      rewrite chars_append. cbn [list_ascii_of_string]. constructor; [discriminate|].
      rewrite chars_append. apply Forall_app. split; [apply ofZ_without_colon|].
      destruct (h mod 10 =? 0); [constructor|apply ofZ_without_colon].
    + cbn [list_ascii_of_string]. constructor; [discriminate|exact Hunit].
Qed.

Lemma shownSize_is_whole_part_witness :
  shownSize ("Size: " +++ formatBytes (1024 ^ 5 - 1)) = Some 1.
Proof.
  change (Some 1) with (Some (scaledHundredths (1024 ^ 5 - 1) 1024 5 / 100)).
  apply (shownSize_is_whole_part (1024 ^ 5 - 1) 5); [|vm_compute; reflexivity].
  split; [vm_compute; discriminate|reflexivity].
Defined.

(** ** Instances of the general lemmas *)

Lemma removeVersions_failure_aborts_witness :
  removeVersions Scenario.packsHost
    [mkItem "8.0.40" "" "" Scenario.lockedVersion false;
     mkItem "8.0.3" "" "" Scenario.otherVersion false]
    (0, 0) Scenario.packsWorld
  = (Throw "Permission denied",
     mkWorld Scenario.packsTree ([] ++ [Exec "rm -rf" Scenario.lockedVersion])).
Proof.
  apply (removeVersions_failure_aborts Scenario.packsHost
           (mkItem "8.0.40" "" "" Scenario.lockedVersion false)
           [mkItem "8.0.3" "" "" Scenario.otherVersion false]
           (0, 0) Scenario.packsWorld 200 Scenario.packsTree "Permission denied");
    reflexivity.
Defined.

Lemma collectInstalled_members_witness :
  In (Some "A") [Some "A"] <->
  In (Some "A") [] \/
  exists attrs,
    In (mkAsset (Some attrs)) [Scenario.installed "A"; Scenario.installed "A"] /\
    attribute "state" attrs = Some "installed" /\
    attribute "assetId" attrs = Some "A".
Proof.
  apply (collectInstalled_members [Scenario.installed "A"; Scenario.installed "A"]
           [] [Some "A"] (Some "A")).
  reflexivity.
Defined.

Lemma assetIsUsed_plain_name_witness :
  assetIsUsed [Some "A"] ("A" +++ ".asset") = true <-> In (Some "A") [Some "A"].
Proof.
  apply (assetIsUsed_plain_name [Some "A"] "A").
  intros c [<-|[]]. discriminate.
Defined.
